(** * Chat core of qwen-thai-lora: stream decoding, prompt composition,
      the Gradio exchange generators and the PostgreSQL conversation store.

    The development embeds, function by function,
      - [src/thai_model/core/chat_database.py]   (module [ChatDatabaseManager]),
      - [src/src/interfaces/ollama_chat.py]       (module [OllamaChat]),
      - [src/chat_app_vllm.py]                    (module [VLLMChat]),
      - [src/thai_model/interfaces/openai_chat.py](module [OpenAIChat]),
      - [src/chat_gui.py]                         (module [LLMGUIChat]),
      - [src/thai_model/interfaces/web_chat_db.py](module [DatabaseLLMGUIChat]),
    and then states the properties of the specification against them. *)

From Stdlib Require Import String Ascii List NArith ZArith QArith Lia Bool Arith DecimalString.
Import ListNotations.
Open Scope string_scope.
Set Warnings "-register-all".

(* ===================================================================== *)
(** ** Python values used by the chat code                                *)
(* ===================================================================== *)

(** What [json.loads] returns.  Numbers are kept as integers: the chat code
    only ever tests a number for truth, and a float behaves there like any
    integer that is zero exactly when the float is. *)
Inductive json : Type :=
| JNull
| JBool (b : bool)
| JNum (n : Z)
| JStr (s : string)
| JArr (items : list json)
| JObj (fields : list (string * json)).

Inductive builtin_error : Type :=
| TypeError | AttributeError | KeyError | IndexError
| UnicodeDecodeError | ValueError.

Inductive db_error : Type :=
| StringDataRightTruncation   (* value too long for type character varying(n) *)
| ForeignKeyViolation
| CheckViolation
| NumericValueOutOfRange
| UntranslatableCharacter.    (* \u0000 cannot be converted to text *)

(** Exceptions that travel through the modelled functions.
    [RequestException] stands for the whole [requests.exceptions] family and
    carries its message, [APIError] does the same for the errors of the
    vendor's client library; a builtin error remembers the value it was
    raised on. *)
Inductive exn : Type :=
| RequestException (msg : string)
| KeyboardInterrupt
| BuiltinError (k : builtin_error) (culprit : json)
| DatabaseError (k : db_error)
| APIError (msg : string).

(** Outcome of a Python expression or call: a value or a raised exception. *)
Inductive res (A : Type) : Type :=
| Ok (a : A)
| Raise (e : exn).
Arguments Ok {A} a.
Arguments Raise {A} e.

Definition bind {A B : Type} (r : res A) (k : A -> res B) : res B :=
  match r with
  | Ok a => k a
  | Raise e => Raise e
  end.

Notation "x <- c ;; k" := (bind c (fun x => k))
  (at level 61, c at next level, right associativity).

(** Strings, [str] and [bytes] alike, are the sequences of the bytes of
    their UTF-8 encoding: a [str] is a sequence that [utf8] accepts, one
    code point being one to four bytes. *)
Module PyStr.

Definition byte (c : ascii) : N := N_of_ascii c.

  (** A byte [10xxxxxx]. *)
Definition continuation (x : N) : bool := ((128 <=? x) && (x <=? 191))%N.

  (** The second to last bytes of a code point of three bytes that begins
      with [x]: no overlong form, no surrogate. *)
Definition three_bytes (x y z : N) : bool :=
    (continuation z
     && (if x =? 224 then (160 <=? y) && (y <=? 191)
         else if x =? 237 then (128 <=? y) && (y <=? 159)
         else continuation y))%N.

  (** The same for four bytes: no overlong form, nothing above U+10FFFF. *)
Definition four_bytes (x y z w : N) : bool :=
    (continuation z && continuation w
     && (if x =? 240 then (144 <=? y) && (y <=? 191)
         else if x =? 244 then (128 <=? y) && (y <=? 143)
         else continuation y))%N.

  (** Whether [bytes.decode('utf-8')] accepts the bytes. *)
Fixpoint utf8 (s : string) : bool :=
    match s with
    | EmptyString => true
    | String a r1 =>
        let x := byte a in
        if (x <? 128)%N then utf8 r1
        else
          match r1 with
          | EmptyString => false
          | String b r2 =>
              let y := byte b in
              if ((194 <=? x) && (x <=? 223))%N
              then continuation y && utf8 r2
              else
                match r2 with
                | EmptyString => false
                | String c r3 =>
                    let z := byte c in
                    if ((224 <=? x) && (x <=? 239))%N
                    then three_bytes x y z && utf8 r3
                    else
                      match r3 with
                      | EmptyString => false
                      | String d r4 =>
                          ((240 <=? x) && (x <=? 244))%N
                          && four_bytes x y z (byte d) && utf8 r4
                      end
                end
          end
    end.

  (** [line.decode('utf-8')]: the text, which has the same bytes, or
      [None] for [UnicodeDecodeError]. *)
Definition decode (line : string) : option string :=
    if utf8 line then Some line else None.

  (** [str.isspace] for one code point, by the bytes of its encoding:
      U+0009..U+000D, U+001C..U+0020; U+0085, U+00A0; U+1680,
      U+2000..U+200A, U+2028, U+2029, U+202F, U+205F, U+3000. *)
Definition space1 (x : N) : bool :=
    (((9 <=? x) && (x <=? 13)) || ((28 <=? x) && (x <=? 32)))%N.

Definition space2 (x y : N) : bool :=
    ((x =? 194) && ((y =? 133) || (y =? 160)))%N.

Definition space3 (x y z : N) : bool :=
    (((x =? 225) && (y =? 154) && (z =? 128))
     || ((x =? 226) && (y =? 128)
         && (((128 <=? z) && (z <=? 138)) || (z =? 168) || (z =? 169)
             || (z =? 175)))
     || ((x =? 226) && (y =? 129) && (z =? 159))
     || ((x =? 227) && (y =? 128) && (z =? 128)))%N.

  (** [s.lstrip()] *)
Fixpoint lstrip (s : string) : string :=
    match s with
    | EmptyString => EmptyString
    | String a r1 =>
        if space1 (byte a) then lstrip r1
        else
          match r1 with
          | EmptyString => s
          | String b r2 =>
              if space2 (byte a) (byte b) then lstrip r2
              else
                match r2 with
                | EmptyString => s
                | String c r3 =>
                    if space3 (byte a) (byte b) (byte c) then lstrip r3 else s
                end
          end
    end.

  (** [not s] *)
Definition is_empty (s : string) : bool :=
    match s with
    | EmptyString => true
    | _ => false
    end.

  (** [s.rstrip()]: the string is cut where what is left of it is white
      space only.  No byte inside a code point begins a white space, so
      the cut falls between two code points. *)
Fixpoint rstrip (s : string) : string :=
    match s with
    | EmptyString => EmptyString
    | String a r => if is_empty (lstrip s) then EmptyString else String a (rstrip r)
    end.

  (** [s.strip()] *)
Definition strip (s : string) : string := rstrip (lstrip s).

  (** [s[n:]] where the first [n] code points of [s] are ASCII, as they
      are after [s.startswith('data: ')]. *)
Fixpoint drop (n : nat) (s : string) : string :=
    match n, s with
    | O, _ => s
    | S _, EmptyString => EmptyString
    | S m, String _ rest => drop m rest
    end.

  (** [s.startswith(p)] *)
Definition startswith (s p : string) : bool := String.prefix p s.

  (** [p in s] for two strings. *)
Definition contains (p s : string) : bool :=
    match String.index 0 p s with
    | Some _ => true
    | None => false
    end.

  (** The bytes of [s] up to the next code point. *)
Fixpoint continuations (s : string) : string :=
    match s with
    | EmptyString => EmptyString
    | String a r => if continuation (byte a) then String a (continuations r) else EmptyString
    end.

Fixpoint after_continuations (s : string) : string :=
    match s with
    | EmptyString => EmptyString
    | String a r => if continuation (byte a) then after_continuations r else s
    end.

  (** [s[0]] of a [str] that is not empty: its first code point. *)
Definition first_char (s : string) : string :=
    match s with
    | EmptyString => EmptyString
    | String a r => String a (continuations r)
    end.

  (** [len(s)] of a [str]: its code points, one for every byte that is
      no continuation. *)
Fixpoint len (s : string) : nat :=
    match s with
    | EmptyString => O
    | String a r => if continuation (byte a) then len r else S (len r)
    end.

  (** [s[:n]] and [s[n:]] of a [str], by code points. *)
Fixpoint take_chars (n : nat) (s : string) : string :=
    match s with
    | EmptyString => EmptyString
    | String a r =>
        if continuation (byte a) then String a (take_chars n r)
        else
          match n with
          | O => EmptyString
          | S m => String a (take_chars m r)
          end
    end.

Fixpoint drop_chars (n : nat) (s : string) : string :=
    match s with
    | EmptyString => EmptyString
    | String a r =>
        if continuation (byte a) then drop_chars n r
        else
          match n with
          | O => s
          | S m => drop_chars m r
          end
    end.

  (** Whether every byte is a space, U+0020. *)
Fixpoint all_spaces (s : string) : bool :=
    match s with
    | EmptyString => true
    | String a r => (byte a =? 32)%N && all_spaces r
    end.

  (** Whether the string holds U+0000. *)
Fixpoint has_nul (s : string) : bool :=
    match s with
    | EmptyString => false
    | String a r => (byte a =? 0)%N || has_nul r
    end.

End PyStr.

(** The two things the interpreter and its standard library decide: how a
    text parses as JSON ([None] is [json.JSONDecodeError]) and how an
    exception that carries no message of its own prints. *)
Class PyRuntime : Type := {
  parse_json : string -> option json;
  error_text : exn -> string
}.

(** [json.loads(s)] for a [str]; bytes that are no UTF-8 are no [str] and
    no JSON. *)
Definition json_loads `{PyRuntime} (s : string) : option json :=
  if PyStr.utf8 s then parse_json s else None.

(** [str(e)] / [f"{e}"]. *)
Definition py_str `{PyRuntime} (e : exn) : string :=
  match e with
  | RequestException msg => msg
  | APIError msg => msg
  | _ => error_text e
  end.

Module PyJson.

Definition is_str (key : string) (v : json) : bool :=
    match v with
    | JStr s => String.eqb s key
    | _ => false
    end.

  (** [d.get(key)] on the pairs of a dict. *)
Fixpoint lookup (key : string) (fields : list (string * json)) : option json :=
    match fields with
    | [] => None
    | (k, v) :: rest => if String.eqb k key then Some v else lookup key rest
    end.

  (** [key in v] *)
Definition contains (key : string) (v : json) : res bool :=
    match v with
    | JObj fields =>
        Ok (match lookup key fields with Some _ => true | None => false end)
    | JStr s => Ok (PyStr.contains key s)
    | JArr items => Ok (existsb (is_str key) items)
    | _ => Raise (BuiltinError TypeError v)
    end.

  (** [v[key]] for a string key *)
Definition getitem (v : json) (key : string) : res json :=
    match v with
    | JObj fields =>
        match lookup key fields with
        | Some x => Ok x
        | None => Raise (BuiltinError KeyError v)
        end
    | _ => Raise (BuiltinError TypeError v)
    end.

  (** [v.get(key, default)] *)
Definition get (v : json) (key : string) (default : json) : res json :=
    match v with
    | JObj fields =>
        Ok (match lookup key fields with Some x => x | None => default end)
    | _ => Raise (BuiltinError AttributeError v)
    end.

  (** [bool(v)] *)
Definition truthy (v : json) : bool :=
    match v with
    | JNull => false
    | JBool b => b
    | JNum n => negb (Z.eqb n 0)
    | JStr s => negb (PyStr.is_empty s)
    | JArr items => match items with [] => false | _ => true end
    | JObj fields => match fields with [] => false | _ => true end
    end.

  (** [len(v)] *)
Definition len (v : json) : res nat :=
    match v with
    | JArr items => Ok (List.length items)
    | JObj fields => Ok (List.length fields)
    | JStr s => Ok (PyStr.len s)
    | _ => Raise (BuiltinError TypeError v)
    end.

  (** [v[0]]; a dict decoded from JSON has string keys only, so [0] is
      never one of them. *)
Definition first (v : json) : res json :=
    match v with
    | JArr (x :: _) => Ok x
    | JArr [] => Raise (BuiltinError IndexError v)
    | JStr (String c r) => Ok (JStr (PyStr.first_char (String c r)))
    | JStr EmptyString => Raise (BuiltinError IndexError v)
    | JObj _ => Raise (BuiltinError KeyError v)
    | _ => Raise (BuiltinError TypeError v)
    end.

  (** The text of a token that is a [str]. *)
Definition text_of (token : json) : string :=
    match token with
    | JStr t => t
    | _ => EmptyString
    end.

  (** [acc += token] with [acc] a [str] *)
Definition concat (acc : string) (token : json) : res string :=
    match token with
    | JStr t => Ok (acc ++ t)
    | _ => Raise (BuiltinError TypeError token)
    end.

End PyJson.

(** One entry of a conversation: [{"role": ..., "content": ...}]. *)
Record message : Type := Message {
  role : string;
  content : string
}.

(* ===================================================================== *)
(** ** src/thai_model/core/chat_database.py                               *)
(* ===================================================================== *)

Module ChatDatabaseManager.

  (** Values of the [UUID] columns.  [uuid_generate_v4()] of the server and
      [uuid.uuid4()] of the client draw from disjoint supplies. *)
Inductive uuid : Type :=
  | DbUuid (n : nat)
  | LocalUuid (n : nat).

Definition uuid_eqb (a b : uuid) : bool :=
    match a, b with
    | DbUuid x, DbUuid y => Nat.eqb x y
    | LocalUuid x, LocalUuid y => Nat.eqb x y
    | _, _ => false
    end.

  (** A row of [chat_sessions]; the two timestamp columns, which no
      modelled statement reads, are left out. *)
Record session_row : Type := SessionRow {
    session_id : uuid;
    session_name : string;
    backend : string;
    model : string;
    session_metadata : list (string * json)
  }.

  (** A row of [chat_messages] (without [created_at]). *)
Record message_row : Type := MessageRow {
    message_id : uuid;
    message_session : uuid;
    message_role : string;
    message_content : string;
    message_order : Z;
    message_metadata : list (string * json)
  }.

Record database : Type := Database {
    chat_sessions : list session_row;
    chat_messages : list message_row;
    next_uuid : nat
  }.

Definition empty : database := Database [] [] 0.

Definition INTEGER_MAX : Z := 2147483647.

Definition of_session (sid : uuid) (m : message_row) : bool :=
    uuid_eqb (message_session m) sid.

  (** [SELECT ... FROM chat_messages WHERE session_id = sid], in insertion
      order. *)
Definition session_messages (db : database) (sid : uuid) : list message_row :=
    filter (of_session sid) (chat_messages db).

Definition session_orders (db : database) (sid : uuid) : list Z :=
    map message_order (session_messages db sid).

Definition session_exists (db : database) (sid : uuid) : bool :=
    existsb (fun s => uuid_eqb (session_id s) sid) (chat_sessions db).

  (** SQL [MAX]: [None] is [NULL], the aggregate of no rows. *)
Definition sql_max (xs : list Z) : option Z :=
    match xs with
    | [] => None
    | x :: rest => Some (fold_left Z.max rest x)
    end.

  (** [COALESCE(v, d)] *)
Definition coalesce (v : option Z) (d : Z) : Z :=
    match v with
    | Some x => x
    | None => d
    end.

  (** [role IN ('user', 'assistant', 'system')] *)
Definition role_check (r : string) : bool :=
    String.eqb r "user" || String.eqb r "assistant" || String.eqb r "system".

  (** The assignment of a [str] to a [VARCHAR(n)] column: the value
      itself when it has at most [n] characters; its first [n] characters
      when what exceeds them is spaces only; otherwise [None], "value too
      long for type character varying(n)". *)
Definition varchar (n : nat) (s : string) : option string :=
    if (PyStr.len s <=? n)%nat then Some s
    else if PyStr.all_spaces (PyStr.drop_chars n s)
    then Some (PyStr.take_chars n s)
    else None.

  (** Whether [json.dumps(v)] holds the escape of U+0000, which the
      [JSONB] type refuses. *)
Fixpoint json_has_nul (v : json) : bool :=
    match v with
    | JStr s => PyStr.has_nul s
    | JArr items => existsb json_has_nul items
    | JObj fields =>
        existsb (fun kv => match kv with
                           | (k, x) => PyStr.has_nul k || json_has_nul x
                           end) fields
    | _ => false
    end.

  (** The first of the strings that the driver refuses to send: "A string
      literal cannot contain NUL (0x00) characters". *)
Fixpoint first_with_nul (params : list string) : option string :=
    match params with
    | [] => None
    | p :: rest => if PyStr.has_nul p then Some p else first_with_nul rest
    end.

  (** The value of [session_name] that [create_session] inserts. *)
Definition name_of (backend model : string) (session_name : option string)
      (now : string) : string :=
    match session_name with
    | Some n => if PyStr.is_empty n then backend ++ "-" ++ model ++ "-" ++ now else n
    | None => backend ++ "-" ++ model ++ "-" ++ now
    end.

  (** [create_session]: [now] is [datetime.now().strftime("%Y-%m-%d %H:%M")].
      The driver raises [ValueError] on a parameter with a NUL before the
      statement is sent; the server then fits the three values to their
      columns.  A failed statement rolls back and leaves the database as
      it was. *)
Definition create_session (db : database) (backend model : string)
      (session_name : option string) (now : string) : res uuid * database :=
    let name := name_of backend model session_name now in
    match first_with_nul [name; backend; model] with
    | Some p => (Raise (BuiltinError ValueError (JStr p)), db)
    | None =>
        match varchar 255 name, varchar 50 backend, varchar 100 model with
        | Some name', Some backend', Some model' =>
            let sid := DbUuid (next_uuid db) in
            (Ok sid,
             Database (chat_sessions db
                         ++ [SessionRow sid name' backend' model' []])%list
                      (chat_messages db)
                      (S (next_uuid db)))
        | _, _, _ => (Raise (DatabaseError StringDataRightTruncation), db)
        end
    end.

  (** [add_message]: select the next order, insert, return the new id.
      The sum of the [SELECT] overflows on the server; the driver raises
      [ValueError] on a NUL in the role or the content before the [INSERT]
      is sent; the server then takes the values in the order of their
      columns, fitting the role to its column and reading the metadata as
      [JSONB], evaluates the [CHECK], and last looks for the session. *)
Definition add_message (db : database) (sid : uuid) (role content : string)
      (metadata : list (string * json)) : res uuid * database :=
    let message_order := (coalesce (sql_max (session_orders db sid)) 0 + 1)%Z in
    if negb (message_order <=? INTEGER_MAX)%Z
    then (Raise (DatabaseError NumericValueOutOfRange), db)
    else
      match first_with_nul [role; content] with
      | Some p => (Raise (BuiltinError ValueError (JStr p)), db)
      | None =>
          match varchar 20 role with
          | None => (Raise (DatabaseError StringDataRightTruncation), db)
          | Some role' =>
              if json_has_nul (JObj metadata)
              then (Raise (DatabaseError UntranslatableCharacter), db)
              else if negb (role_check role')
              then (Raise (DatabaseError CheckViolation), db)
              else if negb (session_exists db sid)
              then (Raise (DatabaseError ForeignKeyViolation), db)
              else
                let mid := DbUuid (next_uuid db) in
                (Ok mid,
                 Database (chat_sessions db)
                          (chat_messages db
                             ++ [MessageRow mid sid role' content
                                            message_order metadata])%list
                          (S (next_uuid db)))
          end
      end.

  (** [delete_session]: the messages go with the session
      ([ON DELETE CASCADE]); the result is [cur.rowcount > 0]. *)
Definition delete_session (db : database) (sid : uuid) : bool * database :=
    (session_exists db sid,
     Database (filter (fun s => negb (uuid_eqb (session_id s) sid)) (chat_sessions db))
              (filter (fun m => negb (of_session sid m)) (chat_messages db))
              (next_uuid db)).

  (** A call of [add_message], as data. *)
Record call : Type := Call {
    call_session : uuid;
    call_role : string;
    call_content : string;
    call_metadata : list (string * json)
  }.

Definition perform (db : database) (c : call) : res uuid * database :=
    add_message db (call_session c) (call_role c) (call_content c) (call_metadata c).

  (** The database after a series of calls, one transaction each. *)
Definition run (db : database) (calls : list call) : database :=
    fold_left (fun d c => snd (perform d c)) calls db.

Definition succeeded {A : Type} (r : res A) : bool :=
    match r with
    | Ok _ => true
    | Raise _ => false
    end.


End ChatDatabaseManager.

(* ===================================================================== *)
(** ** The reasoning templates and the HTTP exchange                      *)
(* ===================================================================== *)

(** The dict [self.reasoning_prompts], literally the same in
    [ollama_chat.py], [chat_app_vllm.py] and [chat_gui.py]. *)
Module ReasoningPrompts.

Definition detailed : string := "
Think step by step about this question. Show your detailed reasoning process:

**🤔 Analysis:**
1. What is being asked?
2. What information do I need to consider?
3. What are the key points or constraints?

**🧩 Breakdown:**
- Break down the problem into smaller parts
- Consider different approaches or perspectives
- Identify any assumptions I'm making

**⚡ Logic Chain:**
- Step through the reasoning logically
- Show how each step leads to the next
- Consider potential counterarguments or edge cases

**💡 Conclusion:**
[Your final answer with confidence level]

Question: ".

Definition simple : string := "
Show your thinking process briefly:

**🤔 Thinking:** [Quick reasoning steps]
**💡 Answer:** [Your response]

Question: ".

Definition chain : string := "
Use chain-of-thought reasoning. Think through this step-by-step, showing each logical step:

Let me think through this step by step:
Step 1: [First step of reasoning]
Step 2: [Second step of reasoning]
Step 3: [Continue as needed]
Therefore: [Final conclusion]

Question: ".

Definition reasoning_prompts : list (string * string) :=
    [("detailed", detailed); ("simple", simple); ("chain", chain)].

  (** [self.reasoning_prompts.get(mode, default)] *)
Fixpoint get (mode : string) (table : list (string * string))
      (default : string) : string :=
    match table with
    | [] => default
    | (k, v) :: rest => if String.eqb k mode then v else get mode rest default
    end.

End ReasoningPrompts.

(** How the body of a streamed response ends: the server closes it, the
    connection breaks ([requests] raises), or the user presses Ctrl-C while
    the client waits for the next line. *)
Inductive stream_end : Type :=
| EndOfStream
| ConnectionDropped (msg : string)
| CtrlC.

(** What [requests.post(..., stream=True)] hands back.  [lines] is what
    [response.iter_lines()] yields: [bytes], which need not be UTF-8. *)
Record response : Type := Response {
  status_code : Z;
  text : string;
  lines : list string;
  ending : stream_end
}.

(** [requests.post(...)]: a response, a [RequestException], or the
    [KeyboardInterrupt] of a user who does not wait for the answer. *)
Inductive post_result : Type :=
| PostRaises (msg : string)
| PostReturns (r : response)
| PostInterrupted.

(** [f"{n}"] for an [int]. *)
Definition show_int (n : Z) : string := NilEmpty.string_of_int (Z.to_int n).

Definition http_error (r : response) : string :=
  "Error: HTTP " ++ show_int (status_code r) ++ " - " ++ text r.

(** How a read loop was left. *)
Inductive loop_exit : Type :=
| Exhausted
| Break
| Raised (e : exn).

(** What one iteration of a read loop decides. *)
Inductive line_step : Type :=
| Next
| Stop
| Throw (e : exn).

Definition newline : string := "
".

(** What [print("\n⚠️ Response interrupted by user")] writes. *)
Definition interrupt_notice : string :=
  newline ++ "⚠️ Response interrupted by user" ++ newline.

(* ===================================================================== *)
(** ** src/src/interfaces/ollama_chat.py                                  *)
(* ===================================================================== *)

Module OllamaChat.

Record chat : Type := Chat {
    model : string;
    conversation_history : list message;
    show_reasoning : bool;
    reasoning_mode : string;
    stream_response : bool
  }.

  (** The server behind [self.api_url]: its answer to a model and a prompt. *)
Definition backend : Type := string -> string -> post_result.

Definition append_history (self : chat) (m : message) : chat :=
    Chat (model self) (conversation_history self ++ [m])%list
         (show_reasoning self) (reasoning_mode self) (stream_response self).

Section Streaming.
Context `{PyRuntime}.

    (** The body of [for line in response.iter_lines():], lines 110-122:
        the tokens it prints, the new [ai_response], and how it goes on.
        The [except] of line 121 catches [json.JSONDecodeError] and not the
        [UnicodeDecodeError] of [line.decode('utf-8')]. *)
Definition on_line (line : string) (ai_response : string)
        : list string * string * line_step :=
      if PyStr.is_empty line then ([], ai_response, Next)
      else
        match PyStr.decode line with
        | None => ([], ai_response, Throw (BuiltinError UnicodeDecodeError (JStr line)))
        | Some decoded =>
            match json_loads decoded with
            | None => ([], ai_response, Next)
            | Some chunk =>
                match PyJson.contains "response" chunk with
                | Raise e => ([], ai_response, Throw e)
                | Ok has_response =>
                    let taken :=
                      if has_response
                      then token <- PyJson.getitem chunk "response" ;;
                           ai <- PyJson.concat ai_response token ;;
                           Ok ([PyJson.text_of token], ai)
                      else Ok ([], ai_response) in
                    match taken with
                    | Raise e => ([], ai_response, Throw e)
                    | Ok (printed, ai) =>
                        match PyJson.get chunk "done" (JBool false) with
                        | Raise e => (printed, ai, Throw e)
                        | Ok done =>
                            (printed, ai, if PyJson.truthy done then Stop else Next)
                        end
                    end
                end
            end
        end.

Fixpoint read_lines (ls : list string) (ai_response : string)
        : list string * string * loop_exit :=
      match ls with
      | [] => ([], ai_response, Exhausted)
      | line :: rest =>
          match on_line line ai_response with
          | (printed, ai, Next) =>
              let '(more, ai', how) := read_lines rest ai in
              ((printed ++ more)%list, ai', how)
          | (printed, ai, Stop) => (printed, ai, Break)
          | (printed, ai, Throw e) => (printed, ai, Raised e)
          end
      end.

    (** [_send_streaming_message]: what is written to stdout, the chat
        afterwards, and the value returned or the exception raised. *)
Definition _send_streaming_message (self : chat) (prompt : string)
        (server : backend) : list string * chat * res string :=
      match server (model self) prompt with
      | PostRaises msg => ([], self, Raise (RequestException msg))
      | PostInterrupted => ([], self, Raise KeyboardInterrupt)
      | PostReturns r =>
          if negb (status_code r =? 200)%Z then ([], self, Ok (http_error r))
          else
            let '(printed, ai_response, how) := read_lines (lines r) "" in
            let out := ("🤖 Bot: " :: printed)%list in
            let finish (out : list string) (ai : string) :=
              ((out ++ [newline])%list,
               append_history self (Message "assistant" ai),
               Ok ai) in
            match how with
            | Break => finish out ai_response
            | Raised e => (out, self, Raise e)
            | Exhausted =>
                match ending r with
                | EndOfStream => finish out ai_response
                | ConnectionDropped msg => (out, self, Raise (RequestException msg))
                | CtrlC =>
                    finish (out ++ [interrupt_notice])%list
                           (ai_response ++ " [Response interrupted]")
                end
            end
      end.

End Streaming.

End OllamaChat.

(* ===================================================================== *)
(** ** src/chat_app_vllm.py                                               *)
(* ===================================================================== *)

Module VLLMChat.

Record chat : Type := Chat {
    model : string;
    conversation_history : list message;
    show_reasoning : bool;
    reasoning_mode : string;
    stream_response : bool;
    max_tokens : Z;
    temperature : Q
  }.

  (** The JSON body posted to [/v1/chat/completions]. *)
Record payload : Type := Payload {
    payload_model : string;
    payload_messages : list message;
    payload_max_tokens : Z;
    payload_temperature : Q;
    payload_stream : bool
  }.

Definition backend : Type := payload -> post_result.

Definition append_history (self : chat) (m : message) : chat :=
    Chat (model self) (conversation_history self ++ [m])%list
         (show_reasoning self) (reasoning_mode self) (stream_response self)
         (max_tokens self) (temperature self).

  (** [_build_messages], lines 80-96. *)
Definition _build_messages (self : chat) (user_input : string) : list message :=
    let messages :=
      map (fun msg => Message (role msg) (content msg)) (conversation_history self) in
    let content :=
      if show_reasoning self
      then ReasoningPrompts.get (reasoning_mode self)
             ReasoningPrompts.reasoning_prompts ReasoningPrompts.simple
           ++ user_input
      else user_input in
    (messages ++ [Message "user" content])%list.

Section Streaming.
Context `{PyRuntime}.

    (** Lines 153-158, inside the [try]. *)
Definition on_chunk (chunk : json) (ai_response : string)
        : res (list string * string) :=
      has_choices <- PyJson.contains "choices" chunk ;;
      if negb has_choices then Ok ([], ai_response)
      else
        choices <- PyJson.getitem chunk "choices" ;;
        n <- PyJson.len choices ;;
        if negb (0 <? n)%nat then Ok ([], ai_response)
        else
          choice <- PyJson.first choices ;;
          delta <- PyJson.get choice "delta" (JObj []) ;;
          has_content <- PyJson.contains "content" delta ;;
          if negb has_content then Ok ([], ai_response)
          else
            token <- PyJson.getitem delta "content" ;;
            ai <- PyJson.concat ai_response token ;;
            Ok ([PyJson.text_of token], ai).

    (** The body of the [for] loop, lines 143-160.  [line.decode('utf-8')]
        of line 144 stands outside the inner [try]. *)
Definition on_line (line : string) (ai_response : string)
        : list string * string * line_step :=
      if PyStr.is_empty line then ([], ai_response, Next)
      else
        match PyStr.decode line with
        | None => ([], ai_response, Throw (BuiltinError UnicodeDecodeError (JStr line)))
        | Some line_str =>
            if negb (PyStr.startswith line_str "data: ") then ([], ai_response, Next)
            else
              let data_str := PyStr.drop 6 line_str in
              if String.eqb (PyStr.strip data_str) "[DONE]" then ([], ai_response, Stop)
              else
                match json_loads data_str with
                | None => ([], ai_response, Next)
                | Some chunk =>
                    match on_chunk chunk ai_response with
                    | Ok (printed, ai) => (printed, ai, Next)
                    | Raise e => ([], ai_response, Throw e)
                    end
                end
        end.

Fixpoint read_lines (ls : list string) (ai_response : string)
        : list string * string * loop_exit :=
      match ls with
      | [] => ([], ai_response, Exhausted)
      | line :: rest =>
          match on_line line ai_response with
          | (printed, ai, Next) =>
              let '(more, ai', how) := read_lines rest ai in
              ((printed ++ more)%list, ai', how)
          | (printed, ai, Stop) => (printed, ai, Break)
          | (printed, ai, Throw e) => (printed, ai, Raised e)
          end
      end.

    (** [_send_streaming_message], lines 125-169. *)
Definition _send_streaming_message (self : chat) (request : payload)
        (server : backend) : list string * chat * res string :=
      match server request with
      | PostRaises msg => ([], self, Raise (RequestException msg))
      | PostInterrupted => ([], self, Raise KeyboardInterrupt)
      | PostReturns r =>
          if negb (status_code r =? 200)%Z then ([], self, Ok (http_error r))
          else
            let '(printed, ai_response, how) := read_lines (lines r) "" in
            let out := ("🤖 Bot: " :: printed)%list in
            let finish (out : list string) (ai : string) :=
              ((out ++ [newline])%list,
               append_history self (Message "assistant" ai),
               Ok ai) in
            match how with
            | Break => finish out ai_response
            | Raised e => (out, self, Raise e)
            | Exhausted =>
                match ending r with
                | EndOfStream => finish out ai_response
                | ConnectionDropped msg => (out, self, Raise (RequestException msg))
                | CtrlC =>
                    finish (out ++ [interrupt_notice])%list
                           (ai_response ++ " [Response interrupted]")
                end
            end
      end.

End Streaming.

End VLLMChat.

(* ===================================================================== *)
(** ** src/thai_model/interfaces/openai_chat.py                           *)
(* ===================================================================== *)

Module OpenAIChat.

Record chat : Type := Chat {
    model : string;
    conversation_history : list message;
    max_tokens : Z;
    temperature : Q
  }.

  (** The keyword arguments of [client.chat.completions.create]. *)
Record params : Type := Params {
    params_model : string;
    params_messages : list message;
    params_stream : bool;
    params_temperature : option Q;
    params_max_completion_tokens : option Z;
    params_max_tokens : option Z
  }.

  (** A [ChatCompletionChunk] as far as the loop looks into it:
      [chunk.choices[i].delta.content], which the library types as an
      optional string. *)
Record chunk : Type := Chunk {
    choices : list (option string)
  }.

  (** [self.client.chat.completions.create] called: an error of the
      library, a stream of chunks, or the [KeyboardInterrupt] of a user
      who does not wait for the answer. *)
Inductive create_result : Type :=
  | CreateRaises (msg : string)
  | CreateReturns (chunks : list chunk) (ending : stream_end)
  | CreateInterrupted.

Definition client : Type := params -> create_result.

Definition build_params (self : chat) (messages : list message) : params :=
    if PyStr.startswith (model self) "gpt-5"
    then Params (model self) messages true None (Some (max_tokens self)) None
    else if PyStr.startswith (model self) "gpt-4o"
            || PyStr.startswith (model self) "chatgpt-4o"
    then Params (model self) messages true (Some (temperature self))
                (Some (max_tokens self)) None
    else Params (model self) messages true (Some (temperature self))
                None (Some (max_tokens self)).

  (** The [for chunk in response:] loop, lines 167-171. *)
Fixpoint read_chunks (cs : list chunk) (full_response : string)
      : list string * string * loop_exit :=
    match cs with
    | [] => ([], full_response, Exhausted)
    | c :: rest =>
        match choices c with
        | [] => ([], full_response, Raised (BuiltinError IndexError (JArr [])))
        | None :: _ => read_chunks rest full_response
        | Some content :: _ =>
            let '(more, full, how) := read_chunks rest (full_response ++ content) in
            ((content :: more)%list, full, how)
        end
    end.

Section Streaming.
Context `{PyRuntime}.

Definition failed (out : list string) (self : chat) (e : exn)
        : list string * chat * res string :=
      let notice := "\n❌ Streaming error: " ++ py_str e ++ newline in
      ((out ++ [notice])%list,
       self,
       Ok ("❌ Error: " ++ py_str e)).

    (** [_send_streaming_message], lines 139-183. *)
Definition _send_streaming_message (self : chat) (messages : list message)
        (api : client) : list string * chat * res string :=
      let out := ["🤖 Bot: "] in
      match api (build_params self messages) with
      | CreateRaises msg => failed out self (APIError msg)
      | CreateInterrupted => (out, self, Raise KeyboardInterrupt)
      | CreateReturns chunks ending =>
          let '(printed, full_response, how) := read_chunks chunks "" in
          let out := (out ++ printed)%list in
          match how, ending with
          | Raised e, _ => failed out self e
          | Exhausted, ConnectionDropped msg => failed out self (APIError msg)
          | Exhausted, CtrlC => (out, self, Raise KeyboardInterrupt)
          | _, _ =>
              match last (map Some messages) None with
              | None => failed (out ++ [newline])%list self (BuiltinError IndexError (JArr []))
              | Some final =>
                  ((out ++ [newline])%list,
                   Chat (model self)
                        (conversation_history self
                           ++ [Message "user" (content final);
                               Message "assistant" full_response])%list
                        (max_tokens self) (temperature self),
                   Ok full_response)
              end
          end
      end.

End Streaming.

End OpenAIChat.

(* ===================================================================== *)
(** ** src/chat_gui.py                                                    *)
(* ===================================================================== *)

(** An HTTP request of the web interface: [/api/generate] with a model and
    a prompt, or [/v1/chat/completions] with a model and a message list
    ([max_tokens] 2048 and [temperature] 0.7 are constants there); [stream]
    is the flag of the same name. *)
Inductive request : Type :=
| Generate (model prompt : string) (stream : bool)
| ChatCompletions (model : string) (messages : list message) (stream : bool).

(** What a call does besides computing: the order of these is what the
    caller, the server and the store observe. *)
Inductive effect : Type :=
| Posted (r : request)
| Remembered (m : message)
| SessionCreated (sid : ChatDatabaseManager.uuid)
| Stored (sid : ChatDatabaseManager.uuid) (role content : string)
         (metadata : list (string * json))
| StoreFailed (e : exn)
| Yielded (status : string).

(** What [next(generator)] gives its caller. *)
Inductive signal : Type :=
| Yield (status : string)
| StopIteration
| Propagate (e : exn).

(** [history[-1]["content"] = text]; the list is never empty where the
    code does this, two entries having been appended at lines 137-140. *)
Definition set_last_content (history : list message) (text : string)
    : list message :=
  match rev history with
  | [] => []
  | m :: before => (rev before ++ [Message (role m) text])%list
  end.

Module LLMGUIChat.

Record chat : Type := Chat {
    backend : string;
    current_model : string;
    show_reasoning : bool;
    reasoning_mode : string;
    conversation_history : list message
  }.

  (** The arguments of [send_message_stream] / [send_message_non_stream],
      with the server that will answer the request. *)
Record call : Type := Call {
    arg_message : string;
    arg_backend : string;
    arg_model : string;
    arg_reasoning : bool;
    arg_reasoning_mode : string;
    server : request -> post_result
  }.

  (** Where a [send_message_stream] generator is suspended. *)
Inductive pc : Type :=
  | Start
  | InOllama (rest : list string) (ending : stream_end) (ai_response : string)
             (chunk : json)                       (* at the yield of line 195 *)
  | InVllm (rest : list string) (ending : stream_end) (ai_response : string)
                                                  (* at the yield of line 262 *)
  | Completed                                     (* at line 204 or 268 *)
  | Returning              (* at a yield that only a return follows:
                              lines 126, 151, 155, 181, 241 *)
  | Finished.

  (** A generator object: its arguments, the [history] list it shares with
      its caller, and its program counter. *)
Record generator : Type := Generator {
    args : call;
    history : list message;
    at_pc : pc
  }.

Definition start (c : call) (history : list message) : generator :=
    Generator c history Start.

  (** How far a read loop gets before it has to yield. *)
Inductive advance : Type :=
  | Suspended (rest : list string) (ai_response : string) (chunk : json)
  | Broke (ai_response : string)
  | RanOut (ai_response : string)
  | Threw (e : exn).

Definition update_settings (self : chat) (c : call) : chat :=
    Chat (arg_backend c) (arg_model c) (arg_reasoning c) (arg_reasoning_mode c)
         (conversation_history self).

Definition append_history (self : chat) (m : message) : chat :=
    Chat (backend self) (current_model self) (show_reasoning self)
         (reasoning_mode self) (conversation_history self ++ [m])%list.

  (** ["\n".join(parts)] *)
Fixpoint join_lines (parts : list string) : string :=
    match parts with
    | [] => EmptyString
    | [p] => p
    | p :: rest => p ++ newline ++ join_lines rest
    end.

  (** [_build_context], lines 108-120. *)
Definition _build_context (self : chat) : string :=
    join_lines
      (map (fun msg =>
              if String.eqb (role msg) "user"
              then "User: " ++ content msg
              else "Assistant: " ++ content msg)
           (conversation_history self)).

Definition reasoning_prompt (self : chat) : string :=
    ReasoningPrompts.get (reasoning_mode self)
      ReasoningPrompts.reasoning_prompts ReasoningPrompts.simple.

  (** The prompt of [_stream_ollama] and [_get_ollama_response]. *)
Definition ollama_prompt (self : chat) (message : string) : string :=
    if show_reasoning self then reasoning_prompt self ++ message
    else _build_context self.

  (** The message list of [_stream_vllm] and [_get_vllm_response]. *)
Definition vllm_messages (self : chat) (text : string) : list message :=
    let user_message :=
      if show_reasoning self then reasoning_prompt self ++ text else text in
    (removelast (conversation_history self) ++ [Message "user" user_message])%list.

Section Streaming.
Context `{PyRuntime}.

    (** [if chunk.get('done', False):] *)
Definition check_done (chunk : json) : res bool :=
      done <- PyJson.get chunk "done" (JBool false) ;;
      Ok (PyJson.truthy done).

    (** [_stream_ollama], lines 186-200, from the head of the loop to the
        next yield. *)
Fixpoint ollama_advance (ls : list string) (ai_response : string) : advance :=
      match ls with
      | [] => RanOut ai_response
      | line :: rest =>
          if PyStr.is_empty line then ollama_advance rest ai_response
          else
            match PyStr.decode line with
            | None => Threw (BuiltinError UnicodeDecodeError (JStr line))
            | Some decoded =>
                match json_loads decoded with
                | None => ollama_advance rest ai_response
                | Some chunk =>
                    match PyJson.contains "response" chunk with
                    | Raise e => Threw e
                    | Ok true =>
                        match (token <- PyJson.getitem chunk "response" ;;
                               PyJson.concat ai_response token) with
                        | Raise e => Threw e
                        | Ok ai => Suspended rest ai chunk
                        end
                    | Ok false =>
                        match check_done chunk with
                        | Raise e => Threw e
                        | Ok true => Broke ai_response
                        | Ok false => ollama_advance rest ai_response
                        end
                    end
                end
            end
      end.

    (** The same loop, entered after the yield of line 195. *)
Definition ollama_continue (chunk : json) (rest : list string)
        (ai_response : string) : advance :=
      match check_done chunk with
      | Raise e => Threw e
      | Ok true => Broke ai_response
      | Ok false => ollama_advance rest ai_response
      end.

    (** Lines 255-262 inside the [try]: [Some] text when the chunk carried
        content. *)
Definition vllm_on_chunk (chunk : json) (ai_response : string)
        : res (option string) :=
      has_choices <- PyJson.contains "choices" chunk ;;
      if negb has_choices then Ok None
      else
        choices <- PyJson.getitem chunk "choices" ;;
        if negb (PyJson.truthy choices) then Ok None
        else
          choice <- PyJson.first choices ;;
          delta <- PyJson.get choice "delta" (JObj []) ;;
          has_content <- PyJson.contains "content" delta ;;
          if negb has_content then Ok None
          else
            token <- PyJson.getitem delta "content" ;;
            ai <- PyJson.concat ai_response token ;;
            Ok (Some ai).

    (** [_stream_vllm], lines 246-264, to the next yield. *)
Fixpoint vllm_advance (ls : list string) (ai_response : string) : advance :=
      match ls with
      | [] => RanOut ai_response
      | line :: rest =>
          if PyStr.is_empty line then vllm_advance rest ai_response
          else
            match PyStr.decode line with
            | None => Threw (BuiltinError UnicodeDecodeError (JStr line))
            | Some decoded =>
                if negb (PyStr.startswith decoded "data: ")
                then vllm_advance rest ai_response
                else
                  let line_str := PyStr.drop 6 decoded in
                  if String.eqb (PyStr.strip line_str) "[DONE]" then Broke ai_response
                  else
                    match json_loads line_str with
                    | None => vllm_advance rest ai_response
                    | Some chunk =>
                        match vllm_on_chunk chunk ai_response with
                        | Raise e => Threw e
                        | Ok (Some ai) => Suspended rest ai chunk
                        | Ok None => vllm_advance rest ai_response
                        end
                    end
            end
      end.

Definition result : Type := (list effect * signal) * generator * chat.

    (** The two handlers of [send_message_stream], lines 148-155.
        [KeyboardInterrupt] is no [Exception] and leaves the generator. *)
Definition handle (g : generator) (self : chat) (e : exn) : result :=
      let caught (error_msg : string) : result :=
        (([], Yield error_msg),
         Generator (args g) (set_last_content (history g) ("❌ " ++ error_msg))
                   Returning,
         self) in
      match e with
      | RequestException _ => caught ("Connection error: " ++ py_str e)
      | KeyboardInterrupt => (([], Propagate e), Generator (args g) (history g) Finished, self)
      | _ => caught ("Unexpected error: " ++ py_str e)
      end.

    (** What follows a stretch of a read loop: the streaming yield, the
        completion (lines 202-204 and 266-268), or a handler. *)
Definition settle (ollama : bool) (g : generator) (self : chat)
        (ending : stream_end) (a : advance) : result :=
      let name := if ollama then "Ollama" else "vLLM" in
      let complete (ai : string) : result :=
        let reply := Message "assistant" ai in
        (([Remembered reply],
          Yield ("✅ Response completed using " ++ name ++ ": " ++ current_model self)),
         Generator (args g) (history g) Completed,
         append_history self reply) in
      match a with
      | Suspended rest ai chunk =>
          (([], Yield ("🔄 Streaming from " ++ name ++ ": " ++ current_model self)),
           Generator (args g) (set_last_content (history g) ai)
                     (if ollama then InOllama rest ending ai chunk
                      else InVllm rest ending ai),
           self)
      | Broke ai => complete ai
      | RanOut ai =>
          match ending with
          | EndOfStream => complete ai
          | ConnectionDropped msg => handle g self (RequestException msg)
          | CtrlC => handle g self KeyboardInterrupt
          end
      | Threw e => handle g self e
      end.

Definition with_effects (es : list effect) (r : result) : result :=
      let '((es', s), g, self) := r in (((es ++ es')%list, s), g, self).

    (** [send_message_stream] from its first line to its first yield:
        lines 125-146, then [_stream_ollama] 159-186 or [_stream_vllm]
        208-246. *)
Definition begin (g : generator) (self : chat) : result :=
      let c := args g in
      let message := arg_message c in
      if PyStr.is_empty (PyStr.strip message)
      then (([], Yield "❌ Please enter a message"),
            Generator c (history g) Returning, self)
      else
        let user := Message "user" message in
        let self := append_history (update_settings self c) user in
        let g := Generator c (history g ++ [user; Message "assistant" ""])%list Start in
        let ollama := String.eqb (backend self) "ollama" in
        let sent :=
          if ollama
          then Generate (current_model self) (ollama_prompt self message) true
          else ChatCompletions (current_model self) (vllm_messages self message) true in
        with_effects [Remembered user; Posted sent]
          match server c sent with
          | PostRaises msg => handle g self (RequestException msg)
          | PostInterrupted => handle g self KeyboardInterrupt
          | PostReturns r =>
              if negb (status_code r =? 200)%Z
              then (([], Yield (http_error r)),
                    Generator c (set_last_content (history g) ("❌ " ++ http_error r))
                              Returning,
                    self)
              else
                settle ollama g self (ending r)
                  (if ollama then ollama_advance (lines r) ""
                   else vllm_advance (lines r) "")
          end.

    (** [next(generator)] for a [send_message_stream] generator. *)
Definition resume (g : generator) (self : chat) : result :=
      match at_pc g with
      | Start => begin g self
      | InOllama rest ending ai chunk =>
          settle true g self ending (ollama_continue chunk rest ai)
      | InVllm rest ending ai =>
          settle false g self ending (vllm_advance rest ai)
      | Completed | Returning | Finished =>
          (([], StopIteration), Generator (args g) (history g) Finished, self)
      end.

End Streaming.

End LLMGUIChat.

(* ===================================================================== *)
(** ** src/thai_model/interfaces/web_chat_db.py                           *)
(* ===================================================================== *)

(** [DatabaseLLMGUIChat] extends the class [LLMGUIChat] that it imports
    from [thai_model.interfaces.web_chat]; the inherited methods are taken
    from the class of that name in [src/chat_gui.py], modelled above. *)
Module DatabaseLLMGUIChat.

Import ChatDatabaseManager.

  (** The object: the inherited fields and its own.  [db_manager] is set
      exactly when [database_enabled] is, in [__init__]. *)
Record chat : Type := Chat {
    base : LLMGUIChat.chat;
    database_enabled : bool;
    current_session_id : option uuid;
    session_name : option string
  }.

  (** The object, the PostgreSQL database behind its [db_manager], and the
      supply of [uuid.uuid4()]. *)
Record world : Type := World {
    self : chat;
    db : database;
    uuid4 : nat
  }.

  (** Two readings of [datetime.now()]: ["%Y-%m-%d %H:%M"] and ["%H:%M"]. *)
Record clock : Type := Clock {
    date_and_time : string;
    time_of_day : string
  }.

Inductive pc : Type :=
  | Start
  | InParent       (* inside the [for] loop of line 157 *)
  | Finished.

Record generator : Type := Generator {
    parent : LLMGUIChat.generator;
    now : clock;
    at_pc : pc
  }.

Definition start (c : LLMGUIChat.call) (history : list message) (t : clock)
      : generator :=
    Generator (LLMGUIChat.start c history) t Start.

Definition with_base (w : world) (b : LLMGUIChat.chat) : world :=
    World (Chat b (database_enabled (self w)) (current_session_id (self w))
                (session_name (self w)))
          (db w) (uuid4 w).

  (** [name or default] *)
Definition or_default (name : option string) (default : string) : string :=
    match name with
    | Some n => if PyStr.is_empty n then default else n
    | None => default
    end.

  (** [start_new_session], lines 44-56. *)
Definition start_new_session (w : world) (backend model : string)
      (name : option string) (t : clock) : res (list effect * uuid) * world :=
    let b := base (self w) in
    let cleared :=
      LLMGUIChat.Chat (LLMGUIChat.backend b) (LLMGUIChat.current_model b)
                      (LLMGUIChat.show_reasoning b) (LLMGUIChat.reasoning_mode b) [] in
    if database_enabled (self w)
    then
      match create_session (db w) backend model name (date_and_time t) with
      | (Raise e, _) => (Raise e, w)
      | (Ok sid, db') =>
          (Ok ([SessionCreated sid], sid),
           World (Chat cleared true (Some sid)
                       (Some (or_default name
                                (backend ++ "-" ++ model ++ "-" ++ date_and_time t))))
                 db' (uuid4 w))
      end
    else
      let sid := LocalUuid (uuid4 w) in
      (Ok ([], sid),
       World (Chat cleared false (Some sid)
                   (Some (or_default name ("memory-session-" ++ time_of_day t))))
             (db w) (S (uuid4 w))).

  (** [add_message_to_db], lines 58-64. *)
Definition add_message_to_db (w : world) (role content : string)
      (metadata : list (string * json)) : list effect * world :=
    match database_enabled (self w), current_session_id (self w) with
    | true, Some sid =>
        match add_message (db w) sid role content metadata with
        | (Ok _, db') => ([Stored sid role content metadata], World (self w) db' (uuid4 w))
        | (Raise e, _) => ([StoreFailed e], w)
        end
    | _, _ => ([], w)
    end.

  (** The metadata dict of lines 163-168. *)
Definition reply_metadata (c : LLMGUIChat.call) : list (string * json) :=
    [("backend", JStr (LLMGUIChat.arg_backend c));
     ("model", JStr (LLMGUIChat.arg_model c));
     ("reasoning_enabled", JBool (LLMGUIChat.arg_reasoning c));
     ("reasoning_mode",
      if LLMGUIChat.arg_reasoning c
      then JStr (LLMGUIChat.arg_reasoning_mode c) else JNull)].

  (** Lines 160-168, after the loop. *)
Definition store_reply (w : world) (c : LLMGUIChat.call) : list effect * world :=
    match last (map Some (LLMGUIChat.conversation_history (base (self w)))) None with
    | Some m =>
        if String.eqb (role m) "assistant"
        then add_message_to_db w "assistant" (content m) (reply_metadata c)
        else ([], w)
    | None => ([], w)
    end.

  (** [clear_conversation], lines 201-206, with the inherited
      [clear_conversation] of [chat_gui.py], lines 369-372. *)
Definition clear_conversation (w : world) : (list message * string) * world :=
    let b := base (self w) in
    (([], "🗑️ Conversation cleared"),
     World (Chat (LLMGUIChat.Chat (LLMGUIChat.backend b) (LLMGUIChat.current_model b)
                    (LLMGUIChat.show_reasoning b) (LLMGUIChat.reasoning_mode b) [])
                 (database_enabled (self w)) None None)
           (db w) (uuid4 w)).

Section Streaming.
Context `{PyRuntime}.

Definition result : Type := (list effect * signal) * generator * world.

Definition with_effects (es : list effect) (r : result) : result :=
      let '((es', s), g, w) := r in (((es ++ es')%list, s), g, w).

    (** One turn of the [for] loop of lines 157-158, and what follows the
        loop when the inherited generator is exhausted. *)
Definition relay (g : generator) (w : world) : result :=
      let '((es, s), p, b) := LLMGUIChat.resume (parent g) (base (self w)) in
      let w := with_base w b in
      match s with
      | Yield status => ((es, Yield status), Generator p (now g) InParent, w)
      | Propagate e => ((es, Propagate e), Generator p (now g) Finished, w)
      | StopIteration =>
          let '(stored, w') := store_reply w (LLMGUIChat.args p) in
          (((es ++ stored)%list, StopIteration), Generator p (now g) Finished, w')
      end.

    (** [send_message_stream], lines 143-157, to the first yield. *)
Definition begin (g : generator) (w : world) : result :=
      let c := LLMGUIChat.args (parent g) in
      let w := with_base w (LLMGUIChat.update_settings (base (self w)) c) in
      let session :=
        match current_session_id (self w) with
        | Some _ => (Ok [], w)
        | None =>
            match start_new_session w (LLMGUIChat.arg_backend c)
                                    (LLMGUIChat.arg_model c) None (now g) with
            | (Ok (es, _), w') => (Ok es, w')
            | (Raise e, w') => (Raise e, w')
            end
        end in
      match session with
      | (Raise e, w) => (([], Propagate e), Generator (parent g) (now g) Finished, w)
      | (Ok created, w) =>
          let '(stored, w) := add_message_to_db w "user" (LLMGUIChat.arg_message c) [] in
          with_effects (created ++ stored)%list (relay g w)
      end.

    (** [next(generator)] for the generator of [send_message_stream]. *)
Definition resume (g : generator) (w : world) : result :=
      match at_pc g with
      | Start => begin g w
      | InParent => relay g w
      | Finished => (([], StopIteration), g, w)
      end.

    (** The effects of a step, its yield included. *)
Definition step_trace (r : result) : list effect :=
      let '((es, s), _, _) := r in
      match s with
      | Yield status => (es ++ [Yielded status])%list
      | _ => es
      end.

    (** The caller iterates the generator at most [n] times, stopping when
        it is exhausted or raises: the effects in order, and the generator
        and the world at the end. *)
Fixpoint iterate (n : nat) (g : generator) (w : world)
        : list effect * generator * world :=
      match n with
      | O => ([], g, w)
      | S m =>
          let r := resume g w in
          let '((_, s), g', w') := r in
          match s with
          | Yield _ =>
              let '(es, g'', w'') := iterate m g' w' in
              ((step_trace r ++ es)%list, g'', w'')
          | _ => (step_trace r, g', w')
          end
      end.

End Streaming.

End DatabaseLLMGUIChat.

(* ===================================================================== *)
(** ** Frames of the wire formats and sample data                         *)
(* ===================================================================== *)

(** The quotation mark, and a quoted JSON string without escapes. *)
Definition dq : string := String (ascii_of_nat 34) EmptyString.
Definition quoted (s : string) : string := dq ++ s ++ dq.

Module Frames.

  (** [{"response":"<text>","done":false}] *)
Definition generate_delta (t : string) : string :=
    "{" ++ quoted "response" ++ ":" ++ quoted t ++ "," ++ quoted "done" ++ ":false}".

  (** [{"response":"<text>","done":true}], the last line Ollama sends;
      its text is normally empty. *)
Definition generate_done (t : string) : string :=
    "{" ++ quoted "response" ++ ":" ++ quoted t ++ "," ++ quoted "done" ++ ":true}".

  (** [{"done":true}] *)
Definition generate_bare_done : string :=
    "{" ++ quoted "done" ++ ":true}".

  (** [{"model":"m"}], an object without [response] and without [done]. *)
Definition generate_no_response : string :=
    "{" ++ quoted "model" ++ ":" ++ quoted "m" ++ "}".

  (** [{"choices":[{"delta":{"content":"<text>"}}]}] *)
Definition chat_delta_json (t : string) : string :=
    "{" ++ quoted "choices" ++ ":[{" ++ quoted "delta" ++ ":{"
        ++ quoted "content" ++ ":" ++ quoted t ++ "}}]}".

  (** [{"choices":[{"delta":{"role":"assistant"}}]}], a role-only frame. *)
Definition chat_role_json : string :=
    "{" ++ quoted "choices" ++ ":[{" ++ quoted "delta" ++ ":{"
        ++ quoted "role" ++ ":" ++ quoted "assistant" ++ "}}]}".

Definition sse (payload : string) : string := "data: " ++ payload.

Definition chat_done : string := sse "[DONE]".


Definition obj_generate (t : string) (done : bool) : json :=
    JObj [("response", JStr t); ("done", JBool done)].

Definition obj_chat_delta (fields : list (string * json)) : json :=
    JObj [("choices", JArr [JObj [("delta", JObj fields)]])].

  (** [{"choices":[{"delta":null}]}] *)
Definition chat_null_delta_json : string :=
    "{" ++ quoted "choices" ++ ":[{" ++ quoted "delta" ++ ":null}]}".

Definition obj_chat_null_delta : json :=
    JObj [("choices", JArr [JObj [("delta", JNull)]])].

  (** [json.loads] on the sample lines: the frames above for the texts
      ["He"], ["llo"], [""] and ["!"], and [null]; every other line used in
      the examples (["garbage"], ["[DONE]"], ...) is not JSON. *)
Definition sample_table : list (string * json) :=
    [(generate_delta "He", obj_generate "He" false);
     (generate_delta "llo", obj_generate "llo" false);
     (generate_done "", obj_generate "" true);
     (generate_done "!", obj_generate "!" true);
     ("null", JNull);
     (chat_null_delta_json, obj_chat_null_delta);
     (generate_bare_done, JObj [("done", JBool true)]);
     (generate_no_response, JObj [("model", JStr "m")]);
     (chat_delta_json "He", obj_chat_delta [("content", JStr "He")]);
     (chat_delta_json "llo", obj_chat_delta [("content", JStr "llo")]);
     (chat_role_json, obj_chat_delta [("role", JStr "assistant")])].

Definition sample_loads (s : string) : option json :=
    PyJson.lookup s sample_table.

End Frames.

Definition sample_runtime : PyRuntime := {|
  parse_json := Frames.sample_loads;
  error_text := fun _ => "error"
|}.

(** Concrete stores, servers and calls for the examples. *)
Module Samples.

Import ChatDatabaseManager.

  (** A store with one session, [DbUuid 0], and no messages. *)
Definition one_session : database :=
    snd (create_session empty "vllm" "m" None "2025-01-01 10:00").

Definition sid0 : uuid := DbUuid 0.


Definition ollama_cli : OllamaChat.chat :=
    OllamaChat.Chat "llama3.1:8b" [] false "detailed" true.

Definition vllm_cli : VLLMChat.chat :=
    VLLMChat.Chat "Qwen/Qwen3-4B-Instruct-2507" [] false "simple" true 2048 (7 # 10).


Definition vllm_request : VLLMChat.payload :=
    VLLMChat.Payload "Qwen/Qwen3-4B-Instruct-2507" [Message "user" "hi"]
                     2048 (7 # 10) true.

  (** A server that answers every request with status 200 and the given
      lines. *)
Definition ollama_server (ls : list string) (e : stream_end) : OllamaChat.backend :=
    fun _ _ => PostReturns (Response 200 "" ls e).

Definition vllm_server (ls : list string) (e : stream_end) : VLLMChat.backend :=
    fun _ => PostReturns (Response 200 "" ls e).



Definition he_llo_chat : list string :=
    [Frames.sse (Frames.chat_delta_json "He"); Frames.sse (Frames.chat_delta_json "llo")].

  (** The web chat right after start-up, with the database connected and
      empty. *)
Definition fresh_gui : DatabaseLLMGUIChat.world :=
    DatabaseLLMGUIChat.World
      (DatabaseLLMGUIChat.Chat
         (LLMGUIChat.Chat "ollama" "llama3.1:8b" false "simple" [])
         true None None)
      empty 0.

Definition morning : DatabaseLLMGUIChat.clock :=
    DatabaseLLMGUIChat.Clock "2025-01-01 10:00" "10:00".

  (** [hi] to the vLLM backend, answered with [He], [llo], [[DONE]]. *)
Definition hi_completed : LLMGUIChat.call :=
    LLMGUIChat.Call "hi" "vllm" "m" false "simple"
      (fun _ => PostReturns
                  (Response 200 "" (he_llo_chat ++ [Frames.chat_done]) EndOfStream)).

  (** The same exchange, the connection breaking after [He], [llo]. *)
Definition hi_dropped : LLMGUIChat.call :=
    LLMGUIChat.Call "hi" "vllm" "m" false "simple"
      (fun _ => PostReturns
                  (Response 200 "" he_llo_chat (ConnectionDropped "reset by peer"))).

  (** The [hi_completed] exchange after two [next]: both Deltas yielded,
      the generator suspended in the read loop. *)
Definition hi_streaming : DatabaseLLMGUIChat.generator * DatabaseLLMGUIChat.world :=
    let '(_, g, w) :=
      @DatabaseLLMGUIChat.iterate sample_runtime 2
        (DatabaseLLMGUIChat.start hi_completed [] morning) fresh_gui in
    (g, w).

  (** The [hi_dropped] exchange at the same point. *)
Definition hi_about_to_drop : DatabaseLLMGUIChat.generator * DatabaseLLMGUIChat.world :=
    let '(_, g, w) :=
      @DatabaseLLMGUIChat.iterate sample_runtime 2
        (DatabaseLLMGUIChat.start hi_dropped [] morning) fresh_gui in
    (g, w).

  (** The world after the [hi_completed] exchange has been consumed to
      the end. *)
Definition after_hi : DatabaseLLMGUIChat.world :=
    snd (@DatabaseLLMGUIChat.iterate sample_runtime 10
           (DatabaseLLMGUIChat.start hi_completed [] morning) fresh_gui).

  (** A second message, sent to the same backend. *)
Definition again : LLMGUIChat.call :=
    LLMGUIChat.Call "again" "vllm" "m" false "simple"
      (fun _ => PostReturns
                  (Response 200 "" (he_llo_chat ++ [Frames.chat_done]) EndOfStream)).

  (** [hi] to a server that cannot be reached. *)
Definition hi_unreachable : LLMGUIChat.call :=
    LLMGUIChat.Call "hi" "vllm" "m" false "simple"
      (fun _ => PostRaises "connection refused").

  (** A message of two spaces; the server is never asked. *)
Definition blank : LLMGUIChat.call :=
    LLMGUIChat.Call "  " "vllm" "m" false "simple"
      (fun _ => PostRaises "unreachable").

End Samples.

(** ["".join(parts)] *)
Definition concat_all (parts : list string) : string :=
  fold_right String.append EmptyString parts.

(** The lines of the two wire formats, as the read loops are meant to see
    them. *)
Module Wire.

Definition done_flag (fields : list (string * json)) : bool :=
    match PyJson.lookup "done" fields with
    | Some v => PyJson.truthy v
    | None => false
    end.




Section Frames.
Context `{PyRuntime}.

    (** A raw-generate Delta frame carrying [t]: a JSON object whose
        [response] is the string [t] and whose [done] is absent or false. *)
Definition generate_delta (line t : string) : Prop :=
      PyStr.is_empty line = false
      /\ exists fields,
           json_loads line = Some (JObj fields)
           /\ PyJson.lookup "response" fields = Some (JStr t)
           /\ done_flag fields = false.


    (** An SSE Delta frame carrying [t]:
        [data: {"choices":[{"delta":{"content":t, ...}, ...}, ...], ...}]. *)
Definition chat_delta (line t : string) : Prop :=
      exists payload fields choice others delta,
        line = "data: " ++ payload
        /\ String.eqb (PyStr.strip payload) "[DONE]" = false
        /\ json_loads payload = Some (JObj fields)
        /\ PyJson.lookup "choices" fields = Some (JArr (JObj choice :: others))
        /\ PyJson.lookup "delta" choice = Some (JObj delta)
        /\ PyJson.lookup "content" delta = Some (JStr t).

    (** The SSE sentinel, [data: [DONE]]. *)
Definition chat_terminal (line : string) : Prop :=
      exists payload,
        line = "data: " ++ payload
        /\ String.eqb (PyStr.strip payload) "[DONE]" = true.



End Frames.

End Wire.

(* ===================================================================== *)
(** ** Observing an exchange of the web chat                              *)
(* ===================================================================== *)

Module Exchange.

Import DatabaseLLMGUIChat.

  (** The status of the yield at lines 204 and 268 of [chat_gui.py]. *)
Definition is_completed (status : string) : bool :=
    PyStr.startswith status "✅ Response completed using ".

  (** An append of an assistant message to the store. *)
Definition is_reply_store (e : effect) : bool :=
    match e with
    | Stored _ role _ _ => String.eqb role "assistant"
    | _ => false
    end.

Definition is_completed_yield (e : effect) : bool :=
    match e with
    | Yielded status => is_completed status
    | _ => false
    end.

  (** Some effect satisfying [p] comes before some effect satisfying [q]. *)
Fixpoint precedes (p q : effect -> bool) (trace : list effect) : bool :=
    match trace with
    | [] => false
    | e :: rest => (p e && existsb q rest) || precedes p q rest
    end.

  (** The generator is suspended inside a read loop: at least one Delta
      has been yielded and the stream has not ended. *)
Definition mid_stream (g : generator) : bool :=
    match at_pc g, LLMGUIChat.at_pc (parent g) with
    | InParent, LLMGUIChat.InOllama _ _ _ _ => true
    | InParent, LLMGUIChat.InVllm _ _ _ => true
    | _, _ => false
    end.

  (** The generator is suspended at the yield of an error handler or of
      one of the early returns. *)
Definition at_failure (g : generator) : bool :=
    match at_pc g, LLMGUIChat.at_pc (parent g) with
    | InParent, LLMGUIChat.Returning => true
    | _, _ => false
    end.

  (** What a yield of the inherited generator amounts to: the completion,
      with the reply remembered just before it; or, with nothing remembered
      and the object untouched, an error written over the last entry of
      the display, or one more Delta shown in that entry. *)
Definition yield_shape (g : LLMGUIChat.generator) (self : LLMGUIChat.chat)
      (es : list effect) (status : string)
      (g' : LLMGUIChat.generator) (self' : LLMGUIChat.chat) : Prop :=
    LLMGUIChat.args g' = LLMGUIChat.args g
    /\ ((is_completed status = true
         /\ LLMGUIChat.at_pc g' = LLMGUIChat.Completed
         /\ LLMGUIChat.history g' = LLMGUIChat.history g
         /\ exists ai,
              es = [Remembered (Message "assistant" ai)]
              /\ self' = LLMGUIChat.append_history self (Message "assistant" ai))
        \/ (is_completed status = false /\ es = [] /\ self' = self
            /\ ((LLMGUIChat.at_pc g' = LLMGUIChat.Returning
                 /\ LLMGUIChat.history g'
                    = set_last_content (LLMGUIChat.history g) ("❌ " ++ status))
                \/ (exists rest ending ai chunk,
                      (LLMGUIChat.at_pc g' = LLMGUIChat.InOllama rest ending ai chunk
                       \/ LLMGUIChat.at_pc g' = LLMGUIChat.InVllm rest ending ai)
                      /\ LLMGUIChat.history g'
                         = set_last_content (LLMGUIChat.history g) ai)))).

Definition roles_of (db : ChatDatabaseManager.database)
      (sid : ChatDatabaseManager.uuid) : list (string * string) :=
    map (fun m => (ChatDatabaseManager.message_role m,
                   ChatDatabaseManager.message_content m))
        (ChatDatabaseManager.session_messages db sid).

  (** No identifier of the store is one that the server has yet to hand
      out. *)
Definition below (bound : nat) (u : ChatDatabaseManager.uuid) : bool :=
    match u with
    | ChatDatabaseManager.DbUuid n => (n <? bound)%nat
    | ChatDatabaseManager.LocalUuid _ => true
    end.

Definition fresh_supply (db : ChatDatabaseManager.database) : bool :=
    forallb (fun s => below (ChatDatabaseManager.next_uuid db)
                            (ChatDatabaseManager.session_id s))
            (ChatDatabaseManager.chat_sessions db)
    && forallb (fun m => below (ChatDatabaseManager.next_uuid db)
                               (ChatDatabaseManager.message_session m))
               (ChatDatabaseManager.chat_messages db).

Section Runs.
Context `{PyRuntime}.

    (** [streaming c h t w0 g w]: the exchange [c], started in the world
        [w0] with the display list [h] and iterated without anything else
        touching the object, is now suspended mid-stream as [g], in [w]. *)
Inductive streaming (c : LLMGUIChat.call) (h : list message) (t : clock)
        (w0 : world) : generator -> world -> Prop :=
    | streaming_first : forall es status g w,
        resume (start c h t) w0 = ((es, Yield status), g, w) ->
        mid_stream g = true ->
        streaming c h t w0 g w
    | streaming_next : forall g w es status g' w',
        streaming c h t w0 g w ->
        resume g w = ((es, Yield status), g', w') ->
        mid_stream g' = true ->
        streaming c h t w0 g' w'.

End Runs.

End Exchange.

(* ===================================================================== *)
(** ** src/thai_model/core/chat_database.py: the reading statements       *)
(* ===================================================================== *)

Module ChatDatabaseReads.

Import ChatDatabaseManager.

  (** An entry of the list [get_conversation_history] returns: [role],
      [content] and [metadata] ([timestamp] is [created_at], which the
      rows here do not carry). *)
Record history_entry : Type := HistoryEntry {
    entry_role : string;
    entry_content : string;
    entry_metadata : list (string * json)
  }.

Definition to_entry (m : message_row) : history_entry :=
    HistoryEntry (message_role m) (message_content m) (message_metadata m).

  (** [ORDER BY message_order ASC].  Rows of equal order are left in the
      order of their insertion, which PostgreSQL does not promise. *)
Fixpoint insert_by_order (m : message_row) (sorted : list message_row)
      : list message_row :=
    match sorted with
    | [] => [m]
    | x :: rest =>
        if (message_order m <=? message_order x)%Z
        then m :: x :: rest
        else x :: insert_by_order m rest
    end.

Definition order_by_message_order (rows : list message_row) : list message_row :=
    fold_right insert_by_order [] rows.

  (** [get_conversation_history], lines 150-170. *)
Definition get_conversation_history (db : database) (sid : uuid)
      : list history_entry :=
    map to_entry (order_by_message_order (session_messages db sid)).

  (** [get_session_info], lines 172-193: the row ([cur.fetchone()]) or
      [None]. *)
Definition get_session_info (db : database) (sid : uuid) : option session_row :=
    find (fun s => uuid_eqb (session_id s) sid) (chat_sessions db).

  (** A call of one of the three writing methods. *)
Inductive statement : Type :=
  | CreateSession (backend model : string) (name : option string) (now : string)
  | AddMessage (sid : uuid) (role content : string) (metadata : list (string * json))
  | DeleteSession (sid : uuid).

Definition execute (db : database) (s : statement) : database :=
    match s with
    | CreateSession backend model name now =>
        snd (create_session db backend model name now)
    | AddMessage sid role content metadata =>
        snd (add_message db sid role content metadata)
    | DeleteSession sid => snd (delete_session db sid)
    end.

Definition execute_all (db : database) (ss : list statement) : database :=
    fold_left execute ss db.

  (** Every message belongs to a session of the store. *)
Definition referential (db : database) : bool :=
    forallb (fun m => session_exists db (message_session m)) (chat_messages db).

  (** The orders of every session are 1, 2, ..., in insertion order. *)
Definition gap_free (db : database) : Prop :=
    forall sid,
      session_orders db sid
      = map Z.of_nat (seq 1 (List.length (session_orders db sid))).

End ChatDatabaseReads.

Module StoreSamples.

Import ChatDatabaseManager ChatDatabaseReads.

  (** Two sessions are opened, messages go to both, the first session is
      deleted, and a message is sent to it afterwards. *)
Definition script : list statement :=
    [CreateSession "vllm" "m" None "2025-01-01 10:00";
     CreateSession "ollama" "llama3.1:8b" (Some "second") "2025-01-01 10:05";
     AddMessage (DbUuid 0) "user" "hi" [];
     AddMessage (DbUuid 1) "user" "hello" [];
     AddMessage (DbUuid 0) "assistant" "Hello" [];
     DeleteSession (DbUuid 0);
     AddMessage (DbUuid 0) "user" "anyone?" [];
     AddMessage (DbUuid 1) "assistant" "Hi there" []].

End StoreSamples.

(* ===================================================================== *)
(** ** The flags of the direct mode: [handle_direct_prompt]               *)
(* ===================================================================== *)

Module DirectPrompt.

  (** The local variables of the flag loop. *)
Record flags : Type := Flags {
    reasoning_mode : bool;
    no_stream : bool;
    model_override : option string;
    url_override : option string;
    filtered_args : list string
  }.

  (** Their values before the loop. *)
Definition initial : flags := Flags false false None None [].

Definition keep (st : flags) (arg : string) : flags :=
    Flags (reasoning_mode st) (no_stream st) (model_override st)
          (url_override st) (filtered_args st ++ [arg])%list.

  (** The loop of [src/src/interfaces/ollama_chat.py], lines 294-307,
      run over [args[i:]]. *)
Fixpoint ollama_scan (args : list string) (st : flags) : flags :=
    match args with
    | [] => st
    | arg :: rest =>
        if String.eqb arg "--reasoning"
        then ollama_scan rest
               (Flags true (no_stream st) (model_override st) (url_override st)
                      (filtered_args st))
        else if String.eqb arg "--no-stream"
        then ollama_scan rest
               (Flags (reasoning_mode st) true (model_override st)
                      (url_override st) (filtered_args st))
        else if String.eqb arg "--model"
        then match rest with
             | value :: rest' =>
                 ollama_scan rest'
                   (Flags (reasoning_mode st) (no_stream st) (Some value)
                          (url_override st) (filtered_args st))
             | [] => ollama_scan rest (keep st arg)
             end
        else ollama_scan rest (keep st arg)
    end.

  (** The loop of [src/chat_app_vllm.py], lines 350-366. *)
Fixpoint vllm_scan (args : list string) (st : flags) : flags :=
    match args with
    | [] => st
    | arg :: rest =>
        if String.eqb arg "--reasoning"
        then vllm_scan rest
               (Flags true (no_stream st) (model_override st) (url_override st)
                      (filtered_args st))
        else if String.eqb arg "--no-stream"
        then vllm_scan rest
               (Flags (reasoning_mode st) true (model_override st)
                      (url_override st) (filtered_args st))
        else if String.eqb arg "--model"
        then match rest with
             | value :: rest' =>
                 vllm_scan rest'
                   (Flags (reasoning_mode st) (no_stream st) (Some value)
                          (url_override st) (filtered_args st))
             | [] => vllm_scan rest (keep st arg)
             end
        else if String.eqb arg "--url"
        then match rest with
             | value :: rest' =>
                 vllm_scan rest'
                   (Flags (reasoning_mode st) (no_stream st) (model_override st)
                          (Some value) (filtered_args st))
             | [] => vllm_scan rest (keep st arg)
             end
        else vllm_scan rest (keep st arg)
    end.

  (** [" ".join(parts)] *)
Fixpoint join_spaces (parts : list string) : string :=
    match parts with
    | [] => EmptyString
    | [p] => p
    | p :: rest => p ++ " " ++ join_spaces rest
    end.

  (** Lines 309-314 and 368-373: the prompt rebuilt from the arguments
      kept, or [None] where the function prints its error and returns 1. *)
Definition prompt_of (st : flags) : option string :=
    match filtered_args st with
    | [] => None
    | parts => Some (join_spaces parts)
    end.

  (** [x if x else default] for an optional string. *)
Definition or_else (x : option string) (default : string) : string :=
    match x with
    | Some v => if PyStr.is_empty v then default else v
    | None => default
    end.

  (** Lines 326-334 of [ollama_chat.py]: the chat the prompt is sent
      with. *)
Definition ollama_chat (st : flags) : OllamaChat.chat :=
    OllamaChat.Chat (or_else (model_override st) "llama3.1:8b") []
                    (reasoning_mode st)
                    (if reasoning_mode st then "simple" else "detailed")
                    (negb (no_stream st)).

  (** [xs] is [ys] with some elements left out. *)
Inductive subsequence : list string -> list string -> Prop :=
  | subsequence_nil : subsequence [] []
  | subsequence_skip : forall x xs ys,
      subsequence xs ys -> subsequence xs (x :: ys)
  | subsequence_keep : forall x xs ys,
      subsequence xs ys -> subsequence (x :: xs) (x :: ys).

  (** What a scan may keep of its arguments: some of them, in their
      order, none of them one of the two switches, and [--model] only
      where it was the last argument. *)
Definition well_kept (kept args : list string) : Prop :=
    subsequence kept args
    /\ ~ In "--reasoning" kept /\ ~ In "--no-stream" kept
    /\ (In "--model" kept -> last args "" = "--model").

  (** One of the words the loops look for. *)
Definition is_flag (arg : string) : bool :=
    String.eqb arg "--reasoning" || String.eqb arg "--no-stream"
    || String.eqb arg "--model" || String.eqb arg "--url".

Definition sample_args : list string :=
    ["--reasoning"; "What"; "--model"; "--no-stream"; "is"; "--url"; "x";
     "Python?"; "--model"].

End DirectPrompt.

(* ===================================================================== *)
(** ** More of [web_chat_db.py]: loading a session                        *)
(* ===================================================================== *)

Module SessionHistory.

Import ChatDatabaseManager ChatDatabaseReads DatabaseLLMGUIChat.

  (** An effect on the store, attempted or done. *)
Definition touches_store (e : effect) : bool :=
    match e with
    | SessionCreated _ | Stored _ _ _ _ | StoreFailed _ => true
    | _ => false
    end.

  (** The conversion of lines 123-129. *)
Definition to_message (e : history_entry) : message :=
    Message (entry_role e) (entry_content e).

  (** [load_session_history], lines 111-138: the definition that stands,
      the one of lines 66-98 being replaced by it when the class body is
      executed.  The result is the list for the display and the status. *)
Definition load_session_history (w : world) (sid : uuid)
      : (list message * string) * world :=
    if negb (database_enabled (self w))
    then (([], "❌ Database not available"), w)
    else
      match get_session_info (db w) sid with
      | None => (([], "❌ Session not found"), w)
      | Some session_info =>
          let messages := get_conversation_history (db w) sid in
          let dict_history := map to_message messages in
          let b := base (self w) in
          ((dict_history,
            "✅ Loaded conversation with "
              ++ show_int (Z.of_nat (List.length messages)) ++ " messages"),
           World (Chat (LLMGUIChat.Chat (LLMGUIChat.backend b)
                          (LLMGUIChat.current_model b)
                          (LLMGUIChat.show_reasoning b)
                          (LLMGUIChat.reasoning_mode b) dict_history)
                       (database_enabled (self w)) (Some sid)
                       (Some (ChatDatabaseManager.session_name session_info)))
                 (db w) (uuid4 w))
      end.

  (** The store [after] is the store [before] with at most so many
      session rows and message rows appended. *)
Definition grown (before after : database) (sessions messages : nat) : Prop :=
    exists new_sessions new_messages,
      chat_sessions after = (chat_sessions before ++ new_sessions)%list
      /\ chat_messages after = (chat_messages before ++ new_messages)%list
      /\ (List.length new_sessions <= sessions)%nat
      /\ (List.length new_messages <= messages)%nat.

  (** What the request of an exchange comes to when it fails before any
      line is read: the error message of the handler, or of the status
      check. *)
Definition fails_at_once (p : post_result) : option string :=
    match p with
    | PostRaises msg => Some ("Connection error: " ++ msg)
    | PostReturns r =>
        if negb (status_code r =? 200)%Z then Some (http_error r) else None
    | PostInterrupted => None
    end.

  (** How many more [next] are sure to exhaust a generator that has been
      started. *)
Definition remaining (g : generator) : option nat :=
    match at_pc g with
    | Finished => Some 0%nat
    | Start => None
    | InParent =>
        match LLMGUIChat.at_pc (parent g) with
        | LLMGUIChat.Start => None
        | LLMGUIChat.InOllama rest _ _ _ => Some (List.length rest + 2)%nat
        | LLMGUIChat.InVllm rest _ _ => Some (List.length rest + 2)%nat
        | _ => Some 1%nat
        end
    end.

  (** The conversation history of the object is what the store holds of
      the session, message for message. *)
Definition in_step (w : world) (sid : uuid) : Prop :=
    map to_message (get_conversation_history (db w) sid)
    = LLMGUIChat.conversation_history (base (self w)).

  (** A row as [load_session_history] shows it. *)
Definition shown_row (m : message_row) : message :=
    Message (message_role m) (message_content m).

End SessionHistory.

(** More worlds for the examples. *)
Module GuiSamples.

  (** The web chat started without a database: [db_manager] is [None]. *)
Definition offline_gui : DatabaseLLMGUIChat.world :=
    DatabaseLLMGUIChat.World
      (DatabaseLLMGUIChat.Chat
         (LLMGUIChat.Chat "ollama" "llama3.1:8b" false "simple" [])
         false None None)
      ChatDatabaseManager.empty 0.

End GuiSamples.

(* ===================================================================== *)
(** ** The callers of the read loops: [send_message]                      *)
(* ===================================================================== *)

(** [src/src/interfaces/ollama_chat.py], the methods around
    [_send_streaming_message]. *)
Module OllamaChatCalls.

Import OllamaChat.

  (** [_build_context], lines 153-165. *)
Definition _build_context (self : chat) : string :=
    LLMGUIChat.join_lines
      (map (fun msg =>
              if String.eqb (role msg) "user"
              then "User: " ++ content msg
              else "Assistant: " ++ content msg)
           (conversation_history self)).

  (** The prompt of [send_message], lines 70-76, computed after the user
      message has been appended. *)
Definition prompt_of (self : chat) (user_input : string) : string :=
    if show_reasoning self
    then ReasoningPrompts.get (reasoning_mode self)
           ReasoningPrompts.reasoning_prompts ReasoningPrompts.detailed
         ++ user_input
    else _build_context self.

Section Send.
Context `{PyRuntime}.

    (** [_send_non_streaming_message], which [send_message] calls when
        streaming is off, is left open. *)
Variable _send_non_streaming_message :
      chat -> string -> backend -> list string * chat * res string.

    (** [send_message], lines 65-87. *)
Definition send_message (self : chat) (user_input : string)
        (server : backend) : list string * chat * res string :=
      let self := append_history self (Message "user" user_input) in
      let prompt := prompt_of self user_input in
      let '(out, self', r) :=
        if stream_response self
        then _send_streaming_message self prompt server
        else _send_non_streaming_message self prompt server in
      match r with
      | Raise (RequestException msg) =>
          (out, self', Ok ("Connection error: " ++ py_str (RequestException msg)))
      | Raise (BuiltinError KeyError _) =>
          (out, self', Ok "Error: Invalid response format from Ollama")
      | _ => (out, self', r)
      end.

End Send.

End OllamaChatCalls.

(** [src/chat_app_vllm.py], the method around [_send_streaming_message]. *)
Module VLLMChatCalls.

Import VLLMChat.

Section Send.
Context `{PyRuntime}.

    (** [_send_non_streaming_message], left open. *)
Variable _send_non_streaming_message :
      chat -> payload -> backend -> list string * chat * res string.

    (** The payload of lines 106-112. *)
Definition payload_of (self : chat) (user_input : string) : payload :=
      Payload (model self) (_build_messages self user_input)
              (max_tokens self) (temperature self) (stream_response self).

    (** [send_message], lines 98-123.  [KeyboardInterrupt] is no
        [Exception]. *)
Definition send_message (self : chat) (user_input : string)
        (server : backend) : list string * chat * res string :=
      let self := append_history self (Message "user" user_input) in
      let request := payload_of self user_input in
      let '(out, self', r) :=
        if stream_response self
        then _send_streaming_message self request server
        else _send_non_streaming_message self request server in
      match r with
      | Raise (RequestException msg) =>
          (out, self', Ok ("Connection error: " ++ py_str (RequestException msg)))
      | Raise KeyboardInterrupt => (out, self', r)
      | Raise e => (out, self', Ok ("Unexpected error: " ++ py_str e))
      | Ok _ => (out, self', r)
      end.

End Send.

End VLLMChatCalls.

(* ===================================================================== *)
(** ** Bytes and text                                                     *)
(* ===================================================================== *)

Module TextFacts.

Import PyStr.

Ltac bytes :=
    unfold space1, space2, space3, continuation, three_bytes, four_bytes in *;
    repeat match goal with
           | H : (_ && _)%bool = true |- _ => apply andb_true_iff in H; destruct H
           | H : (_ || _)%bool = true |- _ => apply orb_true_iff in H; destruct H
           | H : (_ =? _)%N = true |- _ => apply N.eqb_eq in H
           | H : (_ <=? _)%N = true |- _ => apply N.leb_le in H
           | H : (_ <? _)%N = false |- _ => apply N.ltb_ge in H
           | H : (_ <? _)%N = true |- _ => apply N.ltb_lt in H
           end.

Lemma space1_ascii x : space1 x = true -> (x <? 128)%N = true.
Proof. intros E. apply N.ltb_lt. bytes; lia. Qed.

Lemma space2_utf8 x y :
    space2 x y = true ->
    ((x <? 128)%N = false)
    /\ ((194 <=? x) && (x <=? 223))%N = true /\ continuation y = true.
Proof.
    intros E. bytes; subst; repeat split; reflexivity.
Qed.

Lemma space3_utf8 x y z :
    space3 x y z = true ->
    (x <? 128)%N = false
    /\ ((194 <=? x) && (x <=? 223))%N = false
    /\ ((224 <=? x) && (x <=? 239))%N = true
    /\ three_bytes x y z = true.
Proof.
    intros E. unfold space3 in E.
    repeat match goal with
           | H : (_ || _)%bool = true |- _ => apply orb_true_iff in H; destruct H
           | H : (_ && _)%bool = true |- _ => apply andb_true_iff in H; destruct H
           | H : (_ =? _)%N = true |- _ => apply N.eqb_eq in H; subst
           end;
      repeat match goal with
             | H : (_ <=? _)%N = true |- _ => apply N.leb_le in H
             end;
      (repeat split; try reflexivity);
      unfold three_bytes, continuation; cbn;
      rewrite ?andb_true_iff, ?N.leb_le; repeat split; try lia; reflexivity.
Qed.

  (** Leading white space does not decide whether bytes are UTF-8. *)
Lemma utf8_lstrip_upto n : forall s,
    (String.length s <= n)%nat -> utf8 (lstrip s) = utf8 s.
Proof.
    induction n as [|n IH]; intros s L.
    - destruct s; [reflexivity | cbn in L; lia].
    - destruct s as [|a r1]; [reflexivity|].
      cbn [String.length] in L.
      cbn [lstrip].
      destruct (space1 (byte a)) eqn:S1.
      { rewrite IH by lia. cbn [utf8]. cbv zeta.
        rewrite (space1_ascii _ S1). reflexivity. }
      destruct r1 as [|b r2]; [reflexivity|].
      cbn [String.length] in L.
      destruct (space2 (byte a) (byte b)) eqn:S2.
      { rewrite IH by lia.
        destruct (space2_utf8 _ _ S2) as (A1 & A2 & A3).
        cbn [utf8]. cbv zeta. rewrite A1, A2, A3. reflexivity. }
      destruct r2 as [|c r3]; [reflexivity|].
      cbn [String.length] in L.
      destruct (space3 (byte a) (byte b) (byte c)) eqn:S3; [|reflexivity].
      rewrite IH by lia.
      destruct (space3_utf8 _ _ _ S3) as (A1 & A2 & A3 & A4).
      cbn [utf8]. cbv zeta. rewrite A1, A2, A3, A4. reflexivity.
Qed.

Lemma utf8_lstrip s : utf8 (lstrip s) = utf8 s.
Proof. apply (utf8_lstrip_upto (String.length s)). lia. Qed.

  (** What [rstrip] cuts off is white space. *)
Lemma rstrip_split s : exists w, s = rstrip s ++ w /\ lstrip w = "".
Proof.
    induction s as [|a r (w & E & W)].
    - exists "". split; reflexivity.
    - cbn [rstrip].
      destruct (is_empty (lstrip (String a r))) eqn:Em.
      + exists (String a r). split; [reflexivity|].
        destruct (lstrip (String a r)); [reflexivity | discriminate Em].
      + exists w. split; [|exact W].
        cbn [append]. rewrite <- E. reflexivity.
Qed.

Lemma eqb_eq (a b : string) : String.eqb a b = true -> a = b.
Proof. apply String.eqb_eq. Qed.

  (** A payload that strips to the sentinel is text. *)
Lemma done_is_text payload :
    String.eqb (strip payload) "[DONE]" = true -> utf8 payload = true.
Proof.
    intros E. apply eqb_eq in E. unfold strip in E.
    rewrite <- utf8_lstrip.
    destruct (rstrip_split (lstrip payload)) as (w & Es & W).
    rewrite E in Es. rewrite Es.
    change (utf8 ("[DONE]" ++ w)) with (utf8 w).
    rewrite <- utf8_lstrip, W. reflexivity.
Qed.

Lemma utf8_data payload : utf8 ("data: " ++ payload) = utf8 payload.
Proof. reflexivity. Qed.

Lemma decode_text s : utf8 s = true -> decode s = Some s.
Proof. unfold decode. intros ->. reflexivity. Qed.


Section Loads.
Context `{PyRuntime}.

Lemma loads_is_text s v : json_loads s = Some v -> utf8 s = true.
Proof. unfold json_loads. destruct (utf8 s); [reflexivity | discriminate]. Qed.

Lemma loads_bytes s : utf8 s = false -> json_loads s = None.
Proof. unfold json_loads. intros ->. reflexivity. Qed.


Lemma payload_decode payload v :
      json_loads payload = Some v ->
      decode ("data: " ++ payload) = Some ("data: " ++ payload).
Proof.
      intros E. apply decode_text. rewrite utf8_data. exact (loads_is_text _ _ E).
Qed.

Lemma done_decode payload :
      String.eqb (strip payload) "[DONE]" = true ->
      decode ("data: " ++ payload) = Some ("data: " ++ payload).
Proof.
      intros E. apply decode_text. rewrite utf8_data. exact (done_is_text _ E).
Qed.

End Loads.

  (** The length of a prefix. *)
Lemma len_take s : forall n, len (take_chars n s) = Nat.min n (len s).
Proof.
    induction s as [|a r IH]; intros n; cbn [take_chars len].
    - rewrite Nat.min_0_r. reflexivity.
    - destruct (continuation (byte a)) eqn:C; cbn [len]; rewrite ?C.
      + apply IH.
      + destruct n as [|m]; [reflexivity|].
        cbn [len]. rewrite C, IH. reflexivity.
Qed.

Import ChatDatabaseManager.

  (** A role that passes the [CHECK] was not cut to fit its column. *)
Lemma checked_role_fits r r' :
    varchar 20 r = Some r' -> role_check r' = true -> r' = r.
Proof.
    unfold varchar. intros V C.
    destruct (len r <=? 20)%nat eqn:L; [congruence|].
    destruct (all_spaces (drop_chars 20 r)); [|discriminate V].
    injection V as <-.
    apply Nat.leb_gt in L.
    pose proof (len_take r 20) as T.
    rewrite Nat.min_l in T by lia.
    unfold role_check in C.
    repeat match goal with
           | H : (_ || _)%bool = true |- _ => apply orb_true_iff in H; destruct H
           end;
      match goal with
      | H : String.eqb _ _ = true |- _ => apply String.eqb_eq in H; rewrite H in T
      end; discriminate T.
Qed.

Lemma varchar_fits n s : (len s <= n)%nat -> varchar n s = Some s.
Proof.
    intros L. unfold varchar.
    destruct (len s <=? n)%nat eqn:E; [reflexivity|].
    apply Nat.leb_gt in E. lia.
Qed.

Lemma checked_role_is_short r : role_check r = true -> varchar 20 r = Some r.
Proof.
    intros C. unfold role_check in C.
    repeat match goal with
           | H : (_ || _)%bool = true |- _ => apply orb_true_iff in H; destruct H
           end;
      match goal with
      | H : String.eqb _ _ = true |- _ => apply String.eqb_eq in H; subst r
      end; reflexivity.
Qed.

Lemma checked_role_has_no_nul r : role_check r = true -> has_nul r = false.
Proof.
    intros C. unfold role_check in C.
    repeat match goal with
           | H : (_ || _)%bool = true |- _ => apply orb_true_iff in H; destruct H
           end;
      match goal with
      | H : String.eqb _ _ = true |- _ => apply String.eqb_eq in H; subst r
      end; reflexivity.
Qed.

End TextFacts.

(* ===================================================================== *)
(** ** The store: message orders                                          *)
(* ===================================================================== *)

Module StoreFacts.

Import ChatDatabaseManager.

Lemma uuid_eqb_eq (a b : uuid) : uuid_eqb a b = true <-> a = b.
Proof.
    destruct a, b; simpl; rewrite ?Nat.eqb_eq; split; intro E;
      try discriminate; try (inversion E; reflexivity); subst; reflexivity.
Qed.

Lemma uuid_eqb_refl (a : uuid) : uuid_eqb a a = true.
Proof. apply uuid_eqb_eq. reflexivity. Qed.

Lemma sql_max_snoc (xs : list Z) (x : Z) :
    sql_max (xs ++ [x]) =
    Some (match sql_max xs with Some m => Z.max m x | None => x end).
Proof.
    destruct xs as [|y ys]; simpl; [reflexivity|].
    rewrite fold_left_app. reflexivity.
Qed.

  (** The maximum of [1..k] is [k], and [NULL] when [k = 0]. *)
Lemma sql_max_first_k (k : nat) :
    coalesce (sql_max (map Z.of_nat (seq 1 k))) 0 = Z.of_nat k.
Proof.
    induction k as [|k IH]; [reflexivity|].
    rewrite seq_S, map_app. simpl map at 2.
    rewrite sql_max_snoc.
    destruct (sql_max (map Z.of_nat (seq 1 k))) as [m|]; simpl in *; lia.
Qed.

  (** A failed call changes nothing. *)
Lemma add_message_failure db sid r c md e :
    fst (add_message db sid r c md) = Raise e ->
    snd (add_message db sid r c md) = db.
Proof.
    unfold add_message.
    repeat match goal with
           | |- context [if ?b then _ else _] => destruct b
           | |- context [match ?o with Some _ => _ | None => _ end] => destruct o
           end; simpl; intros E; try reflexivity; discriminate.
Qed.

  (** A successful call appends one row to its session, with the next
      order, and nothing to any other session. *)
Lemma add_message_success db sid r c md mid :
    fst (add_message db sid r c md) = Ok mid ->
    chat_messages (snd (add_message db sid r c md)) =
      (chat_messages db
         ++ [MessageRow mid sid r c
               (coalesce (sql_max (session_orders db sid)) 0 + 1) md])%list
    /\ chat_sessions (snd (add_message db sid r c md)) = chat_sessions db.
Proof.
    unfold add_message.
    destruct (negb _); [discriminate|].
    destruct (first_with_nul _); [discriminate|].
    destruct (varchar 20 r) as [r'|] eqn:V; [|discriminate].
    destruct (json_has_nul _); [discriminate|].
    destruct (negb (role_check r')) eqn:C; [discriminate|].
    destruct (negb (session_exists db sid)); [discriminate|].
    apply negb_false_iff in C.
    rewrite (TextFacts.checked_role_fits r r' V C).
    simpl. intros E. inversion E; subst. split; reflexivity.
Qed.

  (** The two outcomes of [add_message]. *)
Lemma add_message_cases db sid r c md :
    (exists e, add_message db sid r c md = (Raise e, db))
    \/ (session_exists db sid = true
        /\ role_check r = true
        /\ PyStr.has_nul c = false
        /\ json_has_nul (JObj md) = false
        /\ (coalesce (sql_max (session_orders db sid)) 0 + 1 <= INTEGER_MAX)%Z
        /\ add_message db sid r c md
           = (Ok (DbUuid (next_uuid db)),
              Database (chat_sessions db)
                (chat_messages db
                   ++ [MessageRow (DbUuid (next_uuid db)) sid r c
                         (coalesce (sql_max (session_orders db sid)) 0 + 1) md])
                (S (next_uuid db)))).
Proof.
    unfold add_message.
    destruct (negb (_ <=? _)%Z) eqn:O; [left; eexists; reflexivity|].
    cbn [first_with_nul].
    destruct (PyStr.has_nul r) eqn:Zr; [left; eexists; reflexivity|].
    destruct (PyStr.has_nul c) eqn:Zc; [left; eexists; reflexivity|].
    destruct (varchar 20 r) as [r'|] eqn:V; [|left; eexists; reflexivity].
    destruct (json_has_nul (JObj md)) eqn:Zm; [left; eexists; reflexivity|].
    destruct (negb (role_check r')) eqn:C; [left; eexists; reflexivity|].
    destruct (negb (session_exists db sid)) eqn:E; [left; eexists; reflexivity|].
    apply negb_false_iff in O, C, E. apply Z.leb_le in O.
    pose proof (TextFacts.checked_role_fits r r' V C) as ->.
    right. repeat split; assumption.
Qed.

  (** The two outcomes of [create_session]. *)
Lemma create_session_cases db backend model name now :
    (exists e, create_session db backend model name now = (Raise e, db))
    \/ (exists name' backend' model',
          first_with_nul [name_of backend model name now; backend; model] = None
          /\ varchar 255 (name_of backend model name now) = Some name'
          /\ varchar 50 backend = Some backend'
          /\ varchar 100 model = Some model'
          /\ create_session db backend model name now
             = (Ok (DbUuid (next_uuid db)),
                Database
                  (chat_sessions db
                     ++ [SessionRow (DbUuid (next_uuid db)) name' backend' model' []])
                  (chat_messages db)
                  (S (next_uuid db)))).
Proof.
    unfold create_session.
    destruct (first_with_nul _) as [p|]; [left; eexists; reflexivity|].
    destruct (varchar 255 _) as [name'|]; [|left; eexists; reflexivity].
    destruct (varchar 50 backend) as [backend'|];
      [|left; eexists; reflexivity].
    destruct (varchar 100 model) as [model'|];
      [|left; eexists; reflexivity].
    right. exists name', backend', model'. repeat split.
Qed.

Lemma session_orders_after db sid r c md other :
    session_orders (snd (add_message db sid r c md)) other =
      if uuid_eqb sid other && succeeded (fst (add_message db sid r c md))
      then (session_orders db other
              ++ [coalesce (sql_max (session_orders db other)) 0 + 1])%list%Z
      else session_orders db other.
Proof.
    destruct (fst (add_message db sid r c md)) as [mid|e] eqn:E.
    - destruct (add_message_success _ _ _ _ _ _ E) as [Hm _].
      unfold session_orders, session_messages. rewrite Hm, filter_app, map_app.
      simpl. unfold of_session at 2. simpl.
      destruct (uuid_eqb sid other) eqn:Eq; simpl.
      + apply uuid_eqb_eq in Eq. subst. reflexivity.
      + rewrite app_nil_r. reflexivity.
    - rewrite (add_message_failure _ _ _ _ _ _ E), andb_false_r. reflexivity.
Qed.


End StoreFacts.



(* ===================================================================== *)
(** ** The prompt composer                                                *)
(* ===================================================================== *)

Lemma startswith_append (t u : string) : PyStr.startswith (t ++ u) t = true.
Proof.
  unfold PyStr.startswith.
  induction t as [|a t IH]; simpl.
  - destruct u; reflexivity.
  - destruct (ascii_dec a a) as [_|N]; [exact IH | contradiction].
Qed.

Lemma copy_entries (l : list message) :
  map (fun msg => Message (role msg) (content msg)) l = l.
Proof.
  induction l as [|[r c] l IH]; simpl; [reflexivity|]. now rewrite IH.
Qed.

Lemma reasoning_prompt_cases (mode : string) :
  ReasoningPrompts.get mode ReasoningPrompts.reasoning_prompts
    ReasoningPrompts.simple =
  if String.eqb "detailed" mode then ReasoningPrompts.detailed
  else if String.eqb "chain" mode then ReasoningPrompts.chain
  else ReasoningPrompts.simple.
Proof.
  unfold ReasoningPrompts.reasoning_prompts.
  cbn [ReasoningPrompts.get].
  destruct (String.eqb "detailed" mode); [reflexivity|].
  destruct (String.eqb_spec "simple" mode) as [<-|_]; [reflexivity|].
  destruct (String.eqb "chain" mode); reflexivity.
Qed.

(** C8.  [_build_messages] returns the history entries unchanged, followed
    by one user entry.  With reasoning off its content is the user text
    itself; with reasoning on it is the template of the mode followed by
    the user text, the template being one of the three literals (the
    [simple] one for a mode that is none of the three keys).  Being a
    function of the chat and the text, the composition is deterministic. *)
Theorem build_messages_composition :
  forall (model : string) (history : list message) (mode : string)
         (stream : bool) (max_tokens : Z) (temperature : Q)
         (user_input : string),
    let chat on m :=
      VLLMChat.Chat model history on m stream max_tokens temperature in
    let composed template :=
      (history ++ [Message "user" (template ++ user_input)])%list in
    VLLMChat._build_messages (chat false mode) user_input
      = (history ++ [Message "user" user_input])%list
    /\ VLLMChat._build_messages (chat true "simple") user_input
       = composed ReasoningPrompts.simple
    /\ VLLMChat._build_messages (chat true "detailed") user_input
       = composed ReasoningPrompts.detailed
    /\ VLLMChat._build_messages (chat true "chain") user_input
       = composed ReasoningPrompts.chain
    /\ exists template,
         In template [ReasoningPrompts.simple; ReasoningPrompts.detailed;
                      ReasoningPrompts.chain]
         /\ VLLMChat._build_messages (chat true mode) user_input
            = composed template
         /\ PyStr.startswith (template ++ user_input) template = true.
Proof.
  intros model history mode stream max_tokens temperature user_input chat composed.
  unfold VLLMChat._build_messages, chat, composed.
  cbn [VLLMChat.conversation_history VLLMChat.show_reasoning VLLMChat.reasoning_mode].
  rewrite copy_entries, !reasoning_prompt_cases.
  repeat split.
  destruct (String.eqb "detailed" mode);
    [|destruct (String.eqb "chain" mode)];
    eexists; (split; [|split; [reflexivity | apply startswith_append]]);
    simpl; auto.
Qed.

(* ===================================================================== *)
(** ** The read loops of the command-line clients                         *)
(* ===================================================================== *)

Lemma startswith_data (payload : string) :
  PyStr.startswith ("data: " ++ payload) "data: " = true.
Proof.
  unfold PyStr.startswith. simpl.
  repeat match goal with
         | |- context [ascii_dec ?a ?b] => destruct (ascii_dec a b); [|congruence]
         end.
  destruct payload; reflexivity.
Qed.

Lemma append_assoc (a b c : string) : (a ++ b) ++ c = a ++ (b ++ c).
Proof. induction a; simpl; [reflexivity|]. now rewrite IHa. Qed.

Lemma concat_all_app (xs ys : list string) :
  concat_all (xs ++ ys) = concat_all xs ++ concat_all ys.
Proof.
  induction xs as [|x xs IH]; simpl; [reflexivity|].
  rewrite IH. now rewrite append_assoc.
Qed.

Lemma append_empty_r (s : string) : s ++ "" = s.
Proof. induction s; simpl; [reflexivity|]. now rewrite IHs. Qed.

Module OllamaFacts.

Import OllamaChat.

Section Facts.
Context `{PyRuntime}.






End Facts.

End OllamaFacts.

Module VLLMFacts.

Import VLLMChat.

Section Facts.
Context `{PyRuntime}.

Lemma data_line payload :
      PyStr.is_empty ("data: " ++ payload) = false
      /\ PyStr.drop 6 ("data: " ++ payload) = payload.
Proof. split; reflexivity. Qed.







End Facts.

End VLLMFacts.

Module OpenAIFacts.

Import OpenAIChat.



End OpenAIFacts.

Section DecoderClaims.
Context `{PyRuntime}.




End DecoderClaims.

(** The sample lines are frames of the kinds they are named after. *)
Module SampleFacts.


Lemma chat_deltas :
    Forall2 (@Wire.chat_delta sample_runtime)
            Samples.he_llo_chat ["He"; "llo"].
Proof.
    repeat constructor;
      do 5 eexists; repeat split; reflexivity.
Qed.


Lemma chat_done : Wire.chat_terminal Frames.chat_done.
Proof. eexists; split; reflexivity. Qed.

End SampleFacts.






(** Where the leniency ends: a line that is JSON but no object, or an
    object whose [delta] is [null], is not skipped; the clients raise. *)
Example non_object_line_raises :
  @OllamaChat._send_streaming_message sample_runtime Samples.ollama_cli "hi"
    (Samples.ollama_server [Frames.generate_delta "He"; "null"] EndOfStream)
  = (["🤖 Bot: "; "He"], Samples.ollama_cli,
     Raise (BuiltinError TypeError JNull))
  /\ @VLLMChat._send_streaming_message sample_runtime Samples.vllm_cli
       Samples.vllm_request
       (Samples.vllm_server
          [Frames.sse (Frames.chat_delta_json "He");
           Frames.sse Frames.chat_null_delta_json] EndOfStream)
     = (["🤖 Bot: "; "He"], Samples.vllm_cli,
        Raise (BuiltinError TypeError JNull)).
Proof. split; reflexivity. Qed.

(* ===================================================================== *)
(** ** The generators of the web chat                                     *)
(* ===================================================================== *)

(** Decides [is_completed] on a status whose first characters are known. *)
Ltac status_prefix :=
  unfold Exchange.is_completed, PyStr.startswith;
  cbn [String.append String.prefix];
  repeat match goal with
         | |- context [ascii_dec ?a ?b] =>
             let E := fresh "E" in
             destruct (ascii_dec a b) as [E|E];
             [try discriminate E | try congruence]
         end;
  try reflexivity.

Module GUIFacts.

Import LLMGUIChat.

Section Facts.
Context `{PyRuntime}.

Lemma completed_status (name model : string) :
      Exchange.is_completed
        ("✅ Response completed using " ++ name ++ ": " ++ model) = true.
Proof. apply startswith_append. Qed.

Lemma streaming_status (name model : string) :
      Exchange.is_completed ("🔄 Streaming from " ++ name ++ ": " ++ model) = false.
Proof. status_prefix. Qed.

Lemma connection_status (detail : string) :
      Exchange.is_completed ("Connection error: " ++ detail) = false.
Proof. status_prefix. Qed.

Lemma unexpected_status (detail : string) :
      Exchange.is_completed ("Unexpected error: " ++ detail) = false.
Proof. status_prefix. Qed.

Lemma http_status (r : response) : Exchange.is_completed (http_error r) = false.
Proof. unfold http_error. status_prefix. Qed.

    (** A yield of a handler: nothing is remembered, the last entry of the
        display is overwritten with the error text. *)
Lemma handle_yield g self e es st g' self' :
      handle g self e = ((es, Yield st), g', self') ->
      Exchange.is_completed st = false /\ es = [] /\ self' = self
      /\ args g' = args g /\ at_pc g' = Returning
      /\ history g' = set_last_content (history g) ("❌ " ++ st).
Proof.
      unfold handle.
      destruct e; intros E; inversion E; subst; clear E;
        repeat split; auto using connection_status, unexpected_status.
Qed.

    (** What a yield reached from inside a read loop can be. *)
Lemma settle_yield o g self ending a es st g' self' :
      settle o g self ending a = ((es, Yield st), g', self') ->
      Exchange.yield_shape g self es st g' self'.
Proof.
      assert (Hh : forall e,
                 handle g self e = ((es, Yield st), g', self') ->
                 Exchange.yield_shape g self es st g' self').
      { intros e E. apply handle_yield in E.
        destruct E as (? & ? & ? & ? & ? & ?). split; [assumption|].
        right. repeat split; auto. }
      assert (Hc : forall ai,
                 (([Remembered (Message "assistant" ai)],
                   Yield ("✅ Response completed using "
                            ++ (if o then "Ollama" else "vLLM")
                            ++ ": " ++ current_model self)),
                  Generator (args g) (history g) Completed,
                  append_history self (Message "assistant" ai))
                 = ((es, Yield st), g', self') ->
                 Exchange.yield_shape g self es st g' self').
      { intros ai E. inversion E; subst; clear E. split; [reflexivity|].
        left. split; [apply completed_status|].
        split; [reflexivity|]. split; [reflexivity|].
        exists ai. split; reflexivity. }
      unfold settle. intros E.
      destruct a as [rest ai chunk|ai|ai|e]; [|eauto| |eauto].
      - inversion E; subst; clear E. split; [reflexivity|].
        right. split; [apply streaming_status|].
        split; [reflexivity|]. split; [reflexivity|].
        right. exists rest, ending, ai, chunk. cbn [at_pc history].
        split; [|reflexivity]. destruct o; auto.
      - destruct ending; eauto.
Qed.

Lemma handle_signal g self e :
      snd (fst (fst (handle g self e))) <> StopIteration.
Proof. unfold handle. destruct e; discriminate. Qed.

Lemma settle_signal o g self ending a :
      snd (fst (fst (settle o g self ending a))) <> StopIteration.
Proof.
      unfold settle.
      destruct a as [rest ai chunk|ai|ai|e]; try discriminate;
        [destruct ending; try discriminate|]; apply handle_signal.
Qed.

Lemma with_effects_signal es r :
      snd (fst (fst (with_effects es r))) = snd (fst (fst r)).
Proof. destruct r as [[[es' s] g] self]. reflexivity. Qed.

    (** The first [next] of the inherited generator never exhausts it. *)
Lemma begin_signal g self :
      snd (fst (fst (begin g self))) <> StopIteration.
Proof.
      unfold begin.
      destruct (PyStr.is_empty (PyStr.strip (arg_message (args g))));
        [discriminate|].
      rewrite with_effects_signal.
      destruct (server (args g) _) as [msg|r|];
        [apply handle_signal| |apply handle_signal].
      destruct (negb (status_code r =? 200)%Z); [discriminate|].
      apply settle_signal.
Qed.

    (** The first [next] on a message that is not blank: the user entry is
        remembered and shown, the request is posted, and what is yielded
        comes from the handlers or the read loop. *)
Lemma begin_yield g self es st g' self' :
      begin g self = ((es, Yield st), g', self') ->
      PyStr.is_empty (PyStr.strip (arg_message (args g))) = false ->
      let user := Message "user" (arg_message (args g)) in
      exists request es',
        es = ([Remembered user; Posted request] ++ es')%list
        /\ Exchange.yield_shape
             (Generator (args g)
                        (history g ++ [user; Message "assistant" ""])%list Start)
             (append_history (update_settings self (args g)) user)
             es' st g' self'.
Proof.
      unfold begin. intros E Hb. rewrite Hb in E.
      match type of E with
      | with_effects _ ?r = _ => destruct r as [[[es' s] g1] self1] eqn:R
      end.
      cbn [with_effects] in E. inversion E; subst; clear E.
      eexists _, es'. split; [reflexivity|].
      destruct (server (args g) _) as [msg|r|].
      - apply handle_yield in R.
        destruct R as (? & ? & ? & ? & ? & ?). split; [assumption|].
        right. repeat split; auto.
      - destruct (negb (status_code r =? 200)%Z).
        + inversion R; subst; clear R. split; [reflexivity|].
          right. split; [apply http_status|].
          split; [reflexivity|]. split; [reflexivity|].
          left. split; reflexivity.
        + eapply settle_yield. exact R.
      - apply handle_yield in R.
        destruct R as (? & ? & ? & ? & ? & ?). split; [assumption|].
        right. repeat split; auto.
Qed.

    (** Whatever state the inherited generator is in, a yield with the
        completed status is the yield of line 204 or 268: the reply has
        just been appended to the conversation history, and it is the last
        thing done before the yield. *)
Lemma resume_completed g self es st g' self' :
      resume g self = ((es, Yield st), g', self') ->
      Exchange.is_completed st = true ->
      args g' = args g /\ at_pc g' = Completed
      /\ exists before ai earlier,
           es = (before ++ [Remembered (Message "assistant" ai)])%list
           /\ existsb Exchange.is_reply_store before = false
           /\ conversation_history self'
              = (earlier ++ [Message "assistant" ai])%list.
Proof.
      intros E Hc. unfold resume in E.
      assert (Hs : forall g0 self0 es0,
                 Exchange.yield_shape g0 self0 es0 st g' self' ->
                 args g' = args g0 /\ at_pc g' = Completed
                 /\ exists ai earlier,
                      es0 = [Remembered (Message "assistant" ai)]
                      /\ conversation_history self'
                         = (earlier ++ [Message "assistant" ai])%list).
      { intros g0 self0 es0 [Ha [(_ & Hp & _ & ai & -> & ->)|(Hn & _)]].
        - repeat split; auto. exists ai, (conversation_history self0).
          split; reflexivity.
        - rewrite Hc in Hn. discriminate. }
      destruct (at_pc g) eqn:Hpc.
      - destruct (PyStr.is_empty (PyStr.strip (arg_message (args g)))) eqn:Hb.
        + unfold begin in E. rewrite Hb in E. inversion E; subst.
          discriminate Hc.
        + destruct (begin_yield _ _ _ _ _ _ E Hb) as (request & es' & -> & Hy).
          destruct (Hs _ _ _ Hy) as (Ha & Hp & ai & earlier & -> & Hh).
          repeat split; auto.
          exists [Remembered (Message "user" (arg_message (args g))); Posted request],
                 ai, earlier.
          repeat split; auto.
      - apply settle_yield in E.
        destruct (Hs _ _ _ E) as (Ha & Hp & ai & earlier & -> & Hh).
        repeat split; auto. exists [], ai, earlier. repeat split; auto.
      - apply settle_yield in E.
        destruct (Hs _ _ _ E) as (Ha & Hp & ai & earlier & -> & Hh).
        repeat split; auto. exists [], ai, earlier. repeat split; auto.
      - discriminate E.
      - discriminate E.
      - discriminate E.
Qed.

End Facts.

End GUIFacts.

Module DBFacts.

Import DatabaseLLMGUIChat.

Lemma with_base_same (w : world) : with_base w (base (self w)) = w.
Proof. destruct w as [[b e s n] d u]. reflexivity. Qed.

Lemma last_some {A : Type} (xs : list A) (x : A) :
    last (map Some (xs ++ [x])) None = Some x.
Proof. rewrite map_app. cbn [map]. apply last_last. Qed.

  (** The effects of [add_message_to_db] never include the append of a
      message whose role is not the one given. *)
Lemma user_store_is_no_reply w content md :
    existsb Exchange.is_reply_store (fst (add_message_to_db w "user" content md))
    = false.
Proof.
    unfold add_message_to_db.
    destruct (database_enabled (self w)); [|reflexivity].
    destruct (current_session_id (self w)) as [sid|]; [|reflexivity].
    destruct (ChatDatabaseManager.add_message _ _ _ _ _) as [[mid|e] d];
      reflexivity.
Qed.

Section Facts.
Context `{PyRuntime}.

    (** A yield of the loop of line 157 is a yield of the inherited
        generator, passed on as it is. *)
Lemma relay_yield g w es st g' w' :
      relay g w = ((es, Yield st), g', w') ->
      exists p b,
        LLMGUIChat.resume (parent g) (base (self w)) = ((es, Yield st), p, b)
        /\ g' = Generator p (now g) InParent
        /\ w' = with_base w b.
Proof.
      unfold relay.
      destruct (LLMGUIChat.resume (parent g) (base (self w)))
        as [[[es0 s] p] b].
      destruct s as [status| |e].
      - intros E. inversion E; subst. eauto.
      - destruct (store_reply _ _). discriminate.
      - discriminate.
Qed.

    (** How the first [next] is made up: the session, the user message,
        then the first turn of the loop. *)
Lemma first_next_yield g w es st g' w' :
      begin g w = ((es, Yield st), g', w') ->
      exists created stored w1 w2 es',
        es = (created ++ stored ++ es')%list
        /\ existsb Exchange.is_reply_store (created ++ stored) = false
        /\ (stored, w2)
           = add_message_to_db w1 "user"
               (LLMGUIChat.arg_message (LLMGUIChat.args (parent g))) []
        /\ relay g w2 = ((es', Yield st), g', w').
Proof.
      unfold begin.
      set (c := LLMGUIChat.args (parent g)).
      set (w0 := with_base w (LLMGUIChat.update_settings (base (self w)) c)).
      assert (Hgo : forall created w1,
                 existsb Exchange.is_reply_store created = false ->
                 (let '(stored, w2) :=
                    add_message_to_db w1 "user" (LLMGUIChat.arg_message c) [] in
                  with_effects (created ++ stored) (relay g w2))
                 = ((es, Yield st), g', w') ->
                 exists created stored w1 w2 es',
                   es = (created ++ stored ++ es')%list
                   /\ existsb Exchange.is_reply_store (created ++ stored) = false
                   /\ (stored, w2)
                      = add_message_to_db w1 "user" (LLMGUIChat.arg_message c) []
                   /\ relay g w2 = ((es', Yield st), g', w')).
      { intros created w1 Hcr E.
        pose proof (user_store_is_no_reply w1 (LLMGUIChat.arg_message c) []) as Hu.
        destruct (add_message_to_db w1 "user" (LLMGUIChat.arg_message c) [])
          as [stored w2] eqn:A.
        destruct (relay g w2) as [[[es' s] g2] w3] eqn:R.
        cbn [with_effects] in E. inversion E; subst; clear E.
        exists created, stored, w1, w2, es'.
        cbn [fst] in Hu.
        split; [symmetry; apply app_assoc|].
        split; [rewrite existsb_app, Hcr, Hu; reflexivity|].
        split; [symmetry; exact A | exact R]. }
      destruct (current_session_id (self w0)) as [sid|].
      - apply (Hgo [] w0). reflexivity.
      - destruct (start_new_session w0 _ _ None (now g)) as [[[created sid]|e] w1] eqn:S.
        + apply (Hgo created w1).
          unfold start_new_session in S.
          destruct (database_enabled (self w0)).
          * destruct (ChatDatabaseManager.create_session _ _ _ _ _) as [[s|e] d];
              inversion S; subst; reflexivity.
          * inversion S; subst; reflexivity.
        + discriminate.
Qed.

End Facts.

End DBFacts.

Section GUIClaims.
Context `{PyRuntime}.

Import DatabaseLLMGUIChat.

  (** C1, as the code has it.  When [next] on the generator of
      [send_message_stream] yields the completed status, the accumulated
      reply has already been appended to the in-memory conversation
      history (it is the last effect before the yield), but no assistant
      message has been appended to the store in that step.  The store's
      append is what the following [next] does, and that [next] ends the
      generator: the caller is told "completed" first, the reply is
      persisted afterwards. *)
Theorem completion_is_yielded_before_reply_is_stored :
    forall (g : generator) (w : world) (es : list effect) (status : string)
           (g' : generator) (w' : world),
      resume g w = ((es, Yield status), g', w') ->
      Exchange.is_completed status = true ->
      exists ai,
        existsb Exchange.is_reply_store es = false
        /\ last es (Yielded status) = Remembered (Message "assistant" ai)
        /\ last (LLMGUIChat.conversation_history (base (self w')))
                (Message "" "")
           = Message "assistant" ai
        /\ resume g' w'
           = ((fst (add_message_to_db w' "assistant" ai
                      (reply_metadata (LLMGUIChat.args (parent g)))),
               StopIteration),
              Generator (LLMGUIChat.Generator (LLMGUIChat.args (parent g))
                           (LLMGUIChat.history (parent g')) LLMGUIChat.Finished)
                        (now g) Finished,
              snd (add_message_to_db w' "assistant" ai
                     (reply_metadata (LLMGUIChat.args (parent g))))).
Proof.
    intros g w es status g' w' E Hc.
    assert (Hrelay : forall g0 w0 es0,
               parent g0 = parent g -> now g0 = now g ->
               relay g0 w0 = ((es0, Yield status), g', w') ->
               exists ai before,
                 es0 = (before ++ [Remembered (Message "assistant" ai)])%list
                 /\ existsb Exchange.is_reply_store before = false
                 /\ last (LLMGUIChat.conversation_history (base (self w')))
                         (Message "" "")
                    = Message "assistant" ai
                 /\ resume g' w'
                    = ((fst (add_message_to_db w' "assistant" ai
                               (reply_metadata (LLMGUIChat.args (parent g)))),
                        StopIteration),
                       Generator (LLMGUIChat.Generator (LLMGUIChat.args (parent g))
                                    (LLMGUIChat.history (parent g'))
                                    LLMGUIChat.Finished)
                                 (now g) Finished,
                       snd (add_message_to_db w' "assistant" ai
                              (reply_metadata (LLMGUIChat.args (parent g)))))).
    { intros g0 w0 es0 Hp Hn R.
      apply DBFacts.relay_yield in R. destruct R as (p & b & R & -> & ->).
      rewrite Hp in R.
      destruct (GUIFacts.resume_completed _ _ _ _ _ _ R Hc)
        as (Ha & Hpc & before & ai & earlier & -> & Hb & Hh).
      exists ai, before. split; [reflexivity|]. split; [exact Hb|].
      assert (Hbase : base (self (with_base w0 b)) = b) by reflexivity.
      split.
      - rewrite Hbase, Hh. apply last_last.
      - unfold resume, relay. cbn [at_pc parent now].
        unfold LLMGUIChat.resume. rewrite Hpc.
        rewrite DBFacts.with_base_same.
        unfold store_reply. rewrite Hbase, Hh, DBFacts.last_some.
        cbn [role content String.eqb Ascii.eqb Bool.eqb].
        rewrite Ha, Hn. cbn [LLMGUIChat.args].
        destruct (add_message_to_db (with_base w0 b) "assistant" ai
                    (reply_metadata (LLMGUIChat.args (parent g)))) as [stored w2].
        reflexivity. }
    unfold resume in E. destruct (at_pc g) eqn:Hpc.
    - apply DBFacts.first_next_yield in E.
      destruct E as (created & stored & w1 & w2 & es' & -> & Hno & _ & R).
      destruct (Hrelay g w2 es' eq_refl eq_refl R)
        as (ai & before & -> & Hb & Hl & Hr).
      exists ai.
      replace (created ++ stored ++ before
                 ++ [Remembered (Message "assistant" ai)])%list
        with (((created ++ stored) ++ before)
                ++ [Remembered (Message "assistant" ai)])%list
        by (rewrite <- !app_assoc; reflexivity).
      rewrite last_last, !existsb_app, Hb.
      rewrite existsb_app in Hno. rewrite Hno.
      repeat split; auto.
    - destruct (Hrelay g w es eq_refl eq_refl E)
        as (ai & before & -> & Hb & Hl & Hr).
      exists ai. rewrite last_last, existsb_app, Hb.
      repeat split; auto.
    - discriminate E.
Qed.

End GUIClaims.

Lemma completion_is_yielded_before_reply_is_stored_witness :
  let r := @DatabaseLLMGUIChat.resume sample_runtime
             (fst Samples.hi_streaming) (snd Samples.hi_streaming) in
  exists ai,
    existsb Exchange.is_reply_store (fst (fst (fst r))) = false
    /\ last (fst (fst (fst r))) (Yielded "✅ Response completed using vLLM: m")
       = Remembered (Message "assistant" ai)
    /\ last (LLMGUIChat.conversation_history
               (DatabaseLLMGUIChat.base (DatabaseLLMGUIChat.self (snd r))))
            (Message "" "")
       = Message "assistant" ai
    /\ @DatabaseLLMGUIChat.resume sample_runtime (snd (fst r)) (snd r)
       = ((fst (DatabaseLLMGUIChat.add_message_to_db (snd r) "assistant" ai
                  (DatabaseLLMGUIChat.reply_metadata Samples.hi_completed)),
           StopIteration),
          DatabaseLLMGUIChat.Generator
            (LLMGUIChat.Generator Samples.hi_completed
               (LLMGUIChat.history (DatabaseLLMGUIChat.parent (snd (fst r))))
               LLMGUIChat.Finished)
            Samples.morning DatabaseLLMGUIChat.Finished,
          snd (DatabaseLLMGUIChat.add_message_to_db (snd r) "assistant" ai
                 (DatabaseLLMGUIChat.reply_metadata Samples.hi_completed))).
Proof.
  intro r.
  apply (@completion_is_yielded_before_reply_is_stored sample_runtime
           (fst Samples.hi_streaming) (snd Samples.hi_streaming)
           (fst (fst (fst r))) "✅ Response completed using vLLM: m"
           (snd (fst r)) (snd r)).
  - vm_compute. reflexivity.
  - vm_compute. reflexivity.
Defined.

(** C1 as stated fails: in the trace of a whole exchange that ends with
    [[DONE]], the append of the assistant message to the store does not
    come before the completed yield; it comes after it. *)
Lemma reply_store_follows_completed_yield :
  let trace :=
    fst (fst (@DatabaseLLMGUIChat.iterate sample_runtime 10
                (DatabaseLLMGUIChat.start Samples.hi_completed [] Samples.morning)
                Samples.fresh_gui)) in
  trace
  = [SessionCreated (ChatDatabaseManager.DbUuid 0);
     Stored (ChatDatabaseManager.DbUuid 0) "user" "hi" [];
     Remembered (Message "user" "hi");
     Posted (ChatCompletions "m" [Message "user" "hi"] true);
     Yielded "🔄 Streaming from vLLM: m";
     Yielded "🔄 Streaming from vLLM: m";
     Remembered (Message "assistant" "Hello");
     Yielded "✅ Response completed using vLLM: m";
     Stored (ChatDatabaseManager.DbUuid 0) "assistant" "Hello"
            [("backend", JStr "vllm"); ("model", JStr "m");
             ("reasoning_enabled", JBool false); ("reasoning_mode", JNull)]]
  /\ Exchange.precedes Exchange.is_reply_store Exchange.is_completed_yield trace
     = false
  /\ Exchange.precedes Exchange.is_completed_yield Exchange.is_reply_store trace
     = true.
Proof.
  vm_compute. repeat split; reflexivity.
Qed.

Lemma set_last_content_snoc (shown : list message) (m : message) (t : string) :
  set_last_content (shown ++ [m]) t = (shown ++ [Message (role m) t])%list.
Proof.
  unfold set_last_content. rewrite rev_app_distr. cbn [rev app].
  rewrite rev_involutive. reflexivity.
Qed.

Module StreamingFacts.

Import DatabaseLLMGUIChat.

Section Facts.
Context `{PyRuntime}.

Lemma mid_stream_parent g :
      Exchange.mid_stream g = true ->
      at_pc g = InParent
      /\ exists rest ending ai chunk,
           LLMGUIChat.at_pc (parent g) = LLMGUIChat.InOllama rest ending ai chunk
           \/ LLMGUIChat.at_pc (parent g) = LLMGUIChat.InVllm rest ending ai.
Proof.
      unfold Exchange.mid_stream.
      destruct (at_pc g); try discriminate.
      destruct (LLMGUIChat.at_pc (parent g)) as [|r e a c|r e a| | |];
        try discriminate; intros _; split; auto.
      - exists r, e, a, c. auto.
      - exists r, e, a, JNull. auto.
Qed.

    (** A Delta yield, read off [yield_shape]. *)
Lemma delta_shape p0 b0 es st p b :
      Exchange.yield_shape p0 b0 es st p b ->
      (exists rest ending ai chunk,
         LLMGUIChat.at_pc p = LLMGUIChat.InOllama rest ending ai chunk
         \/ LLMGUIChat.at_pc p = LLMGUIChat.InVllm rest ending ai) ->
      LLMGUIChat.args p = LLMGUIChat.args p0 /\ es = [] /\ b = b0
      /\ exists ai, LLMGUIChat.history p
                    = set_last_content (LLMGUIChat.history p0) ai.
Proof.
      intros [Ha [(_ & Hp & _)|(_ & -> & -> & [(Hp & _)|(r & e & ai & c & _ & Hh)])]]
             (r' & e' & ai' & c' & [Hm|Hm]);
        try (rewrite Hp in Hm; discriminate); eauto.
Qed.

    (** What holds while an exchange is streaming: the loop of line 157
        is running for the call [c]; the display ends with the assistant
        entry being filled; the conversation history ends with the user
        message, the reply not being part of it yet. *)
Lemma streaming_invariant c h t w0 g w :
      Exchange.streaming c h t w0 g w ->
      Exchange.mid_stream g = true
      /\ at_pc g = InParent /\ now g = t /\ LLMGUIChat.args (parent g) = c
      /\ (exists shown ai,
            LLMGUIChat.history (parent g)
            = (shown ++ [Message "assistant" ai])%list)
      /\ (exists earlier,
            LLMGUIChat.conversation_history (base (self w))
            = (earlier ++ [Message "user" (LLMGUIChat.arg_message c)])%list).
Proof.
      induction 1 as [es st g w E Hm | g w es st g' w' _ IH E Hm].
      - destruct (mid_stream_parent _ Hm) as (Hpc & Hin).
        unfold resume in E. cbn [at_pc start] in E.
        apply DBFacts.first_next_yield in E.
        destruct E as (created & stored & w1 & w2 & es' & _ & _ & _ & R).
        apply DBFacts.relay_yield in R. destruct R as (p & b & R & -> & ->).
        cbn [parent now start] in *.
        unfold LLMGUIChat.resume in R. cbn [LLMGUIChat.at_pc LLMGUIChat.start] in R.
        destruct (PyStr.is_empty (PyStr.strip (LLMGUIChat.arg_message c))) eqn:Hb.
        + unfold LLMGUIChat.begin in R. cbn [LLMGUIChat.args LLMGUIChat.start] in R.
          rewrite Hb in R. inversion R; subst.
          destruct Hin as (? & ? & ? & ? & [Hx|Hx]); discriminate Hx.
        + apply GUIFacts.begin_yield in R; [|exact Hb].
          destruct R as (request & es'' & _ & Hy).
          destruct (delta_shape _ _ _ _ _ _ Hy Hin) as (Ha & _ & -> & ai & Hh).
          cbn [LLMGUIChat.args LLMGUIChat.history LLMGUIChat.start] in *.
          repeat split; auto.
          * exists (h ++ [Message "user" (LLMGUIChat.arg_message c)])%list, ai.
            rewrite Hh.
            change (h ++ [Message "user" (LLMGUIChat.arg_message c);
                          Message "assistant" ""])%list
              with (h ++ [Message "user" (LLMGUIChat.arg_message c)]
                      ++ [Message "assistant" ""])%list.
            rewrite app_assoc, set_last_content_snoc. reflexivity.
          * eexists. reflexivity.
      - destruct IH as (Hm0 & Hpc & Hn & Ha & (shown & ai & Hh) & (earlier & Hc)).
        destruct (mid_stream_parent _ Hm0) as (_ & Hin0).
        destruct (mid_stream_parent _ Hm) as (Hpc' & Hin).
        unfold resume in E. rewrite Hpc in E.
        apply DBFacts.relay_yield in E. destruct E as (p & b & R & -> & ->).
        cbn [parent now] in *.
        assert (Hy : Exchange.yield_shape (parent g) (base (self w)) es st p b).
        { unfold LLMGUIChat.resume in R.
          destruct Hin0 as (r0 & e0 & a0 & c0 & [Hq|Hq]); rewrite Hq in R;
            apply GUIFacts.settle_yield in R; exact R. }
        destruct (delta_shape _ _ _ _ _ _ Hy Hin) as (Ha' & _ & -> & ai' & Hh').
        repeat split; auto.
        + congruence.
        + exists shown, ai'. rewrite Hh', Hh, set_last_content_snoc. reflexivity.
        + exists earlier. rewrite <- Hc. destruct w as [[b0 e0 s0 n0] d0 u0].
          reflexivity.
Qed.

End Facts.

End StreamingFacts.

Section FailureClaims.
Context `{PyRuntime}.

Import DatabaseLLMGUIChat.

  (** C2, as the code has it.  When an exchange that is streaming fails
      (the next yield is the one of an error handler), the step performs
      no effect and changes neither the object nor the store; the entry of
      the display that held the accumulated text now holds the error text,
      ["❌ "] followed by the yielded status.  The following [next] ends
      the generator without storing anything: the conversation history
      ends with the user message, so no assistant message is written.  The
      accumulated text is kept nowhere. *)
Theorem failed_stream_drops_partial_text :
    forall (c : LLMGUIChat.call) (h : list message) (t : clock) (w0 : world)
           (g : generator) (w : world) (es : list effect) (status : string)
           (g' : generator) (w' : world),
      Exchange.streaming c h t w0 g w ->
      resume g w = ((es, Yield status), g', w') ->
      Exchange.at_failure g' = true ->
      es = [] /\ w' = w
      /\ Exchange.is_completed status = false
      /\ (exists shown,
            LLMGUIChat.history (parent g')
            = (shown ++ [Message "assistant" ("❌ " ++ status)])%list)
      /\ resume g' w'
         = (([], StopIteration),
            Generator (LLMGUIChat.Generator c (LLMGUIChat.history (parent g'))
                         LLMGUIChat.Finished)
                      t Finished,
            w).
Proof.
    intros c h t w0 g w es status g' w' Hs E Hf.
    destruct (StreamingFacts.streaming_invariant _ _ _ _ _ _ Hs)
      as (Hm & Hpc & Hn & Ha & (shown & ai & Hh) & (earlier & Hc)).
    destruct (StreamingFacts.mid_stream_parent _ Hm) as (_ & Hin).
    unfold resume in E. rewrite Hpc in E.
    apply DBFacts.relay_yield in E. destruct E as (p & b & R & -> & ->).
    assert (Hy : Exchange.yield_shape (parent g) (base (self w)) es status p b).
    { unfold LLMGUIChat.resume in R.
      destruct Hin as (r0 & e0 & a0 & c0 & [Hq|Hq]); rewrite Hq in R;
        apply GUIFacts.settle_yield in R; exact R. }
    unfold Exchange.at_failure in Hf. cbn [at_pc parent] in Hf.
    destruct Hy as [Hargs [(_ & Hp & _)|(Hn' & -> & -> & [(Hp & Hh')|(r & e & a & k & [Hp|Hp] & _)])]];
      rewrite Hp in Hf; try discriminate Hf.
    rewrite DBFacts.with_base_same.
    split; [reflexivity|]. split; [reflexivity|]. split; [exact Hn'|].
    cbn [parent]. split.
    - exists shown. rewrite Hh', Hh, set_last_content_snoc. reflexivity.
    - unfold resume, relay. cbn [at_pc parent now].
      unfold LLMGUIChat.resume. rewrite Hp.
      rewrite DBFacts.with_base_same.
      unfold store_reply. rewrite Hc, DBFacts.last_some.
      cbn [role String.eqb Ascii.eqb Bool.eqb].
      rewrite Hargs, Ha, Hn. reflexivity.
Qed.

End FailureClaims.

Module SampleRuns.

Import DatabaseLLMGUIChat.

  (** The two sample exchanges are streaming after two [next]. *)
Lemma hi_is_streaming :
    @Exchange.streaming sample_runtime Samples.hi_completed [] Samples.morning
      Samples.fresh_gui (fst Samples.hi_streaming) (snd Samples.hi_streaming).
Proof.
    eapply Exchange.streaming_next.
    - eapply Exchange.streaming_first.
      + vm_compute. reflexivity.
      + reflexivity.
    - vm_compute. reflexivity.
    - reflexivity.
Qed.

Lemma dropped_is_streaming :
    @Exchange.streaming sample_runtime Samples.hi_dropped [] Samples.morning
      Samples.fresh_gui (fst Samples.hi_about_to_drop)
      (snd Samples.hi_about_to_drop).
Proof.
    eapply Exchange.streaming_next.
    - eapply Exchange.streaming_first.
      + vm_compute. reflexivity.
      + reflexivity.
    - vm_compute. reflexivity.
    - reflexivity.
Qed.

End SampleRuns.

Lemma failed_stream_drops_partial_text_witness :
  let r := @DatabaseLLMGUIChat.resume sample_runtime
             (fst Samples.hi_about_to_drop) (snd Samples.hi_about_to_drop) in
  fst (fst (fst r)) = [] /\ snd r = snd Samples.hi_about_to_drop
  /\ Exchange.is_completed "Connection error: reset by peer" = false
  /\ (exists shown,
        LLMGUIChat.history (DatabaseLLMGUIChat.parent (snd (fst r)))
        = (shown ++ [Message "assistant" "❌ Connection error: reset by peer"])%list)
  /\ @DatabaseLLMGUIChat.resume sample_runtime (snd (fst r)) (snd r)
     = (([], StopIteration),
        DatabaseLLMGUIChat.Generator
          (LLMGUIChat.Generator Samples.hi_dropped
             (LLMGUIChat.history (DatabaseLLMGUIChat.parent (snd (fst r))))
             LLMGUIChat.Finished)
          Samples.morning DatabaseLLMGUIChat.Finished,
        snd Samples.hi_about_to_drop).
Proof.
  intro r.
  apply (@failed_stream_drops_partial_text sample_runtime
           Samples.hi_dropped [] Samples.morning Samples.fresh_gui
           (fst Samples.hi_about_to_drop) (snd Samples.hi_about_to_drop)
           (fst (fst (fst r))) "Connection error: reset by peer"
           (snd (fst r)) (snd r)).
  - exact SampleRuns.dropped_is_streaming.
  - vm_compute. reflexivity.
  - vm_compute. reflexivity.
Defined.

(** C2 as stated fails: after [He] and [llo] the connection breaks; when
    the generator is exhausted the store holds the user message and
    nothing else, no message was stored with the partial text, and the
    display shows the error text where [Hello] had been. *)
Lemma partial_text_is_not_persisted :
  let '(trace, g, w) :=
    @DatabaseLLMGUIChat.iterate sample_runtime 10
      (DatabaseLLMGUIChat.start Samples.hi_dropped [] Samples.morning)
      Samples.fresh_gui in
  Exchange.roles_of (DatabaseLLMGUIChat.db w) Samples.sid0 = [("user", "hi")]
  /\ existsb Exchange.is_reply_store trace = false
  /\ LLMGUIChat.history (DatabaseLLMGUIChat.parent g)
     = [Message "user" "hi";
        Message "assistant" "❌ Connection error: reset by peer"]
  /\ LLMGUIChat.conversation_history
       (DatabaseLLMGUIChat.base (DatabaseLLMGUIChat.self w))
     = [Message "user" "hi"].
Proof.
  vm_compute. repeat split; reflexivity.
Qed.

(* ===================================================================== *)
(** ** Calls on a session that is busy, and sessions after a clear        *)
(* ===================================================================== *)

Module SessionFacts.

Import ChatDatabaseManager DatabaseLLMGUIChat.

Lemma below_next n u : Exchange.below n u = true -> Exchange.below (S n) u = true.
Proof.
    destruct u as [k|k]; simpl; [|reflexivity].
    rewrite !Nat.ltb_lt. lia.
Qed.

Lemma below_irrefl n : Exchange.below n (DbUuid n) = false.
Proof. simpl. apply Nat.ltb_irrefl. Qed.

Lemma fresh_sessions_below db :
    Exchange.fresh_supply db = true ->
    forall sid, session_exists db sid = true ->
                Exchange.below (next_uuid db) sid = true.
Proof.
    unfold Exchange.fresh_supply, session_exists.
    intros F sid E. apply andb_true_iff in F. destruct F as [F _].
    apply existsb_exists in E. destruct E as (s & Hin & Heq).
    apply StoreFacts.uuid_eqb_eq in Heq. subst sid.
    rewrite forallb_forall in F. apply F. exact Hin.
Qed.

  (** The identifier the server hands out next names no session yet. *)
Lemma next_is_no_session db :
    Exchange.fresh_supply db = true ->
    session_exists db (DbUuid (next_uuid db)) = false.
Proof.
    intros F. destruct (session_exists db (DbUuid (next_uuid db))) eqn:E;
      [|reflexivity].
    apply (fresh_sessions_below _ F) in E. rewrite below_irrefl in E.
    discriminate.
Qed.

  (** ... and owns no message. *)
Lemma next_has_no_messages db :
    Exchange.fresh_supply db = true ->
    session_messages db (DbUuid (next_uuid db)) = [].
Proof.
    unfold Exchange.fresh_supply, session_messages.
    intros F. apply andb_true_iff in F. destruct F as [_ F].
    rewrite forallb_forall in F.
    induction (chat_messages db) as [|m ms IH]; [reflexivity|].
    simpl. unfold of_session at 1.
    destruct (uuid_eqb (message_session m) (DbUuid (next_uuid db))) eqn:E.
    - apply StoreFacts.uuid_eqb_eq in E.
      specialize (F m (or_introl eq_refl)). rewrite E, below_irrefl in F.
      discriminate.
    - apply IH. intros x Hx. apply F. right. exact Hx.
Qed.

Lemma forallb_below_next {A : Type} (f : A -> uuid) n (xs : list A) :
    forallb (fun x => Exchange.below n (f x)) xs = true ->
    forallb (fun x => Exchange.below (S n) (f x)) xs = true.
Proof.
    rewrite !forallb_forall. intros F x Hx. apply below_next, F, Hx.
Qed.

  (** The supply stays fresh: in the empty store, and after each of the
      two statements that insert. *)
Lemma fresh_supply_empty : Exchange.fresh_supply empty = true.
Proof. reflexivity. Qed.

Lemma fresh_supply_create db backend model name now :
    Exchange.fresh_supply db = true ->
    Exchange.fresh_supply (snd (create_session db backend model name now)) = true.
Proof.
    unfold create_session. intros F.
    destruct (first_with_nul _); [exact F|].
    destruct (varchar 255 _); [|exact F].
    destruct (varchar 50 _); [|exact F].
    destruct (varchar 100 _); [|exact F].
    unfold Exchange.fresh_supply in *. cbn [snd chat_sessions chat_messages next_uuid].
    apply andb_true_iff in F. destruct F as [Fs Fm].
    rewrite forallb_app, (forallb_below_next _ _ _ Fs),
      (forallb_below_next _ _ _ Fm).
    cbn. rewrite Nat.leb_refl. reflexivity.
Qed.

Lemma fresh_supply_add db sid r c md :
    Exchange.fresh_supply db = true ->
    Exchange.fresh_supply (snd (add_message db sid r c md)) = true.
Proof.
    unfold add_message. intros F.
    destruct (negb _); [exact F|].
    destruct (first_with_nul _); [exact F|].
    destruct (varchar 20 r) as [r'|]; [|exact F].
    destruct (json_has_nul _); [exact F|].
    destruct (negb (role_check r')); [exact F|].
    destruct (session_exists db sid) eqn:E; [|exact F].
    cbn [negb].
    pose proof (fresh_sessions_below _ F _ E) as Hb.
    unfold Exchange.fresh_supply in *. cbn [snd chat_sessions chat_messages next_uuid].
    apply andb_true_iff in F. destruct F as [Fs Fm].
    rewrite forallb_app, (forallb_below_next _ _ _ Fs),
      (forallb_below_next _ _ _ Fm).
    cbn [forallb message_session]. rewrite (below_next _ _ Hb). reflexivity.
Qed.

  (** The first message of a session gets order 1. *)
Lemma first_message db sid text :
    session_messages db sid = [] ->
    session_exists db sid = true ->
    PyStr.has_nul text = false ->
    add_message db sid "user" text []
    = (Ok (DbUuid (next_uuid db)),
       Database (chat_sessions db)
                (chat_messages db
                   ++ [MessageRow (DbUuid (next_uuid db)) sid "user" text 1 []])
                (S (next_uuid db))).
Proof.
    intros Hn He Hz. unfold add_message, session_orders. rewrite Hn, He.
    cbn. rewrite Hz. reflexivity.
Qed.

  (** A message with a NUL is refused by the driver. *)
Lemma first_message_refused db sid text :
    session_messages db sid = [] ->
    PyStr.has_nul text = true ->
    add_message db sid "user" text []
    = (Raise (BuiltinError ValueError (JStr text)), db).
Proof.
    intros Hn Hz. unfold add_message, session_orders. rewrite Hn.
    cbn. rewrite Hz. reflexivity.
Qed.

Section Facts.
Context `{PyRuntime}.

    (** The first turn of the loop of line 157 leaves the store and the
        session alone, and does not end the generator. *)
Lemma first_relay g w :
      LLMGUIChat.at_pc (parent g) = LLMGUIChat.Start ->
      db (snd (relay g w)) = db w
      /\ current_session_id (self (snd (relay g w))) = current_session_id (self w)
      /\ snd (fst (fst (relay g w))) <> StopIteration.
Proof.
      intros Hp. unfold relay, LLMGUIChat.resume. rewrite Hp.
      pose proof (GUIFacts.begin_signal (parent g) (base (self w))) as Hs.
      destruct (LLMGUIChat.begin (parent g) (base (self w))) as [[[es s] p] b].
      cbn [fst snd] in Hs.
      destruct s as [status| |e]; [| contradiction |];
        repeat split; auto; discriminate.
Qed.

Lemma with_effects_parts es r :
      snd (with_effects es r) = snd r
      /\ snd (fst (fst (with_effects es r))) = snd (fst (fst r))
      /\ fst (fst (fst (with_effects es r))) = (es ++ fst (fst (fst r)))%list.
Proof. destruct r as [[[es' s] g] w]. repeat split. Qed.

    (** What the first turn of the loop of line 157 does before its
        yield: nothing for a blank message; otherwise the user entry is
        remembered and the request posted. *)
Lemma first_relay_effects g w :
      LLMGUIChat.at_pc (parent g) = LLMGUIChat.Start ->
      let c := LLMGUIChat.args (parent g) in
      let text := LLMGUIChat.arg_message c in
      let user := Message "user" text in
      let b :=
        LLMGUIChat.Chat (LLMGUIChat.arg_backend c) (LLMGUIChat.arg_model c)
          (LLMGUIChat.arg_reasoning c) (LLMGUIChat.arg_reasoning_mode c)
          (LLMGUIChat.conversation_history (base (self w)) ++ [user]) in
      let q :=
        if String.eqb (LLMGUIChat.arg_backend c) "ollama"
        then Generate (LLMGUIChat.arg_model c) (LLMGUIChat.ollama_prompt b text) true
        else ChatCompletions (LLMGUIChat.arg_model c)
                             (LLMGUIChat.vllm_messages b text) true in
      if PyStr.is_empty (PyStr.strip text)
      then fst (fst (relay g w)) = ([], Yield "❌ Please enter a message")
      else exists es,
             fst (fst (fst (relay g w))) = Remembered user :: Posted q :: es.
Proof.
      intros Hp c text user b q.
      unfold relay, LLMGUIChat.resume. rewrite Hp.
      unfold LLMGUIChat.begin. fold c. fold text.
      destruct (PyStr.is_empty (PyStr.strip text)); [reflexivity|].
      match goal with
      | |- context [LLMGUIChat.with_effects _ ?x] =>
          destruct x as [[[es s] p] b']
      end.
      cbn [LLMGUIChat.with_effects].
      destruct s as [status| |e]; cbn [fst snd app].
      - exists es. reflexivity.
      - destruct (store_reply _ _) as [stored w'].
        exists (es ++ stored)%list. reflexivity.
      - exists es. reflexivity.
Qed.

End Facts.

End SessionFacts.

Section SessionClaims.
Context `{PyRuntime}.

Import ChatDatabaseManager DatabaseLLMGUIChat.

  (** C3, as the code has it.  While an exchange is streaming on a
      session, a second [send_message_stream] call on the same object is
      not rejected: the object has no state that records an exchange in
      flight.  With the database connected, the session present, the
      order counter in range and no NUL in the message, the first [next]
      of the second call appends its user message to that same session,
      so that the session has one message more.  It then goes on to the
      inherited method: for a message that is not blank the user entry is
      remembered and the request is posted to the backend; for a blank
      one nothing is posted and the notice to enter a message is
      yielded. *)
Theorem second_call_during_stream_is_accepted :
    forall (c1 : LLMGUIChat.call) (h1 : list message) (t1 : clock) (w0 : world)
           (g1 : generator) (w : world)
           (c2 : LLMGUIChat.call) (h2 : list message) (t2 : clock) (sid : uuid),
      Exchange.streaming c1 h1 t1 w0 g1 w ->
      database_enabled (self w) = true ->
      current_session_id (self w) = Some sid ->
      session_exists (db w) sid = true ->
      (coalesce (sql_max (session_orders (db w) sid)) 0 + 1 <= INTEGER_MAX)%Z ->
      PyStr.has_nul (LLMGUIChat.arg_message c2) = false ->
      let r := resume (start c2 h2 t2) w in
      let text := LLMGUIChat.arg_message c2 in
      let user := Message "user" text in
      let b :=
        LLMGUIChat.Chat (LLMGUIChat.arg_backend c2) (LLMGUIChat.arg_model c2)
          (LLMGUIChat.arg_reasoning c2) (LLMGUIChat.arg_reasoning_mode c2)
          (LLMGUIChat.conversation_history (base (self w)) ++ [user]) in
      let q :=
        if String.eqb (LLMGUIChat.arg_backend c2) "ollama"
        then Generate (LLMGUIChat.arg_model c2) (LLMGUIChat.ollama_prompt b text) true
        else ChatCompletions (LLMGUIChat.arg_model c2)
                             (LLMGUIChat.vllm_messages b text) true in
      (if PyStr.is_empty (PyStr.strip text)
       then fst (fst (fst r)) = [Stored sid "user" text []]
            /\ snd (fst (fst r)) = Yield "❌ Please enter a message"
       else (exists es,
               fst (fst (fst r))
               = Stored sid "user" text [] :: Remembered user :: Posted q :: es)
            /\ snd (fst (fst r)) <> StopIteration)
      /\ Exchange.roles_of (db (snd r)) sid
         = (Exchange.roles_of (db w) sid ++ [("user", text)])%list
      /\ List.length (session_messages (db (snd r)) sid)
         = S (List.length (session_messages (db w) sid)).
Proof.
    intros c1 h1 t1 w0 g1 w c2 h2 t2 sid _ He Hsid Hex Hord Hz r text user b q.
    assert (Hadd : exists mid,
               add_message (db w) sid "user" (LLMGUIChat.arg_message c2) []
               = (Ok mid,
                  Database (chat_sessions (db w))
                    (chat_messages (db w)
                       ++ [MessageRow mid sid "user" (LLMGUIChat.arg_message c2)
                             (coalesce (sql_max (session_orders (db w) sid)) 0 + 1)
                             []])
                    (S (next_uuid (db w))))).
    { unfold add_message. apply Z.leb_le in Hord. rewrite Hord, Hex.
      cbn. rewrite Hz. eexists. reflexivity. }
    destruct Hadd as (mid & Hadd).
    subst r. unfold resume. cbn [at_pc start].
    unfold begin. cbn [parent start LLMGUIChat.start LLMGUIChat.args now].
    set (w1 := with_base w (LLMGUIChat.update_settings (base (self w)) c2)).
    assert (H1 : current_session_id (self w1) = Some sid) by exact Hsid.
    rewrite H1.
    unfold add_message_to_db.
    assert (H2 : database_enabled (self w1) = true) by exact He.
    rewrite H2, H1.
    change (db w1) with (db w). rewrite Hadd.
    match goal with
    | |- context [with_effects ?es (relay ?g ?w2)] =>
        destruct (SessionFacts.first_relay g w2 eq_refl) as (Hd & _ & Hs);
        destruct (SessionFacts.with_effects_parts es (relay g w2))
          as (P1 & P2 & P3)
    end.
    rewrite P1, P2, P3, Hd. cbn [db app].
    split.
    { match goal with
      | |- context [relay ?g ?w2] =>
          pose proof (SessionFacts.first_relay_effects g w2 eq_refl) as Fx
      end.
      cbn [parent start LLMGUIChat.start LLMGUIChat.args] in Fx.
      cbv zeta in Fx. fold text in Fx |- *.
      destruct (PyStr.is_empty (PyStr.strip text)).
      - rewrite Fx. split; reflexivity.
      - destruct Fx as (es & Fx). rewrite Fx.
        split; [exists es; reflexivity | exact Hs]. }
    unfold Exchange.roles_of, session_messages. cbn [chat_messages].
    assert (Hrow : forall row,
               message_session row = sid ->
               filter (of_session sid) (chat_messages (db w) ++ [row])
               = (filter (of_session sid) (chat_messages (db w)) ++ [row])%list).
    { intros row Hrow. rewrite filter_app. cbn [filter]. unfold of_session at 2.
      rewrite Hrow, StoreFacts.uuid_eqb_refl. reflexivity. }
    rewrite !Hrow by reflexivity.
    split.
    - rewrite map_app. reflexivity.
    - rewrite length_app. cbn [List.length]. apply Nat.add_1_r.
Qed.

  (** C9.  [clear_conversation] leaves the store exactly as it is and
      resets the working set: no current session, an empty conversation
      history.  When the name of the new session, made of backend, model
      and time, the backend and the model hold no NUL and have at most
      the 255, 50 and 100 characters of their columns, the [next] message
      creates a session under an identifier that names no session and
      owns no message of the store before; it becomes the current
      session; its row, with the name, the backend and the model, is
      added after the session rows that were there; the user message is
      added after the message rows that were there, to the new session
      and with order 1, unless it holds a NUL, in which case no message
      row is added; the messages of every other session, the cleared one
      among them, are the same as before.  In general the three values
      decide: the same happens, with the values cut to their columns,
      when what exceeds a column is spaces; otherwise the [next] raises,
      [ValueError] for a NUL and else the error of a value too long for
      its column, no session is current, and the store is as before. *)
Theorem clear_keeps_history_and_next_message_opens_session :
    forall (w : world) (c : LLMGUIChat.call) (h : list message) (t : clock),
      database_enabled (self w) = true ->
      Exchange.fresh_supply (db w) = true ->
      let cleared := snd (clear_conversation w) in
      let r := resume (start c h t) cleared in
      let sid := DbUuid (next_uuid (db w)) in
      let backend := LLMGUIChat.arg_backend c in
      let model := LLMGUIChat.arg_model c in
      let name := backend ++ "-" ++ model ++ "-" ++ date_and_time t in
      let text := LLMGUIChat.arg_message c in
      db cleared = db w
      /\ current_session_id (self cleared) = None
      /\ LLMGUIChat.conversation_history (base (self cleared)) = []
      /\ (PyStr.has_nul name = false ->
          PyStr.has_nul backend = false ->
          PyStr.has_nul model = false ->
          (PyStr.len name <= 255)%nat ->
          (PyStr.len backend <= 50)%nat ->
          (PyStr.len model <= 100)%nat ->
          session_exists (db w) sid = false
          /\ session_messages (db w) sid = []
          /\ current_session_id (self (snd r)) = Some sid
          /\ chat_sessions (db (snd r))
             = (chat_sessions (db w) ++ [SessionRow sid name backend model []])%list
          /\ chat_messages (db (snd r))
             = (chat_messages (db w)
                  ++ (if PyStr.has_nul text then []
                      else [MessageRow (DbUuid (S (next_uuid (db w))))
                                       sid "user" text 1 []]))%list
          /\ (forall other,
                other <> sid ->
                session_messages (db (snd r)) other
                = session_messages (db w) other))
      /\ match first_with_nul [name; backend; model] with
         | Some p =>
             snd (fst (fst r)) = Propagate (BuiltinError ValueError (JStr p))
             /\ current_session_id (self (snd r)) = None
             /\ db (snd r) = db w
         | None =>
             match varchar 255 name, varchar 50 backend, varchar 100 model with
             | Some name', Some backend', Some model' =>
                 session_exists (db w) sid = false
                 /\ session_messages (db w) sid = []
                 /\ current_session_id (self (snd r)) = Some sid
                 /\ chat_sessions (db (snd r))
                    = (chat_sessions (db w)
                         ++ [SessionRow sid name' backend' model' []])%list
                 /\ chat_messages (db (snd r))
                    = (chat_messages (db w)
                         ++ (if PyStr.has_nul text then []
                             else [MessageRow (DbUuid (S (next_uuid (db w))))
                                              sid "user" text 1 []]))%list
                 /\ (forall other,
                       other <> sid ->
                       session_messages (db (snd r)) other
                       = session_messages (db w) other)
             | _, _, _ =>
                 snd (fst (fst r))
                 = Propagate (DatabaseError StringDataRightTruncation)
                 /\ current_session_id (self (snd r)) = None
                 /\ db (snd r) = db w
             end
         end.
Proof.
    intros w c h t He Hf cleared r sid backend model name text.
    split; [reflexivity|]. split; [reflexivity|]. split; [reflexivity|].
    assert (M : match first_with_nul [name; backend; model] with
         | Some p =>
             snd (fst (fst r)) = Propagate (BuiltinError ValueError (JStr p))
             /\ current_session_id (self (snd r)) = None
             /\ db (snd r) = db w
         | None =>
             match varchar 255 name, varchar 50 backend, varchar 100 model with
             | Some name', Some backend', Some model' =>
                 session_exists (db w) sid = false
                 /\ session_messages (db w) sid = []
                 /\ current_session_id (self (snd r)) = Some sid
                 /\ chat_sessions (db (snd r))
                    = (chat_sessions (db w)
                         ++ [SessionRow sid name' backend' model' []])%list
                 /\ chat_messages (db (snd r))
                    = (chat_messages (db w)
                         ++ (if PyStr.has_nul text then []
                             else [MessageRow (DbUuid (S (next_uuid (db w))))
                                              sid "user" text 1 []]))%list
                 /\ (forall other,
                       other <> sid ->
                       session_messages (db (snd r)) other
                       = session_messages (db w) other)
             | _, _, _ =>
                 snd (fst (fst r))
                 = Propagate (DatabaseError StringDataRightTruncation)
                 /\ current_session_id (self (snd r)) = None
                 /\ db (snd r) = db w
             end
         end).
    2:{ split; [|exact M].
        intros Zn Zb Zm Ln Lb Lm.
        cbn [first_with_nul] in M. rewrite Zn, Zb, Zm in M.
        rewrite (TextFacts.varchar_fits _ _ Ln), (TextFacts.varchar_fits _ _ Lb),
          (TextFacts.varchar_fits _ _ Lm) in M.
        exact M. }
    subst r. unfold resume. cbn [at_pc start].
    unfold begin. cbn [parent start LLMGUIChat.start LLMGUIChat.args now].
    set (w1 := with_base cleared (LLMGUIChat.update_settings (base (self cleared)) c)).
    change (current_session_id (self w1)) with (@None uuid). cbv iota.
    unfold start_new_session.
    change (database_enabled (self w1)) with (database_enabled (self w)).
    rewrite He. change (db w1) with (db w).
    unfold create_session, name_of. fold backend model name.
    destruct (first_with_nul [name; backend; model]) as [p|].
    { repeat split. }
    destruct (varchar 255 name) as [name'|]; [|repeat split].
    destruct (varchar 50 backend) as [backend'|]; [|repeat split].
    destruct (varchar 100 model) as [model'|]; [|repeat split].
    cbv iota. cbn [fst snd].
    unfold add_message_to_db. cbn [self database_enabled current_session_id db].
    fold sid. fold text.
    assert (Hex : session_exists
                    (Database (chat_sessions (db w)
                                 ++ [SessionRow sid name' backend' model' []])
                              (chat_messages (db w)) (S (next_uuid (db w))))
                    sid = true).
    { unfold session_exists. cbn [chat_sessions].
      rewrite existsb_app. cbn [existsb session_id].
      rewrite StoreFacts.uuid_eqb_refl. apply orb_true_r. }
    pose proof (SessionFacts.next_has_no_messages _ Hf) as Hnone.
    fold sid in Hnone.
    assert (Hframe : forall row other,
               message_session row = sid -> other <> sid ->
               session_messages
                 (Database (chat_sessions (db w)
                              ++ [SessionRow sid name' backend' model' []])
                           (chat_messages (db w) ++ [row])
                           (S (S (next_uuid (db w)))))
                 other
               = session_messages (db w) other).
    { intros row other Hrow Hother. unfold session_messages.
      cbn [chat_messages]. rewrite filter_app. cbn [filter].
      unfold of_session at 2. rewrite Hrow.
      destruct (uuid_eqb sid other) eqn:E.
      - apply StoreFacts.uuid_eqb_eq in E. congruence.
      - apply app_nil_r. }
    destruct (PyStr.has_nul text) eqn:Hz.
    - rewrite SessionFacts.first_message_refused; [|exact Hnone|exact Hz].
      match goal with
      | |- context [with_effects ?es (relay ?g ?w2)] =>
          destruct (SessionFacts.first_relay g w2 eq_refl) as (Hd & Hc & _);
          destruct (SessionFacts.with_effects_parts es (relay g w2))
            as (P1 & _ & _)
      end.
      rewrite P1, Hd, Hc.
      cbn [db self current_session_id chat_sessions chat_messages].
      split; [exact (SessionFacts.next_is_no_session _ Hf)|].
      split; [exact Hnone|].
      split; [reflexivity|]. split; [reflexivity|].
      split; [symmetry; apply app_nil_r|]. intros other _. reflexivity.
    - rewrite SessionFacts.first_message; [|exact Hnone|exact Hex|exact Hz].
      match goal with
      | |- context [with_effects ?es (relay ?g ?w2)] =>
          destruct (SessionFacts.first_relay g w2 eq_refl) as (Hd & Hc & _);
          destruct (SessionFacts.with_effects_parts es (relay g w2))
            as (P1 & _ & _)
      end.
      rewrite P1, Hd, Hc.
      cbn [db self current_session_id chat_sessions chat_messages next_uuid].
      split; [exact (SessionFacts.next_is_no_session _ Hf)|].
      split; [exact Hnone|].
      split; [reflexivity|]. split; [reflexivity|].
      split; [reflexivity|].
      intros other Hother. apply Hframe; [reflexivity | exact Hother].
Qed.

End SessionClaims.

Lemma second_call_during_stream_is_accepted_witness :
  let r := @DatabaseLLMGUIChat.resume sample_runtime
             (DatabaseLLMGUIChat.start Samples.again [] Samples.morning)
             (snd Samples.hi_streaming) in
  ((exists es,
      fst (fst (fst r))
      = Stored Samples.sid0 "user" "again" []
          :: Remembered (Message "user" "again")
          :: Posted (ChatCompletions "m"
                       [Message "user" "hi"; Message "user" "again"] true)
          :: es)
   /\ snd (fst (fst r)) <> StopIteration)
  /\ Exchange.roles_of (DatabaseLLMGUIChat.db (snd r)) Samples.sid0
     = (Exchange.roles_of (DatabaseLLMGUIChat.db (snd Samples.hi_streaming))
          Samples.sid0 ++ [("user", "again")])%list
  /\ List.length (ChatDatabaseManager.session_messages
                    (DatabaseLLMGUIChat.db (snd r)) Samples.sid0)
     = S (List.length (ChatDatabaseManager.session_messages
                         (DatabaseLLMGUIChat.db (snd Samples.hi_streaming))
                         Samples.sid0)).
Proof.
  apply (@second_call_during_stream_is_accepted sample_runtime
           Samples.hi_completed [] Samples.morning Samples.fresh_gui
           (fst Samples.hi_streaming) (snd Samples.hi_streaming)
           Samples.again [] Samples.morning Samples.sid0).
  - exact SampleRuns.hi_is_streaming.
  - reflexivity.
  - reflexivity.
  - reflexivity.
  - vm_compute. discriminate.
  - reflexivity.
Defined.

(** C3 as stated fails: with the exchange [hi] suspended mid-stream on
    session 0, which holds one message, a second call is not answered with
    a busy condition; its first [next] yields a streaming status, and the
    session then holds two messages. *)
Lemma busy_session_takes_second_message :
  let r := @DatabaseLLMGUIChat.resume sample_runtime
             (DatabaseLLMGUIChat.start Samples.again [] Samples.morning)
             (snd Samples.hi_streaming) in
  Exchange.mid_stream (fst Samples.hi_streaming) = true
  /\ Exchange.roles_of (DatabaseLLMGUIChat.db (snd Samples.hi_streaming))
       Samples.sid0 = [("user", "hi")]
  /\ snd (fst (fst r)) = Yield "🔄 Streaming from vLLM: m"
  /\ Exchange.roles_of (DatabaseLLMGUIChat.db (snd r)) Samples.sid0
     = [("user", "hi"); ("user", "again")].
Proof.
  vm_compute. repeat split; reflexivity.
Qed.

Lemma clear_keeps_history_and_next_message_opens_session_witness :
  let cleared := snd (DatabaseLLMGUIChat.clear_conversation Samples.after_hi) in
  let r := @DatabaseLLMGUIChat.resume sample_runtime
             (DatabaseLLMGUIChat.start Samples.again [] Samples.morning) cleared in
  let before := DatabaseLLMGUIChat.db Samples.after_hi in
  let sid := ChatDatabaseManager.DbUuid 3 in
  DatabaseLLMGUIChat.db cleared = before
  /\ DatabaseLLMGUIChat.current_session_id (DatabaseLLMGUIChat.self cleared) = None
  /\ LLMGUIChat.conversation_history
       (DatabaseLLMGUIChat.base (DatabaseLLMGUIChat.self cleared)) = []
  /\ ChatDatabaseManager.session_exists before sid = false
  /\ ChatDatabaseManager.session_messages before sid = []
  /\ DatabaseLLMGUIChat.current_session_id
       (DatabaseLLMGUIChat.self (snd r)) = Some sid
  /\ ChatDatabaseManager.chat_sessions (DatabaseLLMGUIChat.db (snd r))
     = (ChatDatabaseManager.chat_sessions before
          ++ [ChatDatabaseManager.SessionRow sid "vllm-m-2025-01-01 10:00"
                "vllm" "m" []])%list
  /\ ChatDatabaseManager.chat_messages (DatabaseLLMGUIChat.db (snd r))
     = (ChatDatabaseManager.chat_messages before
          ++ [ChatDatabaseManager.MessageRow (ChatDatabaseManager.DbUuid 4) sid
                "user" "again" 1 []])%list
  /\ (forall other,
        other <> sid ->
        ChatDatabaseManager.session_messages (DatabaseLLMGUIChat.db (snd r)) other
        = ChatDatabaseManager.session_messages before other).
Proof.
  pose proof (@clear_keeps_history_and_next_message_opens_session sample_runtime
                Samples.after_hi Samples.again [] Samples.morning
                eq_refl eq_refl)
    as (Same & NoSession & NoHistory & Opens & _).
  split; [exact Same|]. split; [exact NoSession|]. split; [exact NoHistory|].
  apply Opens; try reflexivity; vm_compute; lia.
Defined.

(* ===================================================================== *)
(** ** A blank message after a completed exchange                         *)
(* ===================================================================== *)

(** The two cases the store is meant to see: a completed exchange leaves
    the user message and the reply, in this order; an exchange whose
    request fails leaves the user message only. *)
Example completed_and_unreachable_exchanges :
  Exchange.roles_of (DatabaseLLMGUIChat.db Samples.after_hi) Samples.sid0
  = [("user", "hi"); ("assistant", "Hello")]
  /\ ChatDatabaseManager.session_orders
       (DatabaseLLMGUIChat.db Samples.after_hi) Samples.sid0 = [1; 2]%Z
  /\ (let '(trace, _, w) :=
        @DatabaseLLMGUIChat.iterate sample_runtime 10
          (DatabaseLLMGUIChat.start Samples.hi_unreachable [] Samples.morning)
          Samples.fresh_gui in
      Exchange.roles_of (DatabaseLLMGUIChat.db w) Samples.sid0 = [("user", "hi")]
      /\ last trace (Yielded "") = Yielded "Connection error: connection refused").
Proof. vm_compute. repeat split; reflexivity. Qed.

(** C5 on the input that breaks it.  After the exchange [hi] / [Hello]
    has been completed and stored, a message of two spaces is sent.  No
    request is made and no byte is received; the generator yields
    ["❌ Please enter a message"].  The store nevertheless receives two
    new messages: the blank user message, and, once more, the assistant
    message [Hello] of the exchange before. *)
Theorem blank_message_stores_previous_reply_again :
  let '(trace, _, w) :=
    @DatabaseLLMGUIChat.iterate sample_runtime 10
      (DatabaseLLMGUIChat.start Samples.blank [] Samples.morning)
      Samples.after_hi in
  Exchange.roles_of (DatabaseLLMGUIChat.db Samples.after_hi) Samples.sid0
  = [("user", "hi"); ("assistant", "Hello")]
  /\ trace
     = [Stored Samples.sid0 "user" "  " [];
        Yielded "❌ Please enter a message";
        Stored Samples.sid0 "assistant" "Hello"
               [("backend", JStr "vllm"); ("model", JStr "m");
                ("reasoning_enabled", JBool false); ("reasoning_mode", JNull)]]
  /\ Exchange.roles_of (DatabaseLLMGUIChat.db w) Samples.sid0
     = [("user", "hi"); ("assistant", "Hello");
        ("user", "  "); ("assistant", "Hello")]
  /\ ChatDatabaseManager.session_orders (DatabaseLLMGUIChat.db w) Samples.sid0
     = [1; 2; 3; 4]%Z.
Proof.
  vm_compute. repeat split; reflexivity.
Qed.

(* ===================================================================== *)
(** ** More on the store: integrity, deletion, reading                    *)
(* ===================================================================== *)

Module ReadFacts.

Import ChatDatabaseManager ChatDatabaseReads.

Lemma uuid_eqb_sym (a b : uuid) : uuid_eqb a b = uuid_eqb b a.
Proof.
    destruct (uuid_eqb a b) eqn:E.
    - apply StoreFacts.uuid_eqb_eq in E. subst. symmetry.
      apply StoreFacts.uuid_eqb_refl.
    - destruct (uuid_eqb b a) eqn:E'; [|reflexivity].
      apply StoreFacts.uuid_eqb_eq in E'. subst.
      rewrite StoreFacts.uuid_eqb_refl in E. discriminate.
Qed.

Lemma session_exists_more db sid extra :
    session_exists db sid = true ->
    existsb (fun s => uuid_eqb (session_id s) sid) (chat_sessions db ++ extra)
    = true.
Proof. unfold session_exists. intros E. rewrite existsb_app, E. reflexivity. Qed.

  (** Messages of other sessions survive the deletion of a session. *)
Lemma filter_other msgs sid other :
    uuid_eqb sid other = false ->
    filter (of_session other) (filter (fun m => negb (of_session sid m)) msgs)
    = filter (of_session other) msgs.
Proof.
    intros Hne. induction msgs as [|m ms IH]; [reflexivity|].
    cbn [filter].
    destruct (of_session sid m) eqn:Es; cbn [negb].
    - assert (Ho : of_session other m = false).
      { unfold of_session in *. apply StoreFacts.uuid_eqb_eq in Es.
        rewrite Es. exact Hne. }
      rewrite Ho. exact IH.
    - cbn [filter]. rewrite IH. reflexivity.
Qed.

Lemma filter_idem {A : Type} (f : A -> bool) (l : list A) :
    filter f (filter f l) = filter f l.
Proof.
    induction l as [|x l IH]; [reflexivity|].
    cbn [filter]. destruct (f x) eqn:E; [|exact IH].
    cbn [filter]. rewrite E, IH. reflexivity.
Qed.

Lemma filter_self msgs sid :
    filter (of_session sid) (filter (fun m => negb (of_session sid m)) msgs) = [].
Proof.
    induction msgs as [|m ms IH]; [reflexivity|].
    simpl. destruct (of_session sid m) eqn:E; simpl; [exact IH|].
    rewrite E. exact IH.
Qed.

Lemma exists_after_delete db sid other :
    session_exists (snd (delete_session db sid)) other
    = negb (uuid_eqb sid other) && session_exists db other.
Proof.
    unfold session_exists, delete_session. cbn [snd chat_sessions].
    induction (chat_sessions db) as [|s ss IH]; simpl.
    - now rewrite andb_false_r.
    - destruct (uuid_eqb (session_id s) sid) eqn:Es; simpl.
      + apply StoreFacts.uuid_eqb_eq in Es. rewrite Es, IH.
        destruct (uuid_eqb sid other); reflexivity.
      + rewrite IH.
        destruct (uuid_eqb (session_id s) other) eqn:Eo; simpl; [|reflexivity].
        apply StoreFacts.uuid_eqb_eq in Eo. rewrite Eo in Es.
        rewrite uuid_eqb_sym, Es. reflexivity.
Qed.

Lemma referential_step db s :
    referential db = true -> referential (execute db s) = true.
Proof.
    unfold referential. intros R. rewrite forallb_forall in R.
    destruct s as [backend model name now|sid role content md|sid]; cbn [execute].
    - destruct (StoreFacts.create_session_cases db backend model name now)
        as [(e & ->)|(n' & b' & m' & _ & _ & _ & _ & ->)]; cbn [snd].
      + apply forallb_forall. exact R.
      + apply forallb_forall. intros m Hm. cbn [chat_messages] in Hm.
        unfold session_exists at 1. cbn [chat_sessions].
        apply session_exists_more, R, Hm.
    - destruct (StoreFacts.add_message_cases db sid role content md)
        as [(e & ->)|(E & _ & _ & _ & _ & ->)]; cbn [snd].
      + apply forallb_forall. exact R.
      + apply forallb_forall. intros m Hm. cbn [chat_messages] in Hm.
        unfold session_exists at 1. cbn [chat_sessions].
        apply in_app_or in Hm. destruct Hm as [Hm|[<-|[]]].
        * apply (R m Hm).
        * exact E.
    - apply forallb_forall. intros m Hm.
      unfold delete_session in Hm. cbn [snd chat_messages] in Hm.
      apply filter_In in Hm. destruct Hm as [Hm Hk].
      rewrite exists_after_delete, (R m Hm), andb_true_r.
      unfold of_session in Hk. rewrite uuid_eqb_sym. exact Hk.
Qed.

Lemma orders_length k :
    List.length (map Z.of_nat (seq 1 k)) = k.
Proof. now rewrite length_map, length_seq. Qed.

Lemma gap_free_step db s : gap_free db -> gap_free (execute db s).
Proof.
    unfold gap_free. intros G other.
    destruct s as [backend model name now|sid role content md|sid]; cbn [execute].
    - destruct (StoreFacts.create_session_cases db backend model name now)
        as [(e & ->)|(n' & b' & m' & _ & _ & _ & _ & ->)]; cbn [snd]; apply G.
    - rewrite StoreFacts.session_orders_after.
      destruct (uuid_eqb sid other && succeeded (fst (add_message db sid role content md)));
        [|apply G].
      rewrite length_app. cbn [List.length].
      rewrite Nat.add_1_r, seq_S, map_app. cbn [map].
      rewrite <- G. f_equal. f_equal.
      rewrite (G other) at 1. rewrite StoreFacts.sql_max_first_k. lia.
    - unfold session_orders, session_messages, delete_session.
      cbn [snd chat_messages].
      destruct (uuid_eqb sid other) eqn:E.
      + apply StoreFacts.uuid_eqb_eq in E. subst other.
        rewrite filter_self. reflexivity.
      + rewrite (filter_other _ _ _ E). apply G.
Qed.

  (** The maximum is at least every element. *)
Lemma fold_max_mono xs : forall a b,
    (a <= b)%Z -> (fold_left Z.max xs a <= fold_left Z.max xs b)%Z.
Proof.
    induction xs as [|x xs IH]; intros a b Hab; simpl; [exact Hab|].
    apply IH. lia.
Qed.

Lemma fold_max_start xs : forall a, (a <= fold_left Z.max xs a)%Z.
Proof.
    induction xs as [|x xs IH]; intros a; simpl; [lia|].
    specialize (IH (Z.max a x)). lia.
Qed.

Lemma fold_max_ge xs : forall x0 y,
    In y (x0 :: xs) -> (y <= fold_left Z.max xs x0)%Z.
Proof.
    induction xs as [|x xs IH]; intros x0 y Hy.
    - destruct Hy as [E|[]]. subst. simpl. lia.
    - simpl. destruct Hy as [E|[E|Hy]].
      + subst. pose proof (fold_max_start xs (Z.max y x)). lia.
      + subst. pose proof (fold_max_start xs (Z.max x0 y)). lia.
      + pose proof (IH x y (or_intror Hy)) as H1.
        pose proof (fold_max_mono xs x (Z.max x0 x) ltac:(lia)). lia.
Qed.

Lemma sql_max_ge xs y :
    In y xs -> (y <= coalesce (sql_max xs) 0)%Z.
Proof.
    destruct xs as [|x xs]; [intros []|]. intros Hy. simpl.
    apply fold_max_ge. exact Hy.
Qed.

  (** A row whose order is above all others sorts to the end. *)
Lemma insert_below m rows last_row :
    (message_order m < message_order last_row)%Z ->
    insert_by_order m (rows ++ [last_row])
    = (insert_by_order m rows ++ [last_row])%list.
Proof.
    intros Hlt. induction rows as [|x rows IH]; simpl.
    - destruct (message_order m <=? message_order last_row)%Z eqn:E;
        [reflexivity|]. apply Z.leb_gt in E. lia.
    - destruct (message_order m <=? message_order x)%Z; [reflexivity|].
      rewrite IH. reflexivity.
Qed.

Lemma sorted_snoc rows last_row :
    (forall m, In m rows -> (message_order m < message_order last_row)%Z) ->
    order_by_message_order (rows ++ [last_row])
    = (order_by_message_order rows ++ [last_row])%list.
Proof.
    induction rows as [|x rows IH]; intros Hall; [reflexivity|].
    simpl. rewrite IH by (intros m Hm; apply Hall; right; exact Hm).
    apply insert_below. apply Hall. left. reflexivity.
Qed.

End ReadFacts.

(** X1.  The store stays referentially intact under any series of
    [create_session], [add_message] and [delete_session] calls: if every
    message belongs to a session before, every message belongs to a
    session afterwards.  A message is never left behind by a deletion and
    never written to a session that does not exist. *)
Theorem store_stays_referential :
  forall (db : ChatDatabaseManager.database)
         (ss : list ChatDatabaseReads.statement),
    ChatDatabaseReads.referential db = true ->
    ChatDatabaseReads.referential (ChatDatabaseReads.execute_all db ss) = true.
Proof.
  intros db ss. revert db.
  induction ss as [|s ss IH]; intros db R; [exact R|].
  apply IH, ReadFacts.referential_step, R.
Qed.

Lemma store_stays_referential_witness :
  ChatDatabaseReads.referential ChatDatabaseManager.empty = true
  /\ ChatDatabaseReads.referential
       (ChatDatabaseReads.execute_all ChatDatabaseManager.empty StoreSamples.script)
     = true.
Proof.
  split; [reflexivity|].
  apply (store_stays_referential ChatDatabaseManager.empty StoreSamples.script).
  reflexivity.
Defined.

(** X2.  Under any series of [create_session], [add_message] and
    [delete_session] calls the orders of every session stay 1, 2, ..., n
    in insertion order: deleting a session does not disturb the counters
    of the others, and a session that is written to again after other
    activity continues where it was. *)
Theorem orders_stay_gap_free :
  forall (db : ChatDatabaseManager.database)
         (ss : list ChatDatabaseReads.statement),
    ChatDatabaseReads.gap_free db ->
    ChatDatabaseReads.gap_free (ChatDatabaseReads.execute_all db ss).
Proof.
  intros db ss. revert db.
  induction ss as [|s ss IH]; intros db G; [exact G|].
  apply IH, ReadFacts.gap_free_step, G.
Qed.

Lemma orders_stay_gap_free_witness :
  ChatDatabaseReads.gap_free ChatDatabaseManager.empty
  /\ ChatDatabaseReads.gap_free
       (ChatDatabaseReads.execute_all ChatDatabaseManager.empty StoreSamples.script).
Proof.
  assert (G : ChatDatabaseReads.gap_free ChatDatabaseManager.empty)
    by (intros sid; reflexivity).
  split; [exact G|].
  apply (orders_stay_gap_free ChatDatabaseManager.empty StoreSamples.script G).
Defined.

(** X3.  [delete_session] removes the session and all of its messages and
    nothing else: afterwards the session does not exist and has no
    messages, every other session exists as before with the messages it
    had, the result tells whether the session existed, and a second
    deletion returns [False] and changes nothing. *)
Theorem delete_session_cascades_and_frames :
  forall (db : ChatDatabaseManager.database) (sid : ChatDatabaseManager.uuid),
    let db' := snd (ChatDatabaseManager.delete_session db sid) in
    fst (ChatDatabaseManager.delete_session db sid)
      = ChatDatabaseManager.session_exists db sid
    /\ ChatDatabaseManager.session_exists db' sid = false
    /\ ChatDatabaseManager.session_messages db' sid = []
    /\ (forall other,
          ChatDatabaseManager.uuid_eqb sid other = false ->
          ChatDatabaseManager.session_exists db' other
            = ChatDatabaseManager.session_exists db other
          /\ ChatDatabaseManager.session_messages db' other
             = ChatDatabaseManager.session_messages db other)
    /\ ChatDatabaseManager.delete_session db' sid = (false, db').
Proof.
  intros db sid db'.
  assert (Hgone : ChatDatabaseManager.session_exists db' sid = false).
  { unfold db'. rewrite ReadFacts.exists_after_delete,
      StoreFacts.uuid_eqb_refl. reflexivity. }
  split; [reflexivity|]. split; [exact Hgone|].
  split; [apply ReadFacts.filter_self|].
  split.
  - intros other Hne. split.
    + unfold db'. rewrite ReadFacts.exists_after_delete, Hne. reflexivity.
    + apply ReadFacts.filter_other. exact Hne.
  - unfold ChatDatabaseManager.delete_session at 1. rewrite Hgone.
    f_equal. unfold db', ChatDatabaseManager.delete_session.
    cbn [snd ChatDatabaseManager.chat_sessions ChatDatabaseManager.chat_messages
         ChatDatabaseManager.next_uuid].
    f_equal; apply ReadFacts.filter_idem.
Qed.

Module ReadFacts2.

Import ChatDatabaseManager ChatDatabaseReads.

Lemma find_snoc {A : Type} (f : A -> bool) (l : list A) (x : A) :
    find f (l ++ [x])
    = match find f l with
      | Some y => Some y
      | None => if f x then Some x else None
      end.
Proof.
    induction l as [|a l IH]; [reflexivity|].
    simpl. destruct (f a); [reflexivity | exact IH].
Qed.

Lemma find_none_of_existsb {A : Type} (f : A -> bool) (l : list A) :
    existsb f l = false -> find f l = None.
Proof.
    induction l as [|a l IH]; [reflexivity|].
    simpl. destruct (f a); [discriminate | exact IH].
Qed.

Lemma find_some_of_existsb {A : Type} (f : A -> bool) (l : list A) :
    existsb f l = true -> exists y, find f l = Some y.
Proof.
    induction l as [|a l IH]; [discriminate|].
    simpl. destruct (f a); [eauto | exact IH].
Qed.

End ReadFacts2.

(** X4.  What [add_message] writes, [get_conversation_history] reads back:
    after a successful call the history of the session is the history it
    had, followed by one entry with the role, content and metadata given;
    the new message sorts last whatever the orders of the earlier ones
    are.  The history of every other session is unchanged. *)
Theorem history_after_add_message :
  forall (db : ChatDatabaseManager.database) (sid : ChatDatabaseManager.uuid)
         (role content : string) (metadata : list (string * json))
         (mid : ChatDatabaseManager.uuid),
    fst (ChatDatabaseManager.add_message db sid role content metadata) = Ok mid ->
    let db' := snd (ChatDatabaseManager.add_message db sid role content metadata) in
    ChatDatabaseReads.get_conversation_history db' sid
      = (ChatDatabaseReads.get_conversation_history db sid
           ++ [ChatDatabaseReads.HistoryEntry role content metadata])%list
    /\ forall other,
         ChatDatabaseManager.uuid_eqb sid other = false ->
         ChatDatabaseReads.get_conversation_history db' other
           = ChatDatabaseReads.get_conversation_history db other.
Proof.
  intros db sid role content metadata mid E db'.
  destruct (StoreFacts.add_message_success _ _ _ _ _ _ E) as [Hm _].
  unfold ChatDatabaseReads.get_conversation_history,
    ChatDatabaseManager.session_messages. unfold db'. rewrite Hm.
  split.
  - rewrite filter_app. cbn [filter].
    unfold ChatDatabaseManager.of_session at 2.
    cbn [ChatDatabaseManager.message_session].
    rewrite StoreFacts.uuid_eqb_refl, ReadFacts.sorted_snoc, map_app.
    + reflexivity.
    + intros m Hm'. cbn [ChatDatabaseManager.message_order].
      assert (Hle : (ChatDatabaseManager.message_order m
                     <= ChatDatabaseManager.coalesce
                          (ChatDatabaseManager.sql_max
                             (ChatDatabaseManager.session_orders db sid)) 0)%Z).
      { apply ReadFacts.sql_max_ge.
        unfold ChatDatabaseManager.session_orders,
          ChatDatabaseManager.session_messages.
        apply in_map. exact Hm'. }
      lia.
  - intros other Hne. rewrite filter_app. cbn [filter].
    unfold ChatDatabaseManager.of_session at 2.
    cbn [ChatDatabaseManager.message_session]. rewrite Hne, app_nil_r.
    reflexivity.
Qed.

Lemma history_after_add_message_witness :
  ChatDatabaseReads.get_conversation_history
    (snd (ChatDatabaseManager.add_message Samples.one_session Samples.sid0
            "user" "hi" []))
    Samples.sid0
  = [ChatDatabaseReads.HistoryEntry "user" "hi" []]
  /\ forall other,
       ChatDatabaseManager.uuid_eqb Samples.sid0 other = false ->
       ChatDatabaseReads.get_conversation_history
         (snd (ChatDatabaseManager.add_message Samples.one_session Samples.sid0
                 "user" "hi" []))
         other
       = ChatDatabaseReads.get_conversation_history Samples.one_session other.
Proof.
  apply (history_after_add_message Samples.one_session Samples.sid0
           "user" "hi" [] (ChatDatabaseManager.DbUuid 1)).
  reflexivity.
Defined.

(** X5.  A session that [create_session] has created is found by
    [get_session_info] under the identifier returned, with the backend
    and model given, and its history is empty; the identifier named no
    session before, and every session that existed is still found, with
    the same row and the same history.  The backend and the model are
    found as given when they have at most the 50 and 100 characters of
    their columns; of a longer one, which was accepted because what
    exceeds the column is spaces, the first 50 or 100 characters are
    found. *)
Theorem created_session_is_found :
  forall (db : ChatDatabaseManager.database) (backend model : string)
         (name : option string) (now : string) (sid : ChatDatabaseManager.uuid),
    Exchange.fresh_supply db = true ->
    fst (ChatDatabaseManager.create_session db backend model name now) = Ok sid ->
    let db' := snd (ChatDatabaseManager.create_session db backend model name now) in
    ChatDatabaseManager.session_exists db sid = false
    /\ (exists row,
          ChatDatabaseReads.get_session_info db' sid = Some row
          /\ ChatDatabaseManager.session_id row = sid
          /\ ChatDatabaseManager.backend row
             = (if (PyStr.len backend <=? 50)%nat then backend
                else PyStr.take_chars 50 backend)
          /\ ChatDatabaseManager.model row
             = (if (PyStr.len model <=? 100)%nat then model
                else PyStr.take_chars 100 model))
    /\ ChatDatabaseReads.get_conversation_history db' sid = []
    /\ forall old,
         ChatDatabaseManager.session_exists db old = true ->
         ChatDatabaseReads.get_session_info db' old
           = ChatDatabaseReads.get_session_info db old
         /\ ChatDatabaseReads.get_conversation_history db' old
            = ChatDatabaseReads.get_conversation_history db old.
Proof.
  intros db backend model name now sid F E db'.
  destruct (StoreFacts.create_session_cases db backend model name now)
    as [(e & Hc)|(n' & b' & m' & _ & _ & Vb & Vm & Hc)];
    unfold db'; rewrite Hc in E |- *; [discriminate E|].
  clear db'.
  assert (Hb : b' = if (PyStr.len backend <=? 50)%nat then backend
                    else PyStr.take_chars 50 backend).
  { unfold ChatDatabaseManager.varchar in Vb.
    destruct (PyStr.len backend <=? 50)%nat; [congruence|].
    destruct (PyStr.all_spaces _); [congruence | discriminate Vb]. }
  assert (Hm : m' = if (PyStr.len model <=? 100)%nat then model
                    else PyStr.take_chars 100 model).
  { unfold ChatDatabaseManager.varchar in Vm.
    destruct (PyStr.len model <=? 100)%nat; [congruence|].
    destruct (PyStr.all_spaces _); [congruence | discriminate Vm]. }
  cbn [fst snd] in *. inversion E; subst sid; clear E.
  pose proof (SessionFacts.next_is_no_session _ F) as Hno.
  split; [exact Hno|].
  unfold ChatDatabaseReads.get_session_info,
    ChatDatabaseReads.get_conversation_history,
    ChatDatabaseManager.session_messages.
  cbn [ChatDatabaseManager.chat_sessions ChatDatabaseManager.chat_messages].
  split; [|split].
  - rewrite ReadFacts2.find_snoc,
      (ReadFacts2.find_none_of_existsb _ _ Hno).
    cbn [ChatDatabaseManager.session_id].
    rewrite StoreFacts.uuid_eqb_refl.
    eexists. split; [reflexivity|]. split; [reflexivity|].
    cbn [ChatDatabaseManager.backend ChatDatabaseManager.model].
    split; assumption.
  - pose proof (SessionFacts.next_has_no_messages _ F) as Hn.
    unfold ChatDatabaseManager.session_messages in Hn. rewrite Hn.
    reflexivity.
  - intros old Hold. split; [|reflexivity].
    rewrite ReadFacts2.find_snoc.
    destruct (ReadFacts2.find_some_of_existsb _ _ Hold) as (y & ->).
    reflexivity.
Qed.

Lemma created_session_is_found_witness :
  let db' := snd (ChatDatabaseManager.create_session Samples.one_session
                    "ollama" "llama3.1:8b" (Some "second") "2025-01-01 10:05") in
  ChatDatabaseManager.session_exists Samples.one_session
    (ChatDatabaseManager.DbUuid 1) = false
  /\ (exists row,
        ChatDatabaseReads.get_session_info db' (ChatDatabaseManager.DbUuid 1)
          = Some row
        /\ ChatDatabaseManager.session_id row = ChatDatabaseManager.DbUuid 1
        /\ ChatDatabaseManager.backend row = "ollama"
        /\ ChatDatabaseManager.model row = "llama3.1:8b")
  /\ ChatDatabaseReads.get_conversation_history db' (ChatDatabaseManager.DbUuid 1)
     = []
  /\ forall old,
       ChatDatabaseManager.session_exists Samples.one_session old = true ->
       ChatDatabaseReads.get_session_info db' old
         = ChatDatabaseReads.get_session_info Samples.one_session old
       /\ ChatDatabaseReads.get_conversation_history db' old
          = ChatDatabaseReads.get_conversation_history Samples.one_session old.
Proof.
  apply (created_session_is_found Samples.one_session "ollama" "llama3.1:8b"
           (Some "second") "2025-01-01 10:05" (ChatDatabaseManager.DbUuid 1)).
  - reflexivity.
  - reflexivity.
Defined.

(* ===================================================================== *)
(** ** What the command-line clients keep of a stream                     *)
(* ===================================================================== *)

Module AccumulationFacts.

Lemma concat_token ai token a :
    PyJson.concat ai token = Ok a -> a = ai ++ PyJson.text_of token.
Proof.
    destruct token; simpl; intros E; try discriminate.
    inversion E. reflexivity.
Qed.

Lemma concat_all_one (t : string) : concat_all [t] = t.
Proof. simpl. apply append_empty_r. Qed.

Section Facts.
Context `{PyRuntime}.

    (** One line of the raw-generate loop appends what it prints. *)
Lemma generate_line line ai :
      snd (fst (OllamaChat.on_line line ai))
      = ai ++ concat_all (fst (fst (OllamaChat.on_line line ai))).
Proof.
      unfold OllamaChat.on_line.
      destruct (PyStr.is_empty line); [symmetry; apply append_empty_r|].
      destruct (PyStr.decode line) as [decoded|];
        [|symmetry; apply append_empty_r].
      destruct (json_loads decoded) as [chunk|]; [|symmetry; apply append_empty_r].
      destruct (PyJson.contains "response" chunk) as [[|]|e];
        try (symmetry; apply append_empty_r).
      - destruct (PyJson.getitem chunk "response") as [token|e]; simpl;
          [|symmetry; apply append_empty_r].
        destruct (PyJson.concat ai token) as [a|e] eqn:C; simpl;
          [|symmetry; apply append_empty_r].
        apply concat_token in C.
        destruct (PyJson.get chunk "done" (JBool false)); cbn [fst snd];
          rewrite concat_all_one; exact C.
      - simpl. destruct (PyJson.get chunk "done" (JBool false)); simpl;
          symmetry; apply append_empty_r.
Qed.

Lemma generate_lines ls : forall ai,
      snd (fst (OllamaChat.read_lines ls ai))
      = ai ++ concat_all (fst (fst (OllamaChat.read_lines ls ai))).
Proof.
      induction ls as [|line ls IH]; intros ai;
        [symmetry; apply append_empty_r|].
      cbn [OllamaChat.read_lines].
      pose proof (generate_line line ai) as Hl.
      destruct (OllamaChat.on_line line ai) as [[p a] [| |e]];
        cbn [fst snd] in Hl; [|exact Hl|exact Hl].
      specialize (IH a).
      destruct (OllamaChat.read_lines ls a) as [[more a'] how].
      cbn [fst snd] in *. rewrite concat_all_app, <- append_assoc, <- Hl.
      exact IH.
Qed.

Lemma chat_chunk chunk ai printed a :
      VLLMChat.on_chunk chunk ai = Ok (printed, a) ->
      a = ai ++ concat_all printed.
Proof.
      unfold VLLMChat.on_chunk.
      destruct (PyJson.contains "choices" chunk) as [[|]|e]; simpl;
        try discriminate;
        [|intros E; inversion E; symmetry; apply append_empty_r].
      destruct (PyJson.getitem chunk "choices") as [choices|e]; simpl;
        [|discriminate].
      destruct (PyJson.len choices) as [n|e]; simpl; [|discriminate].
      destruct (0 <? n)%nat; simpl;
        [|intros E; inversion E; symmetry; apply append_empty_r].
      destruct (PyJson.first choices) as [choice|e]; simpl; [|discriminate].
      destruct (PyJson.get choice "delta" (JObj [])) as [delta|e]; simpl;
        [|discriminate].
      destruct (PyJson.contains "content" delta) as [[|]|e]; simpl;
        try discriminate;
        [|intros E; inversion E; symmetry; apply append_empty_r].
      destruct (PyJson.getitem delta "content") as [token|e]; simpl;
        [|discriminate].
      destruct (PyJson.concat ai token) as [a0|e] eqn:C; simpl; [|discriminate].
      intros E. inversion E; subst. rewrite concat_all_one.
      apply concat_token. exact C.
Qed.

Lemma chat_line line ai :
      snd (fst (VLLMChat.on_line line ai))
      = ai ++ concat_all (fst (fst (VLLMChat.on_line line ai))).
Proof.
      unfold VLLMChat.on_line.
      destruct (PyStr.is_empty line); [symmetry; apply append_empty_r|].
      destruct (PyStr.decode line) as [decoded|];
        [|symmetry; apply append_empty_r].
      destruct (negb (PyStr.startswith decoded "data: "));
        [symmetry; apply append_empty_r|].
      destruct (String.eqb _ "[DONE]"); [symmetry; apply append_empty_r|].
      destruct (json_loads _) as [chunk|]; [|symmetry; apply append_empty_r].
      destruct (VLLMChat.on_chunk chunk ai) as [[printed a]|e] eqn:C;
        [|symmetry; apply append_empty_r].
      apply chat_chunk in C. exact C.
Qed.

Lemma chat_lines ls : forall ai,
      snd (fst (VLLMChat.read_lines ls ai))
      = ai ++ concat_all (fst (fst (VLLMChat.read_lines ls ai))).
Proof.
      induction ls as [|line ls IH]; intros ai;
        [symmetry; apply append_empty_r|].
      cbn [VLLMChat.read_lines].
      pose proof (chat_line line ai) as Hl.
      destruct (VLLMChat.on_line line ai) as [[p a] [| |e]];
        cbn [fst snd] in Hl; [|exact Hl|exact Hl].
      specialize (IH a).
      destruct (VLLMChat.read_lines ls a) as [[more a'] how].
      cbn [fst snd] in *. rewrite concat_all_app, <- append_assoc, <- Hl.
      exact IH.
Qed.

Lemma vendor_chunks cs : forall full,
      snd (fst (OpenAIChat.read_chunks cs full))
      = full ++ concat_all (fst (fst (OpenAIChat.read_chunks cs full))).
Proof.
      induction cs as [|[[|[t|] others]] cs IH]; intros full;
        cbn [OpenAIChat.read_chunks OpenAIChat.choices];
        try (symmetry; apply append_empty_r).
      - specialize (IH (full ++ t)).
        destruct (OpenAIChat.read_chunks cs (full ++ t)) as [[more f] how].
        cbn [fst snd] in *. rewrite IH, append_assoc. reflexivity.
      - apply IH.
Qed.

End Facts.

End AccumulationFacts.

Section AccumulationClaims.
Context `{PyRuntime}.

  (** X6.  Whatever the server sends, the two read loops store what they
      show.  A call of [_send_streaming_message] of the raw-generate or of
      the OpenAI-compatible client ends in one of three ways: it raises,
      and the history is as it was; it returns the HTTP error text of a
      response whose status is not 200, having printed nothing, and the
      history is as it was; or the chat afterwards is the chat before
      with exactly one entry more at the end of its history, an assistant
      entry, and the call returns the content of that entry, which is the
      concatenation of the tokens it printed, followed by
      [" [Response interrupted]"] when the user interrupted the stream. *)
Theorem history_gets_what_was_printed :
    forall (self_o : OllamaChat.chat) (prompt : string)
           (server_o : OllamaChat.backend)
           (self_v : VLLMChat.chat) (request : VLLMChat.payload)
           (server_v : VLLMChat.backend),
      (let '(out, self', result) :=
         OllamaChat._send_streaming_message self_o prompt server_o in
       match result with
       | Raise _ => self' = self_o
       | Ok reply =>
           (out = [] /\ self' = self_o
            /\ exists r, server_o (OllamaChat.model self_o) prompt = PostReturns r
                         /\ (status_code r =? 200)%Z = false
                         /\ reply = http_error r)
           \/ (self'
               = OllamaChat.Chat
                   (OllamaChat.model self_o)
                   (OllamaChat.conversation_history self_o
                      ++ [Message "assistant" reply])
                   (OllamaChat.show_reasoning self_o)
                   (OllamaChat.reasoning_mode self_o)
                   (OllamaChat.stream_response self_o)
               /\ exists tokens,
                    (out = ("🤖 Bot: " :: tokens ++ [newline])%list
                     /\ reply = concat_all tokens)
                    \/ (out = ("🤖 Bot: " :: tokens ++ [interrupt_notice; newline])%list
                        /\ reply = concat_all tokens ++ " [Response interrupted]"))
       end)
      /\ (let '(out, self', result) :=
            VLLMChat._send_streaming_message self_v request server_v in
          match result with
          | Raise _ => self' = self_v
          | Ok reply =>
              (out = [] /\ self' = self_v
               /\ exists r, server_v request = PostReturns r
                            /\ (status_code r =? 200)%Z = false
                            /\ reply = http_error r)
              \/ (self'
                  = VLLMChat.Chat
                      (VLLMChat.model self_v)
                      (VLLMChat.conversation_history self_v
                         ++ [Message "assistant" reply])
                      (VLLMChat.show_reasoning self_v)
                      (VLLMChat.reasoning_mode self_v)
                      (VLLMChat.stream_response self_v)
                      (VLLMChat.max_tokens self_v)
                      (VLLMChat.temperature self_v)
                  /\ exists tokens,
                       (out = ("🤖 Bot: " :: tokens ++ [newline])%list
                        /\ reply = concat_all tokens)
                       \/ (out = ("🤖 Bot: " :: tokens ++ [interrupt_notice; newline])%list
                           /\ reply = concat_all tokens ++ " [Response interrupted]"))
          end).
Proof.
    intros self_o prompt server_o self_v request server_v. split.
    - unfold OllamaChat._send_streaming_message.
      destruct (server_o (OllamaChat.model self_o) prompt) as [msg|r|] eqn:S;
        [reflexivity| |reflexivity].
      destruct (status_code r =? 200)%Z eqn:C; cbn [negb].
      + pose proof (AccumulationFacts.generate_lines (lines r) "") as Hacc.
        destruct (OllamaChat.read_lines (lines r) "") as [[printed ai] how].
        cbn [fst snd String.append] in Hacc. subst ai.
        destruct how as [| |e]; [destruct (ending r)| |]; try reflexivity;
          right; (split; [reflexivity|]); exists printed.
        * left. split; reflexivity.
        * right. split; [|reflexivity]. rewrite <- app_assoc. reflexivity.
        * left. split; reflexivity.
      + left. split; [reflexivity|]. split; [reflexivity|].
        exists r. repeat split; auto.
    - unfold VLLMChat._send_streaming_message.
      destruct (server_v request) as [msg|r|] eqn:S; [reflexivity| |reflexivity].
      destruct (status_code r =? 200)%Z eqn:C; cbn [negb].
      + pose proof (AccumulationFacts.chat_lines (lines r) "") as Hacc.
        destruct (VLLMChat.read_lines (lines r) "") as [[printed ai] how].
        cbn [fst snd String.append] in Hacc. subst ai.
        destruct how as [| |e]; [destruct (ending r)| |]; try reflexivity;
          right; (split; [reflexivity|]); exists printed.
        * left. split; reflexivity.
        * right. split; [|reflexivity]. rewrite <- app_assoc. reflexivity.
        * left. split; reflexivity.
      + left. split; [reflexivity|]. split; [reflexivity|].
        exists r. repeat split; auto.
Qed.

  (** X7.  The vendor client updates its history all or nothing.  A call
      of its [_send_streaming_message] either raises [KeyboardInterrupt]
      or returns an error text starting with ["❌ Error: "], the history
      being as it was in both cases; or it appends exactly two entries,
      the user entry with the content of the last message sent and the
      assistant entry with the text returned, which is the concatenation
      of the tokens printed. *)
Theorem vendor_history_is_all_or_nothing :
    forall (self : OpenAIChat.chat) (messages : list message)
           (api : OpenAIChat.client),
      let '(out, self', result) :=
        OpenAIChat._send_streaming_message self messages api in
      match result with
      | Raise e => e = KeyboardInterrupt /\ self' = self
      | Ok reply =>
          (self' = self /\ PyStr.startswith reply "❌ Error: " = true)
          \/ (exists earlier final tokens,
                messages = (earlier ++ [final])%list
                /\ out = ("🤖 Bot: " :: tokens ++ [newline])%list
                /\ reply = concat_all tokens
                /\ self'
                   = OpenAIChat.Chat (OpenAIChat.model self)
                       (OpenAIChat.conversation_history self
                          ++ [Message "user" (content final);
                              Message "assistant" reply])
                       (OpenAIChat.max_tokens self) (OpenAIChat.temperature self))
      end.
Proof.
    intros self messages api.
    unfold OpenAIChat._send_streaming_message.
    assert (Hf : forall out e,
               let '(out', self', result) := OpenAIChat.failed out self e in
               match result with
               | Raise e' => e' = KeyboardInterrupt /\ self' = self
               | Ok reply =>
                   (self' = self /\ PyStr.startswith reply "❌ Error: " = true)
                   \/ (exists earlier final tokens,
                         messages = (earlier ++ [final])%list
                         /\ out' = ("🤖 Bot: " :: tokens ++ [newline])%list
                         /\ reply = concat_all tokens
                         /\ self'
                            = OpenAIChat.Chat (OpenAIChat.model self)
                                (OpenAIChat.conversation_history self
                                   ++ [Message "user" (content final);
                                       Message "assistant" reply])
                                (OpenAIChat.max_tokens self)
                                (OpenAIChat.temperature self))
               end).
    { intros out e. unfold OpenAIChat.failed. left.
      split; [reflexivity | apply startswith_append]. }
    destruct (api (OpenAIChat.build_params self messages))
      as [msg|chunks ending|]; [apply Hf| |split; reflexivity].
    pose proof (AccumulationFacts.vendor_chunks chunks "") as Hacc.
    destruct (OpenAIChat.read_chunks chunks "") as [[printed full] how].
    cbn [fst snd String.append] in Hacc. subst full.
    assert (Hok :
              match last (map Some messages) None with
              | Some final =>
                  exists earlier, messages = (earlier ++ [final])%list
              | None => True
              end).
    { destruct messages as [|m ms] using rev_ind; [exact I|].
      rewrite DBFacts.last_some. eauto. }
    destruct how as [| |e]; [destruct ending| |]; try apply Hf;
      try (split; reflexivity);
      destruct (last (map Some messages) None) as [final|]; try apply Hf;
      destruct Hok as (earlier & ->); right;
      exists earlier, final, printed; repeat split; reflexivity.
Qed.

End AccumulationClaims.

(* ===================================================================== *)
(** ** The flags of the direct mode                                       *)
(* ===================================================================== *)

Module FlagFacts.

Import DirectPrompt.

Lemma subsequence_refl xs : subsequence xs xs.
Proof. induction xs; constructor; assumption. Qed.

Lemma well_kept_nil : well_kept [] [].
Proof.
    repeat split; try constructor; intros [].
Qed.

Lemma last_cons (x y : string) (ys : list string) :
    last (x :: y :: ys) "" = last (y :: ys) "".
Proof. reflexivity. Qed.

Lemma kept_of_subsequence kept args :
    subsequence kept args -> kept <> [] -> args <> [].
Proof. intros S N E. subst. inversion S. subst. contradiction. Qed.

Lemma well_kept_skip x kept args :
    well_kept kept args -> well_kept kept (x :: args).
Proof.
    intros (S & R & N & M). repeat split; auto.
    - apply subsequence_skip. exact S.
    - intros Hin. specialize (M Hin).
      destruct args as [|a args]; [|exact M].
      inversion S; subst. destruct Hin.
Qed.

Lemma well_kept_skip2 x y kept args :
    well_kept kept args -> well_kept kept (x :: y :: args).
Proof. intros W. apply well_kept_skip, well_kept_skip, W. Qed.

Lemma well_kept_keep x kept args :
    String.eqb x "--reasoning" = false ->
    String.eqb x "--no-stream" = false ->
    (String.eqb x "--model" = true -> args = []) ->
    well_kept kept args -> well_kept (x :: kept) (x :: args).
Proof.
    intros Hr Hn Hm (S & R & N & M). repeat split.
    - apply subsequence_keep. exact S.
    - intros [E|Hin]; [|auto]. subst. discriminate Hr.
    - intros [E|Hin]; [|auto]. subst. discriminate Hn.
    - intros [E|Hin].
      + subst. rewrite (Hm eq_refl). reflexivity.
      + specialize (M Hin). destruct args as [|a args]; [|exact M].
        inversion S; subst. destruct Hin.
Qed.

Lemma ollama_scan_bounded n : forall args,
    (List.length args <= n)%nat ->
    forall st,
    exists kept,
      filtered_args (ollama_scan args st) = (filtered_args st ++ kept)%list
      /\ well_kept kept args.
Proof.
    induction n as [|n IH]; intros args Hlen st.
    - destruct args; [|cbn in Hlen; lia].
      exists []. rewrite app_nil_r. split; [reflexivity | apply well_kept_nil].
    - destruct args as [|arg rest].
      { exists []. rewrite app_nil_r.
        split; [reflexivity | apply well_kept_nil]. }
      cbn [ollama_scan].
      destruct (String.eqb arg "--reasoning") eqn:Er.
      { destruct (IH rest ltac:(cbn in *; lia) (Flags true (no_stream st)
                   (model_override st) (url_override st) (filtered_args st)))
          as (k & Hk & W).
        exists k. split; [exact Hk | apply well_kept_skip, W]. }
      destruct (String.eqb arg "--no-stream") eqn:En.
      { destruct (IH rest ltac:(cbn in *; lia) (Flags (reasoning_mode st) true
                   (model_override st) (url_override st) (filtered_args st)))
          as (k & Hk & W).
        exists k. split; [exact Hk | apply well_kept_skip, W]. }
      destruct (String.eqb arg "--model") eqn:Em.
      { destruct rest as [|value rest'].
        - exists [arg]. split; [reflexivity|].
          apply well_kept_keep; auto using well_kept_nil.
        - destruct (IH rest' ltac:(cbn in *; lia)
                      (Flags (reasoning_mode st) (no_stream st) (Some value)
                             (url_override st) (filtered_args st)))
            as (k & Hk & W).
          exists k. split; [exact Hk | apply well_kept_skip2, W]. }
      destruct (IH rest ltac:(cbn in *; lia) (keep st arg)) as (k & Hk & W).
      exists (arg :: k). split.
      + rewrite Hk. cbn [keep filtered_args]. rewrite <- app_assoc. reflexivity.
      + apply well_kept_keep; auto. rewrite Em. discriminate.
Qed.

Lemma vllm_scan_bounded n : forall args,
    (List.length args <= n)%nat ->
    forall st,
    exists kept,
      filtered_args (vllm_scan args st) = (filtered_args st ++ kept)%list
      /\ well_kept kept args.
Proof.
    induction n as [|n IH]; intros args Hlen st.
    - destruct args; [|cbn in Hlen; lia].
      exists []. rewrite app_nil_r. split; [reflexivity | apply well_kept_nil].
    - destruct args as [|arg rest].
      { exists []. rewrite app_nil_r.
        split; [reflexivity | apply well_kept_nil]. }
      cbn [vllm_scan].
      destruct (String.eqb arg "--reasoning") eqn:Er.
      { destruct (IH rest ltac:(cbn in *; lia) (Flags true (no_stream st)
                   (model_override st) (url_override st) (filtered_args st)))
          as (k & Hk & W).
        exists k. split; [exact Hk | apply well_kept_skip, W]. }
      destruct (String.eqb arg "--no-stream") eqn:En.
      { destruct (IH rest ltac:(cbn in *; lia) (Flags (reasoning_mode st) true
                   (model_override st) (url_override st) (filtered_args st)))
          as (k & Hk & W).
        exists k. split; [exact Hk | apply well_kept_skip, W]. }
      destruct (String.eqb arg "--model") eqn:Em.
      { destruct rest as [|value rest'].
        - exists [arg]. split; [reflexivity|].
          apply well_kept_keep; auto using well_kept_nil.
        - destruct (IH rest' ltac:(cbn in *; lia)
                      (Flags (reasoning_mode st) (no_stream st) (Some value)
                             (url_override st) (filtered_args st)))
            as (k & Hk & W).
          exists k. split; [exact Hk | apply well_kept_skip2, W]. }
      destruct (String.eqb arg "--url") eqn:Eu.
      { destruct rest as [|value rest'].
        - exists [arg]. split; [reflexivity|].
          apply well_kept_keep; auto using well_kept_nil.
        - destruct (IH rest' ltac:(cbn in *; lia)
                      (Flags (reasoning_mode st) (no_stream st)
                             (model_override st) (Some value) (filtered_args st)))
            as (k & Hk & W).
          exists k. split; [exact Hk | apply well_kept_skip2, W]. }
      destruct (IH rest ltac:(cbn in *; lia) (keep st arg)) as (k & Hk & W).
      exists (arg :: k). split.
      + rewrite Hk. cbn [keep filtered_args]. rewrite <- app_assoc. reflexivity.
      + apply well_kept_keep; auto. rewrite Em. discriminate.
Qed.

  (** Without flag words a scan keeps everything and sets nothing. *)
Lemma scans_without_flags args : forall st,
    forallb (fun a => negb (is_flag a)) args = true ->
    ollama_scan args st
    = Flags (reasoning_mode st) (no_stream st) (model_override st)
            (url_override st) (filtered_args st ++ args)
    /\ vllm_scan args st
       = Flags (reasoning_mode st) (no_stream st) (model_override st)
               (url_override st) (filtered_args st ++ args).
Proof.
    induction args as [|arg rest IH]; intros st Hf.
    - rewrite app_nil_r. destruct st. split; reflexivity.
    - cbn [forallb] in Hf. apply andb_true_iff in Hf. destruct Hf as [Ha Hr].
      unfold is_flag in Ha. apply negb_true_iff in Ha.
      apply orb_false_iff in Ha. destruct Ha as [Ha Hu].
      apply orb_false_iff in Ha. destruct Ha as [Ha Hm].
      apply orb_false_iff in Ha. destruct Ha as [Hre Hn].
      cbn [ollama_scan vllm_scan]. rewrite Hre, Hn, Hm, Hu.
      destruct (IH (keep st arg) Hr) as [-> ->].
      cbn [keep reasoning_mode no_stream model_override url_override filtered_args].
      rewrite <- app_assoc. split; reflexivity.
Qed.

End FlagFacts.

(** X8.  The flag loops of the two [handle_direct_prompt] functions keep
    the words of the prompt in their order and take the switches out: what
    is left in [filtered_args] is a subsequence of the arguments, contains
    neither [--reasoning] nor [--no-stream], and contains [--model] only
    when [--model] was the last argument, where it has no value to take
    and is kept as a word of the prompt. *)
Theorem flag_loops_keep_the_prompt_words :
  forall (args : list string),
    DirectPrompt.well_kept
      (DirectPrompt.filtered_args
         (DirectPrompt.ollama_scan args DirectPrompt.initial)) args
    /\ DirectPrompt.well_kept
         (DirectPrompt.filtered_args
            (DirectPrompt.vllm_scan args DirectPrompt.initial)) args.
Proof.
  intros args. split.
  - destruct (FlagFacts.ollama_scan_bounded (List.length args) args
                (Nat.le_refl _) DirectPrompt.initial) as (k & -> & W).
    exact W.
  - destruct (FlagFacts.vllm_scan_bounded (List.length args) args
                (Nat.le_refl _) DirectPrompt.initial) as (k & -> & W).
    exact W.
Qed.

(** X9.  Arguments among which there is no flag word are the prompt: both
    loops keep all of them and set nothing, the prompt is the arguments
    joined by single spaces ([None], the error return, exactly when there
    are no arguments), and the raw-generate chat is the default one:
    model [llama3.1:8b], reasoning off, streaming on. *)
Theorem arguments_without_flags_are_the_prompt :
  forall (args : list string),
    forallb (fun a => negb (DirectPrompt.is_flag a)) args = true ->
    DirectPrompt.ollama_scan args DirectPrompt.initial
      = DirectPrompt.Flags false false None None args
    /\ DirectPrompt.vllm_scan args DirectPrompt.initial
       = DirectPrompt.Flags false false None None args
    /\ DirectPrompt.prompt_of (DirectPrompt.ollama_scan args DirectPrompt.initial)
       = match args with
         | [] => None
         | _ => Some (DirectPrompt.join_spaces args)
         end
    /\ DirectPrompt.ollama_chat (DirectPrompt.ollama_scan args DirectPrompt.initial)
       = OllamaChat.Chat "llama3.1:8b" [] false "detailed" true.
Proof.
  intros args Hf.
  destruct (FlagFacts.scans_without_flags args DirectPrompt.initial Hf)
    as [Ho Hv].
  cbn [DirectPrompt.initial DirectPrompt.reasoning_mode DirectPrompt.no_stream
       DirectPrompt.model_override DirectPrompt.url_override
       DirectPrompt.filtered_args app] in Ho, Hv.
  rewrite Ho, Hv. repeat split.
  unfold DirectPrompt.prompt_of. cbn [DirectPrompt.filtered_args].
  destruct args; reflexivity.
Qed.

Lemma arguments_without_flags_are_the_prompt_witness :
  DirectPrompt.ollama_scan ["What"; "is"; "Python?"] DirectPrompt.initial
    = DirectPrompt.Flags false false None None ["What"; "is"; "Python?"]
  /\ DirectPrompt.vllm_scan ["What"; "is"; "Python?"] DirectPrompt.initial
     = DirectPrompt.Flags false false None None ["What"; "is"; "Python?"]
  /\ DirectPrompt.prompt_of
       (DirectPrompt.ollama_scan ["What"; "is"; "Python?"] DirectPrompt.initial)
     = Some "What is Python?"
  /\ DirectPrompt.ollama_chat
       (DirectPrompt.ollama_scan ["What"; "is"; "Python?"] DirectPrompt.initial)
     = OllamaChat.Chat "llama3.1:8b" [] false "detailed" true.
Proof.
  apply (arguments_without_flags_are_the_prompt ["What"; "is"; "Python?"]).
  reflexivity.
Defined.

(** The sample arguments: a switch, a [--model] that swallows a switch, a
    [--url] with its value, and a last [--model] without one. *)
Example sample_arguments_scanned :
  DirectPrompt.vllm_scan DirectPrompt.sample_args DirectPrompt.initial
  = DirectPrompt.Flags true false (Some "--no-stream") (Some "x")
      ["What"; "is"; "Python?"; "--model"]
  /\ DirectPrompt.ollama_scan DirectPrompt.sample_args DirectPrompt.initial
     = DirectPrompt.Flags true false (Some "--no-stream") None
         ["What"; "is"; "--url"; "x"; "Python?"; "--model"].
Proof. split; reflexivity. Qed.


(* ===================================================================== *)
(** ** The web chat and its store, step by step                           *)
(* ===================================================================== *)

Module StepFacts.

Import ChatDatabaseManager DatabaseLLMGUIChat SessionHistory.

Lemma grown_refl (d : database) : grown d d 0 0.
Proof.
    exists [], []. rewrite !app_nil_r. repeat split; auto.
Qed.

Lemma grown_trans a b c s1 m1 s2 m2 :
    grown a b s1 m1 -> grown b c s2 m2 -> grown a c (s1 + s2) (m1 + m2).
Proof.
    intros (ns1 & nm1 & S1 & M1 & Ls1 & Lm1) (ns2 & nm2 & S2 & M2 & Ls2 & Lm2).
    exists (ns1 ++ ns2)%list, (nm1 ++ nm2)%list.
    rewrite S2, S1, M2, M1, <- !app_assoc, !length_app.
    repeat split; auto using Nat.add_le_mono.
Qed.

Lemma grown_le a b s m s' m' :
    grown a b s m -> (s <= s')%nat -> (m <= m')%nat -> grown a b s' m'.
Proof.
    intros (ns & nm & S1 & M1 & Ls & Lm) Hs Hm.
    exists ns, nm. repeat split; eauto using Nat.le_trans.
Qed.

Lemma create_session_grown d backend model name now :
    grown d (snd (create_session d backend model name now)) 1 0.
Proof.
    destruct (StoreFacts.create_session_cases d backend model name now)
      as [(e & ->)|(n' & b' & m' & _ & _ & _ & _ & ->)]; cbn [snd].
    - eapply grown_le; [apply grown_refl| |]; auto.
    - eexists [_], []. cbn [chat_sessions chat_messages List.length].
      rewrite app_nil_r. repeat split; auto.
Qed.

Lemma add_message_grown d sid role content metadata :
    grown d (snd (add_message d sid role content metadata)) 0 1.
Proof.
    destruct (StoreFacts.add_message_cases d sid role content metadata)
      as [(e & ->)|(_ & _ & _ & _ & _ & ->)]; cbn [snd].
    - eapply grown_le; [apply grown_refl| |]; auto.
    - eexists [], [_]. cbn [chat_sessions chat_messages List.length].
      rewrite app_nil_r. repeat split; auto.
Qed.

Section Facts.
Context `{PyRuntime}.

Lemma handle_quiet g b e :
      fst (fst (fst (LLMGUIChat.handle g b e))) = [].
Proof. unfold LLMGUIChat.handle. destruct e; reflexivity. Qed.

Lemma settle_quiet o g b ending a :
      existsb touches_store
        (fst (fst (fst (LLMGUIChat.settle o g b ending a)))) = false.
Proof.
      unfold LLMGUIChat.settle.
      destruct a as [rest ai chunk|ai|ai|e]; try reflexivity;
        [destruct ending; try reflexivity|]; rewrite handle_quiet; reflexivity.
Qed.

Lemma inherited_effects es r :
      fst (fst (fst (LLMGUIChat.with_effects es r)))
      = (es ++ fst (fst (fst r)))%list.
Proof. destruct r as [[[es' s] g] b]. reflexivity. Qed.

    (** The inherited generator knows nothing of the store. *)
Lemma parent_quiet g b :
      existsb touches_store (fst (fst (fst (LLMGUIChat.resume g b)))) = false.
Proof.
      unfold LLMGUIChat.resume.
      destruct (LLMGUIChat.at_pc g); try reflexivity; try apply settle_quiet.
      unfold LLMGUIChat.begin.
      destruct (PyStr.is_empty _); [reflexivity|].
      rewrite inherited_effects. cbn [app existsb touches_store orb].
      destruct (LLMGUIChat.server _ _) as [msg|r|];
        [rewrite handle_quiet; reflexivity| |rewrite handle_quiet; reflexivity].
      destruct (negb _); [reflexivity|apply settle_quiet].
Qed.

Lemma add_message_to_db_disabled w role content md :
      database_enabled (self w) = false ->
      add_message_to_db w role content md = ([], w).
Proof. unfold add_message_to_db. intros ->. reflexivity. Qed.

Lemma store_reply_disabled w c :
      database_enabled (self w) = false -> store_reply w c = ([], w).
Proof.
      intros Hd. unfold store_reply.
      destruct (last _ None) as [m|]; [|reflexivity].
      destruct (String.eqb _ _); [|reflexivity].
      apply add_message_to_db_disabled, Hd.
Qed.

Lemma relay_disabled g w :
      database_enabled (self w) = false ->
      existsb touches_store (fst (fst (fst (relay g w)))) = false
      /\ db (snd (relay g w)) = db w
      /\ database_enabled (self (snd (relay g w))) = false.
Proof.
      intros Hd. unfold relay.
      pose proof (parent_quiet (parent g) (base (self w))) as Hq.
      destruct (LLMGUIChat.resume (parent g) (base (self w))) as [[[es s] p] b].
      cbn [fst snd] in Hq.
      destruct s as [st| |e]; cbn [fst snd with_base self db database_enabled];
        auto.
      rewrite store_reply_disabled by exact Hd.
      cbn [fst snd with_base self db database_enabled].
      rewrite app_nil_r. auto.
Qed.

Lemma lifted_effects es r :
      fst (fst (fst (with_effects es r))) = (es ++ fst (fst (fst r)))%list.
Proof. destruct r as [[[es' s] g] w]. reflexivity. Qed.

Lemma lifted_world es r : snd (with_effects es r) = snd r.
Proof. destruct r as [[[es' s] g] w]. reflexivity. Qed.

Lemma begin_disabled g w :
      database_enabled (self w) = false ->
      existsb touches_store (fst (fst (fst (begin g w)))) = false
      /\ db (snd (begin g w)) = db w
      /\ database_enabled (self (snd (begin g w))) = false.
Proof.
      intros Hd. unfold begin.
      cbn [with_base self db database_enabled current_session_id].
      destruct (current_session_id (self w)) as [sid|].
      - rewrite add_message_to_db_disabled by exact Hd.
        rewrite lifted_effects, lifted_world. cbn [app].
        apply (relay_disabled g (World _ _ _)). exact Hd.
      - unfold start_new_session.
        cbn [with_base self db database_enabled current_session_id uuid4].
        rewrite Hd.
        rewrite add_message_to_db_disabled by reflexivity.
        rewrite lifted_effects, lifted_world. cbn [app].
        apply (relay_disabled g (World _ _ _)). reflexivity.
Qed.

Lemma resume_disabled g w :
      database_enabled (self w) = false ->
      existsb touches_store (fst (fst (fst (resume g w)))) = false
      /\ db (snd (resume g w)) = db w
      /\ database_enabled (self (snd (resume g w))) = false.
Proof.
      intros Hd. unfold resume.
      destruct (at_pc g); auto using begin_disabled, relay_disabled.
Qed.

Lemma step_trace_quiet (r : result) :
      existsb touches_store (step_trace r)
      = existsb touches_store (fst (fst (fst r))).
Proof.
      destruct r as [[[es s] g] w]. cbn [step_trace fst].
      destruct s; [|reflexivity|reflexivity].
      rewrite existsb_app. cbn [existsb touches_store orb].
      rewrite !orb_false_r. reflexivity.
Qed.

Lemma add_message_to_db_grown w role content md :
      grown (db w) (db (snd (add_message_to_db w role content md))) 0 1.
Proof.
      unfold add_message_to_db.
      destruct (database_enabled (self w));
        [|eapply grown_le; [apply grown_refl| |]; auto].
      destruct (current_session_id (self w)) as [sid|];
        [|eapply grown_le; [apply grown_refl| |]; auto].
      pose proof (add_message_grown (db w) sid role content md) as G.
      destruct (add_message (db w) sid role content md) as [[mid|e] d];
        cbn [snd db] in *; [exact G|].
      eapply grown_le; [apply grown_refl| |]; auto.
Qed.

Lemma store_reply_grown w c :
      grown (db w) (db (snd (store_reply w c))) 0 1.
Proof.
      unfold store_reply.
      destruct (last _ None) as [m|];
        [|eapply grown_le; [apply grown_refl| |]; auto].
      destruct (String.eqb _ _);
        [apply add_message_to_db_grown
        |eapply grown_le; [apply grown_refl| |]; auto].
Qed.

Lemma start_new_session_grown w backend model name t :
      grown (db w) (db (snd (start_new_session w backend model name t))) 1 0.
Proof.
      unfold start_new_session.
      destruct (database_enabled (self w));
        [|eapply grown_le; [apply grown_refl| |]; auto].
      pose proof (create_session_grown (db w) backend model name
                    (date_and_time t)) as G.
      destruct (create_session _ _ _ _ _) as [[sid|e] d]; cbn [snd db] in *;
        [exact G|].
      eapply grown_le; [apply grown_refl| |]; auto.
Qed.

    (** One turn of the loop: the store is written to only when the
        inherited generator is exhausted, and then the generator is. *)
Lemma relay_cases g w :
      match snd (fst (fst (relay g w))) with
      | Yield _ =>
          at_pc (snd (fst (relay g w))) = InParent
          /\ db (snd (relay g w)) = db w
      | Propagate _ =>
          at_pc (snd (fst (relay g w))) = Finished
          /\ db (snd (relay g w)) = db w
      | StopIteration =>
          at_pc (snd (fst (relay g w))) = Finished
          /\ grown (db w) (db (snd (relay g w))) 0 1
      end.
Proof.
      unfold relay.
      destruct (LLMGUIChat.resume (parent g) (base (self w))) as [[[es s] p] b].
      destruct s as [st| |e]; cbn [fst snd at_pc with_base db]; auto.
      pose proof (store_reply_grown (with_base w b) (LLMGUIChat.args p)) as G.
      destruct (store_reply _ _) as [stored w'].
      cbn [fst snd at_pc with_base db] in *. auto.
Qed.

Lemma lifted_signal es r :
      snd (fst (fst (with_effects es r))) = snd (fst (fst r)).
Proof. destruct r as [[[es' s] g] w]. reflexivity. Qed.

Lemma lifted_generator es r :
      snd (fst (with_effects es r)) = snd (fst r).
Proof. destruct r as [[[es' s] g] w]. reflexivity. Qed.

    (** The first [next]: at most one session row and the row of the user
        message, and then what the first turn of the loop does. *)
Lemma begin_cases g w :
      match snd (fst (fst (begin g w))) with
      | Yield _ =>
          at_pc (snd (fst (begin g w))) = InParent
          /\ grown (db w) (db (snd (begin g w))) 1 1
      | _ =>
          at_pc (snd (fst (begin g w))) = Finished
          /\ grown (db w) (db (snd (begin g w))) 1 2
      end.
Proof.
      unfold begin.
      set (w0 := with_base w _).
      assert (G0 : db w0 = db w) by reflexivity.
      assert (Hs : exists w1 r,
                 (match current_session_id (self w0) with
                  | Some _ => (Ok [], w0)
                  | None =>
                      match start_new_session w0
                              (LLMGUIChat.arg_backend (LLMGUIChat.args (parent g)))
                              (LLMGUIChat.arg_model (LLMGUIChat.args (parent g)))
                              None (now g) with
                      | (Ok (es, _), w') => (Ok es, w')
                      | (Raise e, w') => (Raise e, w')
                      end
                  end) = (r, w1) /\ grown (db w) (db w1) 1 0).
      { destruct (current_session_id (self w0)).
        - eexists _, _. split; [reflexivity|]. rewrite G0.
          eapply grown_le; [apply grown_refl| |]; auto.
        - pose proof (start_new_session_grown w0
                        (LLMGUIChat.arg_backend (LLMGUIChat.args (parent g)))
                        (LLMGUIChat.arg_model (LLMGUIChat.args (parent g)))
                        None (now g)) as G.
          destruct (start_new_session _ _ _ _ _) as [[[es sid]|e] w1];
            cbn [snd] in G; rewrite G0 in G; eexists _, _;
            (split; [reflexivity|exact G]). }
      destruct Hs as (w1 & r & -> & G1).
      destruct r as [created|e]; cbn [fst snd at_pc].
      2:{ split; [reflexivity|].
          eapply grown_le; [exact G1| |]; auto. }
      pose proof (add_message_to_db_grown w1 "user"
                    (LLMGUIChat.arg_message (LLMGUIChat.args (parent g))) [])
        as G2.
      destruct (add_message_to_db w1 _ _ _) as [stored w2]. cbn [snd] in G2.
      rewrite lifted_signal, lifted_generator, lifted_world.
      pose proof (grown_trans _ _ _ _ _ _ _ G1 G2) as G12.
      cbn [Nat.add] in G12.
      pose proof (relay_cases g w2) as R.
      destruct (snd (fst (fst (relay g w2)))) as [st| |e];
        destruct R as (Hp & Hd); split; try exact Hp.
      - rewrite Hd. exact G12.
      - apply (grown_trans _ _ _ _ _ _ _ G12 Hd).
      - rewrite Hd. eapply grown_le; [exact G12| |]; auto.
Qed.

Lemma iterate_finished n g w :
      at_pc g = Finished ->
      snd (iterate n g w) = w /\ snd (fst (iterate n g w)) = g.
Proof.
      intros Hp. destruct n as [|n]; [auto|].
      cbn [iterate]. unfold resume. rewrite Hp. auto.
Qed.

Lemma iterate_in_parent n : forall g w,
      at_pc g = InParent ->
      grown (db w) (db (snd (iterate n g w))) 0 1.
Proof.
      induction n as [|n IH]; intros g w Hp;
        [eapply grown_le; [apply grown_refl| |]; auto|].
      cbn [iterate]. unfold resume. rewrite Hp.
      pose proof (relay_cases g w) as R.
      destruct (relay g w) as [[[es s] g'] w'].
      cbn [fst snd] in R.
      destruct s as [st| |e]; destruct R as (Hp' & Hd); cbn [snd].
      - specialize (IH g' w' Hp'). rewrite Hd in IH.
        destruct (iterate n g' w') as [[es' g''] w'']. exact IH.
      - exact Hd.
      - rewrite Hd. eapply grown_le; [apply grown_refl| |]; auto.
Qed.

    (** A read loop that suspends has consumed at least one line. *)
Lemma ollama_advance_shorter ls : forall ai rest ai' chunk,
      LLMGUIChat.ollama_advance ls ai = LLMGUIChat.Suspended rest ai' chunk ->
      (List.length rest < List.length ls)%nat.
Proof.
      induction ls as [|line ls IH]; intros ai rest ai' chunk;
        cbn [LLMGUIChat.ollama_advance List.length]; [discriminate|].
      assert (Hi : forall a,
                 LLMGUIChat.ollama_advance ls a
                 = LLMGUIChat.Suspended rest ai' chunk ->
                 (List.length rest < S (List.length ls))%nat).
      { intros a E. apply IH in E. lia. }
      destruct (PyStr.is_empty line); [apply Hi|].
      destruct (PyStr.decode line) as [decoded|]; [|discriminate].
      destruct (json_loads decoded) as [c|]; [|apply Hi].
      destruct (PyJson.contains "response" c) as [[|]|e]; [| |discriminate].
      - destruct (_ <- _ ;; _) as [a|e]; [|discriminate].
        intros E. inversion E; subst. lia.
      - destruct (LLMGUIChat.check_done c) as [[|]|e]; try discriminate.
        apply Hi.
Qed.

Lemma vllm_advance_shorter ls : forall ai rest ai' chunk,
      LLMGUIChat.vllm_advance ls ai = LLMGUIChat.Suspended rest ai' chunk ->
      (List.length rest < List.length ls)%nat.
Proof.
      induction ls as [|line ls IH]; intros ai rest ai' chunk;
        cbn [LLMGUIChat.vllm_advance List.length]; [discriminate|].
      assert (Hi : forall a,
                 LLMGUIChat.vllm_advance ls a
                 = LLMGUIChat.Suspended rest ai' chunk ->
                 (List.length rest < S (List.length ls))%nat).
      { intros a E. apply IH in E. lia. }
      destruct (PyStr.is_empty line); [apply Hi|].
      destruct (PyStr.decode line) as [decoded|]; [|discriminate].
      destruct (negb (PyStr.startswith decoded "data: ")); [apply Hi|].
      destruct (String.eqb _ "[DONE]"); [discriminate|].
      destruct (json_loads _) as [c|]; [|apply Hi].
      destruct (LLMGUIChat.vllm_on_chunk c ai) as [[a|]|e];
        [|apply Hi|discriminate].
      intros E. inversion E; subst. lia.
Qed.

Lemma handle_remaining g b e t :
      match snd (fst (fst (LLMGUIChat.handle g b e))) with
      | Yield _ =>
          remaining (Generator (snd (fst (LLMGUIChat.handle g b e))) t InParent)
          = Some 1%nat
      | StopIteration => False
      | Propagate _ => True
      end.
Proof. unfold LLMGUIChat.handle. destruct e; cbn; auto. Qed.

    (** After a stretch of a read loop: one more [next], or two more than
        there are lines left. *)
Lemma settle_remaining o g b ending a t :
      match snd (fst (fst (LLMGUIChat.settle o g b ending a))) with
      | Yield _ =>
          exists k,
            remaining (Generator (snd (fst (LLMGUIChat.settle o g b ending a)))
                                 t InParent) = Some k
            /\ (k = 1%nat
                \/ exists rest ai chunk,
                     a = LLMGUIChat.Suspended rest ai chunk
                     /\ k = (List.length rest + 2)%nat)
      | StopIteration => False
      | Propagate _ => True
      end.
Proof.
      assert (Hh : forall e,
                 match snd (fst (fst (LLMGUIChat.handle g b e))) with
                 | Yield _ =>
                     exists k,
                       remaining (Generator (snd (fst (LLMGUIChat.handle g b e)))
                                            t InParent) = Some k
                       /\ (k = 1%nat
                           \/ exists rest ai chunk,
                                a = LLMGUIChat.Suspended rest ai chunk
                                /\ k = (List.length rest + 2)%nat)
                 | StopIteration => False
                 | Propagate _ => True
                 end).
      { intros e. pose proof (handle_remaining g b e t) as Hr.
        destruct (snd (fst (fst (LLMGUIChat.handle g b e)))); auto.
        exists 1%nat. split; [exact Hr|auto]. }
      unfold LLMGUIChat.settle.
      destruct a as [rest ai chunk|ai|ai|e]; [| | |apply Hh].
      - cbn [fst snd].
        exists (List.length rest + 2)%nat. split; [destruct o; reflexivity|].
        right. exists rest, ai, chunk. auto.
      - cbn. exists 1%nat. auto.
      - destruct ending; [|apply Hh|apply Hh].
        cbn. exists 1%nat. auto.
Qed.

    (** What is left after the first [next] of the inherited generator,
        when no response has more than [n] lines. *)
Lemma parent_begin_remaining p b t n :
      (forall q r,
         LLMGUIChat.server (LLMGUIChat.args p) q = PostReturns r ->
         (List.length (lines r) <= n)%nat) ->
      match snd (fst (fst (LLMGUIChat.begin p b))) with
      | Yield _ =>
          exists k,
            remaining (Generator (snd (fst (LLMGUIChat.begin p b))) t InParent)
            = Some k
            /\ (k <= n + 1)%nat
      | StopIteration => False
      | Propagate _ => True
      end.
Proof.
      intros Hn. unfold LLMGUIChat.begin.
      destruct (PyStr.is_empty _);
        [cbn; exists 1%nat; split; [reflexivity|lia]|].
      match goal with
      | |- context [LLMGUIChat.with_effects ?es ?r] =>
          replace (snd (fst (fst (LLMGUIChat.with_effects es r))))
            with (snd (fst (fst r)))
            by (destruct r as [[[? ?] ?] ?]; reflexivity);
          replace (snd (fst (LLMGUIChat.with_effects es r)))
            with (snd (fst r))
            by (destruct r as [[[? ?] ?] ?]; reflexivity)
      end.
      destruct (LLMGUIChat.server (LLMGUIChat.args p) _) as [msg|r|] eqn:S;
        [| |exact I].
      - cbn. exists 1%nat. split; [reflexivity|lia].
      - apply Hn in S.
        destruct (negb _); [cbn; exists 1%nat; split; [reflexivity|lia]|].
        match goal with
        | |- context [LLMGUIChat.settle ?o ?g0 ?b0 ?e0 ?a0] =>
            pose proof (settle_remaining o g0 b0 e0 a0 t) as R
        end.
        match type of R with
        | match ?s with _ => _ end => destruct s; auto
        end.
        destruct R as (k & Hk & [->|(rest & ai & chunk & E & ->)]);
          [exists 1%nat; split; [exact Hk|lia]|].
        eexists. split; [exact Hk|].
        destruct (String.eqb _ "ollama").
        + apply ollama_advance_shorter in E. lia.
        + apply vllm_advance_shorter in E. lia.
Qed.

Lemma parent_resume_remaining p b t k :
      remaining (Generator p t InParent) = Some (S k) ->
      match snd (fst (fst (LLMGUIChat.resume p b))) with
      | Yield _ =>
          exists k',
            remaining (Generator (snd (fst (LLMGUIChat.resume p b))) t InParent)
            = Some k'
            /\ (k' <= k)%nat
      | _ => True
      end.
Proof.
      unfold remaining, LLMGUIChat.resume. cbn [at_pc parent].
      destruct (LLMGUIChat.at_pc p) as [|rest ending ai chunk|rest ending ai| | |];
        intros E; try discriminate E; try exact I.
      - match goal with
        | |- context [LLMGUIChat.settle ?o ?g0 ?b0 ?e0 ?a0] =>
            pose proof (settle_remaining o g0 b0 e0 a0 t) as R
        end.
        match type of R with
        | match ?s with _ => _ end => destruct s; auto
        end.
        injection E as Ek.
        destruct R as (k0 & Hk & [->|(rest' & ai' & chunk' & E & ->)]);
          [exists 1%nat; split; [exact Hk|lia]|].
        eexists. split; [exact Hk|].
        unfold LLMGUIChat.ollama_continue in E.
        destruct (LLMGUIChat.check_done chunk) as [[|]|e]; try discriminate E.
        apply ollama_advance_shorter in E. lia.
      - match goal with
        | |- context [LLMGUIChat.settle ?o ?g0 ?b0 ?e0 ?a0] =>
            pose proof (settle_remaining o g0 b0 e0 a0 t) as R
        end.
        match type of R with
        | match ?s with _ => _ end => destruct s; auto
        end.
        injection E as Ek.
        destruct R as (k0 & Hk & [->|(rest' & ai' & chunk' & E & ->)]);
          [exists 1%nat; split; [exact Hk|lia]|].
        eexists. split; [exact Hk|].
        apply vllm_advance_shorter in E. lia.
Qed.

Lemma relay_generator g w :
      snd (fst (relay g w))
      = Generator (snd (fst (LLMGUIChat.resume (parent g) (base (self w)))))
                  (now g)
                  match snd (fst (fst (LLMGUIChat.resume (parent g)
                                         (base (self w))))) with
                  | Yield _ => InParent
                  | _ => Finished
                  end
      /\ snd (fst (fst (relay g w)))
         = snd (fst (fst (LLMGUIChat.resume (parent g) (base (self w))))).
Proof.
      unfold relay.
      destruct (LLMGUIChat.resume (parent g) (base (self w))) as [[[es s] p] b].
      destruct s; cbn [fst snd]; auto.
      destruct (store_reply _ _). auto.
Qed.

    (** The measure goes down with every [next] of a started generator. *)
Lemma iterate_remaining n : forall g w k,
      at_pc g <> Start ->
      remaining g = Some k -> (k <= n)%nat ->
      at_pc (snd (fst (iterate n g w))) = Finished.
Proof.
      induction n as [|n IH]; intros g w k Hs Hk Hle.
      - cbn [iterate fst snd]. unfold remaining in Hk.
        destruct (at_pc g); [congruence|exfalso|reflexivity].
        destruct (LLMGUIChat.at_pc (parent g)); inversion Hk; lia.
      - destruct (at_pc g) eqn:Hp; [congruence| |].
        2:{ destruct (iterate_finished (S n) g w Hp) as (_ & ->). exact Hp. }
        cbn [iterate]. unfold resume. rewrite Hp.
        destruct (relay_generator g w) as (Hg & Hsig).
        destruct k as [|k].
        { unfold remaining in Hk. rewrite Hp in Hk.
          destruct (LLMGUIChat.at_pc (parent g)); inversion Hk; lia. }
        assert (Hk' : remaining (Generator (parent g) (now g) InParent)
                      = Some (S k)).
        { rewrite <- Hk. unfold remaining. rewrite Hp. reflexivity. }
        pose proof (parent_resume_remaining (parent g) (base (self w))
                      (now g) k Hk') as R.
        destruct (relay g w) as [[[es s] g'] w'].
        cbn [fst snd] in Hg, Hsig. rewrite <- Hsig in R, Hg.
        destruct s as [st| |e]; cbn [fst snd];
          [|rewrite Hg; reflexivity|rewrite Hg; reflexivity].
        destruct R as (k' & Hr & Hle').
        rewrite <- Hg in Hr.
        assert (Hs' : at_pc g' <> Start) by (rewrite Hg; discriminate).
        specialize (IH g' w' k' Hs' Hr ltac:(lia)).
        destruct (iterate n g' w') as [[es' g''] w'']. exact IH.
Qed.

    (** The first [next] of the generator of the subclass. *)
Lemma begin_generator g w :
      (exists e, snd (fst (fst (begin g w))) = Propagate e
                 /\ at_pc (snd (fst (begin g w))) = Finished)
      \/ exists w2,
           snd (fst (begin g w)) = snd (fst (relay g w2))
           /\ snd (fst (fst (begin g w))) = snd (fst (fst (relay g w2)))
           /\ base (self w2)
              = LLMGUIChat.Chat
                  (LLMGUIChat.arg_backend (LLMGUIChat.args (parent g)))
                  (LLMGUIChat.arg_model (LLMGUIChat.args (parent g)))
                  (LLMGUIChat.arg_reasoning (LLMGUIChat.args (parent g)))
                  (LLMGUIChat.arg_reasoning_mode (LLMGUIChat.args (parent g)))
                  (LLMGUIChat.conversation_history (base (self w2))).
Proof.
      unfold begin.
      set (w0 := with_base w _).
      destruct (match current_session_id (self w0) with
                | Some _ => _
                | None => _
                end) as [[created|e] w1] eqn:S.
      2:{ left. exists e. auto. }
      right.
      destruct (add_message_to_db w1 _ _ _) as [stored w2] eqn:A.
      exists w2.
      rewrite lifted_signal, lifted_generator.
      split; [reflexivity|]. split; [reflexivity|].
      assert (B1 : LLMGUIChat.backend (base (self w2))
                   = LLMGUIChat.arg_backend (LLMGUIChat.args (parent g))
                   /\ LLMGUIChat.current_model (base (self w2))
                      = LLMGUIChat.arg_model (LLMGUIChat.args (parent g))
                   /\ LLMGUIChat.show_reasoning (base (self w2))
                      = LLMGUIChat.arg_reasoning (LLMGUIChat.args (parent g))
                   /\ LLMGUIChat.reasoning_mode (base (self w2))
                      = LLMGUIChat.arg_reasoning_mode (LLMGUIChat.args (parent g))).
      { assert (Hw2 : self w2 = self w1).
        { unfold add_message_to_db in A.
          destruct (database_enabled (self w1));
            [|inversion A; reflexivity].
          destruct (current_session_id (self w1));
            [|inversion A; reflexivity].
          destruct (add_message _ _ _ _ _) as [[?|?] ?]; inversion A;
            reflexivity. }
        rewrite Hw2.
        destruct (current_session_id (self w0)).
        - inversion S; subst. cbn. auto.
        - unfold start_new_session in S.
          destruct (database_enabled (self w0)).
          + destruct (create_session _ _ _ _ _) as [[?|?] ?];
              inversion S; subst. cbn. auto.
          + inversion S; subst. cbn. auto. }
      destruct (base (self w2)) as [bk md sr rm ch]. cbn in *.
      destruct B1 as (-> & -> & -> & ->). reflexivity.
Qed.

End Facts.

End StepFacts.

Section StepClaims.
Context `{PyRuntime}.

Import ChatDatabaseManager DatabaseLLMGUIChat SessionHistory StepFacts.

  (** X10.  Without a database the web chat never reaches for one: however
      far a [send_message_stream] generator in whatever state is iterated,
      no session is created and no message is stored or attempted to be
      stored, the store is what it was, and the database stays disabled.
      The guards of [start_new_session] and [add_message_to_db] are the
      only ways to the store. *)
Theorem disabled_database_is_never_touched :
    forall (n : nat) (g : generator) (w : world),
      database_enabled (self w) = false ->
      existsb touches_store (fst (fst (iterate n g w))) = false
      /\ db (snd (iterate n g w)) = db w
      /\ database_enabled (self (snd (iterate n g w))) = false.
Proof.
    induction n as [|n IH]; intros g w Hd; [auto|].
    cbn [iterate].
    pose proof (resume_disabled g w Hd) as Hr.
    pose proof (step_trace_quiet (resume g w)) as Ht.
    destruct (resume g w) as [[[es s] g'] w'].
    cbn [fst snd] in Hr, Ht. destruct Hr as (Hq & Hdb & Hd').
    destruct s as [st| |e]; cbn [fst snd]; try (rewrite Ht; auto).
    specialize (IH g' w' Hd').
    destruct (iterate n g' w') as [[es' g''] w''].
    cbn [fst snd] in *. rewrite existsb_app, Ht, Hq.
    destruct IH as (-> & -> & ->). auto.
Qed.

  (** X11.  An exchange only appends to the store.  Whatever the state of
      the generator and however far it is iterated, the session rows and
      the message rows that were there are still there, unchanged and in
      their places, followed by at most one new session row and at most
      two new message rows (the user message and the reply). *)
Theorem exchange_only_appends_rows :
    forall (n : nat) (g : generator) (w : world),
      grown (db w) (db (snd (iterate n g w))) 1 2.
Proof.
    intros n g w.
    destruct (at_pc g) eqn:Hp.
    - destruct n as [|n];
        [eapply grown_le; [apply grown_refl| |]; auto|].
      cbn [iterate]. unfold resume. rewrite Hp.
      pose proof (begin_cases g w) as B.
      destruct (begin g w) as [[[es s] g'] w'].
      cbn [fst snd] in B.
      destruct s as [st| |e]; destruct B as (Hp' & G); cbn [snd];
        try exact G.
      pose proof (iterate_in_parent n g' w' Hp') as G'.
      destruct (iterate n g' w') as [[es' g''] w'']. cbn [snd] in *.
      apply (grown_trans _ _ _ _ _ _ _ G G').
    - eapply grown_le; [apply iterate_in_parent, Hp| |]; auto.
    - destruct (iterate_finished n g w Hp) as (-> & _).
      eapply grown_le; [apply grown_refl| |]; auto.
Qed.

  (** X12.  A [send_message_stream] generator yields at most once for
      every line of the response and once more for the completion or the
      error: when the server answers with at most [n] lines, the generator
      is exhausted (or has raised) after at most [n + 2] calls of [next]. *)
Theorem exchange_ends_within_lines_plus_two :
    forall (n : nat) (c : LLMGUIChat.call) (history : list message)
           (t : clock) (w : world),
      (forall q r,
         LLMGUIChat.server c q = PostReturns r ->
         (List.length (lines r) <= n)%nat) ->
      at_pc (snd (fst (iterate (n + 2) (start c history t) w))) = Finished.
Proof.
    intros n c history t w.
    intros Hn. replace (n + 2)%nat with (S (n + 1)) by lia.
    set (g := start c history t).
    cbn [iterate]. unfold resume. change (at_pc g) with Start. cbv iota.
    destruct (begin_generator g w) as [(e & Hsig & Hp)|(w2 & Hg & Hsig & _)].
    - destruct (begin g w) as [[[es s] g'] w'].
      cbn [fst snd] in Hsig, Hp. subst s. exact Hp.
    - destruct (relay_generator g w2) as (Rg & Rs).
      rewrite <- Hg in Rg. rewrite <- Hsig in Rs.
      pose proof (parent_begin_remaining (parent g) (base (self w2)) t n Hn)
        as B.
      change (LLMGUIChat.resume (parent g) (base (self w2)))
        with (LLMGUIChat.begin (parent g) (base (self w2))) in Rg, Rs.
      destruct (begin g w) as [[[es s] g'] w'].
      cbn [fst snd] in Rg, Rs. rewrite <- Rs in B, Rg.
      destruct s as [st| |e]; cbn [fst snd];
        [|rewrite Rg; reflexivity|rewrite Rg; reflexivity].
      destruct B as (k & Hk & Hle).
      change (now g) with t in Rg. rewrite <- Rg in Hk.
      assert (Hs : at_pc g' <> Start) by (rewrite Rg; discriminate).
      pose proof (iterate_remaining (n + 1) g' w' k Hs Hk Hle) as F.
      destruct (iterate (n + 1) g' w') as [[es' g''] w'']. exact F.
Qed.

End StepClaims.

Lemma disabled_database_is_never_touched_witness :
  DatabaseLLMGUIChat.database_enabled
    (DatabaseLLMGUIChat.self GuiSamples.offline_gui) = false
  /\ existsb SessionHistory.touches_store
       (fst (fst (@DatabaseLLMGUIChat.iterate sample_runtime 10
                    (DatabaseLLMGUIChat.start Samples.hi_completed []
                       Samples.morning)
                    GuiSamples.offline_gui))) = false
  /\ DatabaseLLMGUIChat.db
       (snd (@DatabaseLLMGUIChat.iterate sample_runtime 10
               (DatabaseLLMGUIChat.start Samples.hi_completed []
                  Samples.morning)
               GuiSamples.offline_gui))
     = DatabaseLLMGUIChat.db GuiSamples.offline_gui
  /\ DatabaseLLMGUIChat.database_enabled
       (DatabaseLLMGUIChat.self
          (snd (@DatabaseLLMGUIChat.iterate sample_runtime 10
                  (DatabaseLLMGUIChat.start Samples.hi_completed []
                     Samples.morning)
                  GuiSamples.offline_gui))) = false.
Proof.
  split; [reflexivity|].
  apply (@disabled_database_is_never_touched sample_runtime 10
           (DatabaseLLMGUIChat.start Samples.hi_completed [] Samples.morning)
           GuiSamples.offline_gui).
  reflexivity.
Defined.

Lemma exchange_ends_within_lines_plus_two_witness :
  (forall q r,
     LLMGUIChat.server Samples.hi_completed q = PostReturns r ->
     (List.length (lines r) <= 3)%nat)
  /\ DatabaseLLMGUIChat.at_pc
       (snd (fst (@DatabaseLLMGUIChat.iterate sample_runtime (3 + 2)
                    (DatabaseLLMGUIChat.start Samples.hi_completed []
                       Samples.morning)
                    Samples.fresh_gui)))
     = DatabaseLLMGUIChat.Finished.
Proof.
  assert (Hn : forall q r,
             LLMGUIChat.server Samples.hi_completed q = PostReturns r ->
             (List.length (lines r) <= 3)%nat).
  { intros q r E. cbn in E. inversion E. cbn. lia. }
  split; [exact Hn|].
  apply (@exchange_ends_within_lines_plus_two sample_runtime 3
           Samples.hi_completed [] Samples.morning Samples.fresh_gui).
  exact Hn.
Defined.

(* ===================================================================== *)
(** ** A whole exchange of the web chat with the chat-completions backend *)
(* ===================================================================== *)

Module RunFacts.

Import ChatDatabaseManager DatabaseLLMGUIChat.

Lemma add_message_ok d sid role content md :
    session_exists d sid = true ->
    role_check role = true ->
    (coalesce (sql_max (session_orders d sid)) 0 + 1 <= INTEGER_MAX)%Z ->
    PyStr.has_nul content = false ->
    json_has_nul (JObj md) = false ->
    add_message d sid role content md
    = (Ok (DbUuid (next_uuid d)),
       Database (chat_sessions d)
         (chat_messages d
            ++ [MessageRow (DbUuid (next_uuid d)) sid role content
                  (coalesce (sql_max (session_orders d sid)) 0 + 1) md])
         (S (next_uuid d))).
Proof.
    intros He Hr Ho Hz Hm. unfold add_message.
    apply Z.leb_le in Ho. rewrite Ho. cbn [negb first_with_nul].
    rewrite (TextFacts.checked_role_has_no_nul _ Hr), Hz,
      (TextFacts.checked_role_is_short _ Hr), Hm, Hr, He.
    reflexivity.
Qed.

Section Facts.
Context `{PyRuntime}.

Lemma iterate_yield n g w es st g' w' :
      resume g w = ((es, Yield st), g', w') ->
      iterate (S n) g w
      = (((es ++ [Yielded st]) ++ fst (fst (iterate n g' w')))%list,
         snd (fst (iterate n g' w')), snd (iterate n g' w')).
Proof.
      intros E. cbn [iterate]. rewrite E. cbn [step_trace].
      destruct (iterate n g' w') as [[? ?] ?]. reflexivity.
Qed.

Lemma iterate_stop n g w es g' w' :
      resume g w = ((es, StopIteration), g', w') ->
      iterate (S n) g w = (es, g', w').
Proof. intros E. cbn [iterate]. rewrite E. reflexivity. Qed.

    (** The read loop of [_stream_vllm] at a Delta frame and at the
        sentinel. *)
Lemma gui_delta line t rest ai :
      Wire.chat_delta line t ->
      exists chunk,
        LLMGUIChat.vllm_advance (line :: rest) ai
        = LLMGUIChat.Suspended rest (ai ++ t) chunk.
Proof.
      intros (payload & fields & choice & others & delta
              & -> & Hs & Hj & Hc & Hd & Ht).
      exists (JObj fields).
      cbn [LLMGUIChat.vllm_advance].
      rewrite (TextFacts.payload_decode _ _ Hj), startswith_data.
      destruct (VLLMFacts.data_line payload) as [-> ->]. simpl negb. cbv iota.
      rewrite Hs, Hj.
      unfold LLMGUIChat.vllm_on_chunk. simpl. rewrite Hc. simpl. rewrite Hd.
      simpl. rewrite Ht. reflexivity.
Qed.

Lemma gui_terminal line rest ai :
      Wire.chat_terminal line ->
      LLMGUIChat.vllm_advance (line :: rest) ai = LLMGUIChat.Broke ai.
Proof.
      intros (payload & -> & Hs).
      cbn [LLMGUIChat.vllm_advance].
      rewrite (TextFacts.done_decode _ Hs), startswith_data.
      destruct (VLLMFacts.data_line payload) as [-> ->]. simpl negb. cbv iota.
      rewrite Hs. reflexivity.
Qed.

    (** The last [next]: the inherited generator is exhausted, and the
        reply, the last entry of the conversation history, is stored. *)
Lemma finish c hist t bk md sr rm conv reply sid sname d u :
      session_exists d sid = true ->
      (coalesce (sql_max (session_orders d sid)) 0 + 1 <= INTEGER_MAX)%Z ->
      PyStr.has_nul reply = false ->
      json_has_nul (JObj (reply_metadata c)) = false ->
      resume (Generator (LLMGUIChat.Generator c hist LLMGUIChat.Completed)
                        t InParent)
             (World (Chat (LLMGUIChat.Chat bk md sr rm
                             (conv ++ [Message "assistant" reply]))
                          true (Some sid) sname) d u)
      = (([Stored sid "assistant" reply (reply_metadata c)], StopIteration),
         Generator (LLMGUIChat.Generator c hist LLMGUIChat.Finished) t Finished,
         World (Chat (LLMGUIChat.Chat bk md sr rm
                        (conv ++ [Message "assistant" reply]))
                     true (Some sid) sname)
               (snd (add_message d sid "assistant" reply (reply_metadata c)))
               u).
Proof.
      intros He Ho Hz Hm.
      unfold resume, relay. cbn [at_pc parent now self base].
      unfold LLMGUIChat.resume. cbn [LLMGUIChat.at_pc LLMGUIChat.args
                                     LLMGUIChat.history].
      unfold with_base, store_reply.
      cbn [self base database_enabled current_session_id session_name db uuid4
           LLMGUIChat.conversation_history LLMGUIChat.args].
      rewrite DBFacts.last_some.
      cbn [role content String.eqb Ascii.eqb Bool.eqb].
      unfold add_message_to_db.
      cbn [self database_enabled current_session_id db uuid4].
      rewrite (add_message_ok d sid "assistant" reply (reply_metadata c) He
                 eq_refl Ho Hz Hm).
      reflexivity.
Qed.

    (** From the yield of a Delta to the end: one yield for every further
        Delta, the completion at the sentinel, and the store of the
        reply. *)
Lemma stream_to_the_end frames ts :
      Forall2 Wire.chat_delta frames ts ->
      forall terminal rest ending c shown t ai bk md sr rm conv sid sname d u,
        Wire.chat_terminal terminal ->
        session_exists d sid = true ->
        (coalesce (sql_max (session_orders d sid)) 0 + 1 <= INTEGER_MAX)%Z ->
        PyStr.has_nul (ai ++ concat_all ts) = false ->
        json_has_nul (JObj (reply_metadata c)) = false ->
        iterate (List.length ts + 2)
          (Generator
             (LLMGUIChat.Generator c (shown ++ [Message "assistant" ai])
                (LLMGUIChat.InVllm (frames ++ terminal :: rest) ending ai))
             t InParent)
          (World (Chat (LLMGUIChat.Chat bk md sr rm conv) true (Some sid) sname)
                 d u)
        = ((repeat (Yielded ("🔄 Streaming from vLLM: " ++ md)) (List.length ts)
              ++ [Remembered (Message "assistant" (ai ++ concat_all ts));
                  Yielded ("✅ Response completed using vLLM: " ++ md);
                  Stored sid "assistant" (ai ++ concat_all ts)
                         (reply_metadata c)])%list,
           Generator
             (LLMGUIChat.Generator c
                (shown ++ [Message "assistant" (ai ++ concat_all ts)])
                LLMGUIChat.Finished)
             t Finished,
           World (Chat (LLMGUIChat.Chat bk md sr rm
                          (conv ++ [Message "assistant" (ai ++ concat_all ts)]))
                       true (Some sid) sname)
                 (snd (add_message d sid "assistant" (ai ++ concat_all ts)
                         (reply_metadata c)))
                 u).
Proof.
      induction 1 as [|line t0 frames ts Hd _ IH];
        intros terminal rest ending c shown t ai bk md sr rm conv sid sname d u
               Ht He Ho Hz Hm.
      - cbn [List.length Nat.add app repeat concat_all fold_right] in *.
        rewrite append_empty_r in *.
        erewrite iterate_yield.
        2:{ unfold resume, relay. cbn [at_pc parent now self base].
            unfold LLMGUIChat.resume. cbn [LLMGUIChat.at_pc].
            rewrite (gui_terminal _ _ _ Ht).
            unfold LLMGUIChat.settle, with_base.
            cbn [self base database_enabled current_session_id session_name
                 db uuid4 LLMGUIChat.args LLMGUIChat.history
                 LLMGUIChat.current_model LLMGUIChat.append_history
                 LLMGUIChat.backend LLMGUIChat.show_reasoning
                 LLMGUIChat.reasoning_mode LLMGUIChat.conversation_history].
            reflexivity. }
        rewrite (iterate_stop _ _ _ _ _ _
                   (finish c _ t bk md sr rm conv ai sid sname d u He Ho Hz Hm)).
        reflexivity.
      - cbn [List.length Nat.add app repeat concat_all fold_right] in *.
        fold (concat_all ts) in *.
        destruct (gui_delta line t0 (frames ++ terminal :: rest) ai Hd)
          as (chunk & Ha).
        erewrite iterate_yield.
        2:{ unfold resume, relay. cbn [at_pc parent now self base].
            unfold LLMGUIChat.resume. cbn [LLMGUIChat.at_pc].
            rewrite Ha.
            unfold LLMGUIChat.settle, with_base.
            cbn [self base database_enabled current_session_id session_name
                 db uuid4 LLMGUIChat.args LLMGUIChat.history
                 LLMGUIChat.current_model].
            rewrite set_last_content_snoc. cbn [role].
            reflexivity. }
        rewrite <- append_assoc in Hz.
        rewrite (IH terminal rest ending c shown t (ai ++ t0) bk md sr rm conv
                   sid sname d u Ht He Ho Hz Hm).
        cbn [fst snd app]. rewrite !append_assoc. reflexivity.
Qed.

End Facts.

  (** A successful append shows at the end of the session, and leaves room
      for one append less. *)
Lemma roles_after d sid role content md :
    session_exists d sid = true ->
    role_check role = true ->
    (coalesce (sql_max (session_orders d sid)) 0 + 1 <= INTEGER_MAX)%Z ->
    PyStr.has_nul content = false ->
    json_has_nul (JObj md) = false ->
    Exchange.roles_of (snd (add_message d sid role content md)) sid
    = (Exchange.roles_of d sid ++ [(role, content)])%list
    /\ session_exists (snd (add_message d sid role content md)) sid = true
    /\ coalesce (sql_max (session_orders (snd (add_message d sid role content md))
                            sid)) 0
       = (coalesce (sql_max (session_orders d sid)) 0 + 1)%Z.
Proof.
    intros He Hr Ho Hz Hm.
    pose proof (StoreFacts.session_orders_after d sid role content md sid) as Hs.
    rewrite (add_message_ok d sid role content md He Hr Ho Hz Hm) in *.
    cbn [fst snd succeeded] in *.
    rewrite StoreFacts.uuid_eqb_refl in Hs. cbn [andb] in Hs.
    split; [|split].
    - unfold Exchange.roles_of, session_messages. cbn [chat_messages].
      rewrite filter_app. cbn [filter]. unfold of_session at 2.
      cbn [message_session]. rewrite StoreFacts.uuid_eqb_refl.
      rewrite map_app. reflexivity.
    - exact He.
    - rewrite Hs, StoreFacts.sql_max_snoc.
      destruct (sql_max (session_orders d sid)) as [m|]; cbn [coalesce]; lia.
Qed.

Section FirstNext.
Context `{PyRuntime}.

    (** The first [next] of an exchange with the chat-completions backend
        on a session that is there: the user message is stored and
        remembered, the request posted, and the read loop entered. *)
Lemma first_next c h t bk md sr rm conv sid sname d u body ls fin es st p b' :
      session_exists d sid = true ->
      (coalesce (sql_max (session_orders d sid)) 0 + 1 <= INTEGER_MAX)%Z ->
      PyStr.has_nul (LLMGUIChat.arg_message c) = false ->
      PyStr.is_empty (PyStr.strip (LLMGUIChat.arg_message c)) = false ->
      String.eqb (LLMGUIChat.arg_backend c) "ollama" = false ->
      (forall q, LLMGUIChat.server c q = PostReturns (Response 200 body ls fin)) ->
      LLMGUIChat.settle false
        (LLMGUIChat.Generator c
           (h ++ [Message "user" (LLMGUIChat.arg_message c);
                  Message "assistant" ""])
           LLMGUIChat.Start)
        (LLMGUIChat.Chat (LLMGUIChat.arg_backend c) (LLMGUIChat.arg_model c)
           (LLMGUIChat.arg_reasoning c) (LLMGUIChat.arg_reasoning_mode c)
           (conv ++ [Message "user" (LLMGUIChat.arg_message c)]))
        fin (LLMGUIChat.vllm_advance ls "")
      = ((es, Yield st), p, b') ->
      resume (start c h t)
             (World (Chat (LLMGUIChat.Chat bk md sr rm conv) true (Some sid) sname)
                    d u)
      = ((([Stored sid "user" (LLMGUIChat.arg_message c) [];
            Remembered (Message "user" (LLMGUIChat.arg_message c));
            Posted
              (ChatCompletions (LLMGUIChat.arg_model c)
                 (conv
                    ++ [Message "user"
                          (if LLMGUIChat.arg_reasoning c
                           then ReasoningPrompts.get
                                  (LLMGUIChat.arg_reasoning_mode c)
                                  ReasoningPrompts.reasoning_prompts
                                  ReasoningPrompts.simple
                                ++ LLMGUIChat.arg_message c
                           else LLMGUIChat.arg_message c)])
                 true)] ++ es)%list,
          Yield st),
         Generator p t InParent,
         World (Chat b' true (Some sid) sname)
               (snd (add_message d sid "user" (LLMGUIChat.arg_message c) []))
               u).
Proof.
      intros He Ho Hz Hb Hv Hsrv Hs.
      unfold resume, start, LLMGUIChat.start. cbn [at_pc]. unfold begin, with_base.
      cbn [parent LLMGUIChat.args now self base
           database_enabled current_session_id session_name db uuid4].
      unfold add_message_to_db.
      cbn [self database_enabled current_session_id db uuid4].
      rewrite (add_message_ok d sid "user" _ [] He eq_refl Ho Hz eq_refl).
      cbn [app snd].
      unfold relay.
      cbn [parent self base].
      unfold LLMGUIChat.resume. cbn [LLMGUIChat.at_pc].
      unfold LLMGUIChat.begin.
      cbn [LLMGUIChat.args LLMGUIChat.history].
      rewrite Hb.
      unfold LLMGUIChat.update_settings, LLMGUIChat.append_history.
      cbn [LLMGUIChat.backend LLMGUIChat.current_model LLMGUIChat.show_reasoning
           LLMGUIChat.reasoning_mode LLMGUIChat.conversation_history].
      rewrite Hv, Hsrv.
      cbn [status_code lines ending Z.eqb Pos.eqb negb].
      rewrite Hs.
      unfold LLMGUIChat.vllm_messages, LLMGUIChat.reasoning_prompt.
      cbn [LLMGUIChat.conversation_history LLMGUIChat.show_reasoning
           LLMGUIChat.reasoning_mode].
      rewrite removelast_last.
      reflexivity.
Qed.

End FirstNext.

End RunFacts.

(* ===================================================================== *)
(** ** The store and the conversation, in step                            *)
(* ===================================================================== *)

Module RoundTripFacts.

Import ChatDatabaseManager ChatDatabaseReads DatabaseLLMGUIChat RunFacts
         SessionHistory.

  (** What [add_message] has appended is read back last. *)
Lemma history_snoc d sid role content md :
    session_exists d sid = true ->
    role_check role = true ->
    (coalesce (sql_max (session_orders d sid)) 0 + 1 <= INTEGER_MAX)%Z ->
    PyStr.has_nul content = false ->
    json_has_nul (JObj md) = false ->
    get_conversation_history (snd (add_message d sid role content md)) sid
    = (get_conversation_history d sid ++ [HistoryEntry role content md])%list.
Proof.
    intros He Hr Ho Hz Hmd.
    rewrite (add_message_ok d sid role content md He Hr Ho Hz Hmd). cbn [snd].
    unfold get_conversation_history, session_messages. cbn [chat_messages].
    rewrite filter_app. cbn [filter]. unfold of_session at 2.
    cbn [message_session].
    rewrite StoreFacts.uuid_eqb_refl, ReadFacts.sorted_snoc, map_app;
      [reflexivity|].
    intros m Hm. cbn [message_order].
    assert (Hle : (message_order m
                   <= coalesce (sql_max (session_orders d sid)) 0)%Z).
    { apply ReadFacts.sql_max_ge. unfold session_orders, session_messages.
      apply in_map. exact Hm. }
    lia.
Qed.

  (** Rows numbered consecutively are sorted already. *)
Lemma sorted_when_counted rows : forall k,
    map message_order rows = map Z.of_nat (seq k (List.length rows)) ->
    order_by_message_order rows = rows.
Proof.
    induction rows as [|x rows IH]; intros k E; [reflexivity|].
    cbn [List.length seq map] in E. injection E as Ex Er.
    cbn [order_by_message_order fold_right].
    fold (order_by_message_order rows). rewrite (IH (S k) Er).
    destruct rows as [|y rows]; [reflexivity|].
    cbn [List.length seq map] in Er. injection Er as Ey _.
    cbn [insert_by_order]. rewrite Ex, Ey.
    change (Z.pos (Pos.of_succ_nat k)) with (Z.of_nat (S k)).
    destruct (Z.of_nat k <=? Z.of_nat (S k))%Z eqn:L; [reflexivity|].
    apply Z.leb_gt in L. lia.
Qed.

Lemma insert_length m rows :
    List.length (insert_by_order m rows) = S (List.length rows).
Proof.
    induction rows as [|x rows IH]; [reflexivity|].
    cbn [insert_by_order]. destruct (_ <=? _)%Z; cbn [List.length]; auto.
Qed.

Lemma sorted_length rows :
    List.length (order_by_message_order rows) = List.length rows.
Proof.
    induction rows as [|x rows IH]; [reflexivity|].
    cbn [order_by_message_order fold_right].
    fold (order_by_message_order rows).
    rewrite insert_length, IH. reflexivity.
Qed.

Section Whole.
Context `{PyRuntime}.

Lemma whole_exchange c h t bk md sr rm conv sid sname d u
          frames ts terminal rest fin body :
      session_exists d sid = true ->
      (coalesce (sql_max (session_orders d sid)) 0 + 2 <= INTEGER_MAX)%Z ->
      PyStr.has_nul (LLMGUIChat.arg_message c) = false ->
      PyStr.has_nul (concat_all ts) = false ->
      json_has_nul (JObj (reply_metadata c)) = false ->
      PyStr.is_empty (PyStr.strip (LLMGUIChat.arg_message c)) = false ->
      String.eqb (LLMGUIChat.arg_backend c) "ollama" = false ->
      Forall2 Wire.chat_delta frames ts ->
      Wire.chat_terminal terminal ->
      (forall q,
         LLMGUIChat.server c q
         = PostReturns (Response 200 body (frames ++ terminal :: rest) fin)) ->
      iterate (List.length ts + 2) (start c h t)
        (World (Chat (LLMGUIChat.Chat bk md sr rm conv) true (Some sid) sname)
               d u)
      = (([Stored sid "user" (LLMGUIChat.arg_message c) [];
           Remembered (Message "user" (LLMGUIChat.arg_message c));
           Posted
             (ChatCompletions (LLMGUIChat.arg_model c)
                (conv
                   ++ [Message "user"
                         (if LLMGUIChat.arg_reasoning c
                          then ReasoningPrompts.get
                                 (LLMGUIChat.arg_reasoning_mode c)
                                 ReasoningPrompts.reasoning_prompts
                                 ReasoningPrompts.simple
                               ++ LLMGUIChat.arg_message c
                          else LLMGUIChat.arg_message c)])
                true)]
            ++ repeat (Yielded ("🔄 Streaming from vLLM: "
                                  ++ LLMGUIChat.arg_model c))
                      (List.length ts)
            ++ [Remembered (Message "assistant" (concat_all ts));
                Yielded ("✅ Response completed using vLLM: "
                           ++ LLMGUIChat.arg_model c);
                Stored sid "assistant" (concat_all ts) (reply_metadata c)])%list,
         Generator
           (LLMGUIChat.Generator c
              (h ++ [Message "user" (LLMGUIChat.arg_message c);
                     Message "assistant" (concat_all ts)])
              LLMGUIChat.Finished)
           t Finished,
         World (Chat (LLMGUIChat.Chat (LLMGUIChat.arg_backend c)
                        (LLMGUIChat.arg_model c) (LLMGUIChat.arg_reasoning c)
                        (LLMGUIChat.arg_reasoning_mode c)
                        (conv ++ [Message "user" (LLMGUIChat.arg_message c);
                                  Message "assistant" (concat_all ts)]))
                     true (Some sid) sname)
               (snd (add_message
                       (snd (add_message d sid "user"
                               (LLMGUIChat.arg_message c) []))
                       sid "assistant" (concat_all ts) (reply_metadata c)))
               u).
Proof.
      intros Hex Hord Hzu Hzr Hzm Hb Hv Hf Ht Hsrv.
      assert (Ho1 : (coalesce (sql_max (session_orders d sid)) 0 + 1
                     <= INTEGER_MAX)%Z) by lia.
      destruct (roles_after d sid "user" (LLMGUIChat.arg_message c) []
                  Hex eq_refl Ho1 Hzu eq_refl) as (_ & Hex1 & Hc1).
      assert (Ho2 : (coalesce
                       (sql_max (session_orders
                                   (snd (add_message d sid "user"
                                           (LLMGUIChat.arg_message c) []))
                                   sid)) 0 + 1
                     <= INTEGER_MAX)%Z) by (rewrite Hc1; lia).
      destruct Hf as [|line t0 frames ts Hd Hf].
      - cbn [List.length Nat.add app repeat].
        erewrite iterate_yield.
        2:{ eapply first_next;
              [exact Hex|exact Ho1|exact Hzu|exact Hb|exact Hv|exact Hsrv|].
            cbn [app]. rewrite (gui_terminal _ _ _ Ht).
            unfold LLMGUIChat.settle. reflexivity. }
        unfold LLMGUIChat.append_history.
        cbn [LLMGUIChat.backend LLMGUIChat.current_model
             LLMGUIChat.show_reasoning LLMGUIChat.reasoning_mode
             LLMGUIChat.conversation_history LLMGUIChat.args
             LLMGUIChat.history].
        erewrite iterate_stop.
        2:{ apply finish; [exact Hex1|exact Ho2|exact Hzr|exact Hzm]. }
        cbn [fst snd app concat_all fold_right].
        rewrite <- !app_assoc. reflexivity.
      - cbn [List.length Nat.add app repeat].
        destruct (gui_delta line t0 (frames ++ terminal :: rest) "" Hd)
          as (chunk & Ha).
        erewrite iterate_yield.
        2:{ eapply first_next;
              [exact Hex|exact Ho1|exact Hzu|exact Hb|exact Hv|exact Hsrv|].
            cbn [app]. rewrite Ha. unfold LLMGUIChat.settle.
            cbn [LLMGUIChat.args LLMGUIChat.history LLMGUIChat.current_model].
            change (h ++ [Message "user" (LLMGUIChat.arg_message c);
                          Message "assistant" ""])%list
              with (h ++ [Message "user" (LLMGUIChat.arg_message c)]
                      ++ [Message "assistant" ""])%list.
            rewrite app_assoc, set_last_content_snoc. cbn [role].
            reflexivity. }
        rewrite (stream_to_the_end frames ts Hf terminal rest fin c
                   (h ++ [Message "user" (LLMGUIChat.arg_message c)])%list
                   t ("" ++ t0) _ _ _ _ _ sid sname _ u Ht Hex1 Ho2 Hzr Hzm).
        cbn [fst snd app concat_all fold_right].
        rewrite <- !app_assoc. reflexivity.
Qed.

End Whole.

End RoundTripFacts.

Section RunClaims.
Context `{PyRuntime}.

Import ChatDatabaseManager ChatDatabaseReads DatabaseLLMGUIChat RunFacts
         RoundTripFacts SessionHistory.

  (** X13.  A whole exchange with the chat-completions backend, on a
      session that is there and has room for two more messages, with no
      NUL in the user message, in the reply or in the metadata of the
      call (the driver and the [JSONB] type refuse it).  When the
      server answers a message that is not blank with Delta frames carrying
      [ts], then the sentinel (whatever follows it is not read), iterating
      the generator [length ts + 2] times exhausts it, and what happens is,
      in this order: the user message is stored; it is appended to the
      conversation history; the request is posted, its messages being the
      conversation so far and the user message (after the reasoning prompt
      when reasoning is on); one streaming status is yielded for every
      Delta; the reply, the concatenation of [ts], is appended to the
      conversation history; the completed status is yielded; the reply is
      stored with the metadata of the call.  The display ends with the user
      message and the reply, and so do the conversation history and the
      session in the store. *)
Theorem completed_exchange_is_stored_in_order :
    forall (c : LLMGUIChat.call) (h : list message) (t : clock) (w : world)
           (sid : uuid) (frames ts : list string) (terminal : string)
           (rest : list string) (fin : stream_end) (body : string),
      database_enabled (self w) = true ->
      current_session_id (self w) = Some sid ->
      session_exists (db w) sid = true ->
      (coalesce (sql_max (session_orders (db w) sid)) 0 + 2 <= INTEGER_MAX)%Z ->
      PyStr.has_nul (LLMGUIChat.arg_message c) = false ->
      PyStr.has_nul (concat_all ts) = false ->
      json_has_nul (JObj (reply_metadata c)) = false ->
      PyStr.is_empty (PyStr.strip (LLMGUIChat.arg_message c)) = false ->
      String.eqb (LLMGUIChat.arg_backend c) "ollama" = false ->
      Forall2 Wire.chat_delta frames ts ->
      Wire.chat_terminal terminal ->
      (forall q,
         LLMGUIChat.server c q
         = PostReturns (Response 200 body (frames ++ terminal :: rest) fin)) ->
      let text := LLMGUIChat.arg_message c in
      let model := LLMGUIChat.arg_model c in
      let conv := LLMGUIChat.conversation_history (base (self w)) in
      let asked :=
        if LLMGUIChat.arg_reasoning c
        then ReasoningPrompts.get (LLMGUIChat.arg_reasoning_mode c)
               ReasoningPrompts.reasoning_prompts ReasoningPrompts.simple
             ++ text
        else text in
      let reply := concat_all ts in
      let run := iterate (List.length ts + 2) (start c h t) w in
      fst (fst run)
      = ([Stored sid "user" text []; Remembered (Message "user" text);
          Posted (ChatCompletions model (conv ++ [Message "user" asked]) true)]
           ++ repeat (Yielded ("🔄 Streaming from vLLM: " ++ model))
                     (List.length ts)
           ++ [Remembered (Message "assistant" reply);
               Yielded ("✅ Response completed using vLLM: " ++ model);
               Stored sid "assistant" reply (reply_metadata c)])%list
      /\ at_pc (snd (fst run)) = Finished
      /\ LLMGUIChat.history (parent (snd (fst run)))
         = (h ++ [Message "user" text; Message "assistant" reply])%list
      /\ LLMGUIChat.conversation_history (base (self (snd run)))
         = (conv ++ [Message "user" text; Message "assistant" reply])%list
      /\ Exchange.roles_of (db (snd run)) sid
         = (Exchange.roles_of (db w) sid
              ++ [("user", text); ("assistant", reply)])%list.
Proof.
    intros c h t [[[bk md sr rm conv0] e s sname] d u] sid frames ts terminal
           rest fin body He Hsid Hex Hord Hzu Hzr Hzm Hb Hv Hf Ht Hsrv
           text model conv asked reply run.
    cbn [self db database_enabled current_session_id base
         LLMGUIChat.conversation_history] in *.
    subst e s run.
    rewrite (whole_exchange c h t bk md sr rm conv0 sid sname d u frames ts
               terminal rest fin body Hex Hord Hzu Hzr Hzm Hb Hv Hf Ht Hsrv).
    cbn [fst snd at_pc parent LLMGUIChat.history self base db
         LLMGUIChat.conversation_history].
    split; [reflexivity|]. split; [reflexivity|].
    split; [reflexivity|]. split; [reflexivity|].
    assert (Ho1 : (coalesce (sql_max (session_orders d sid)) 0 + 1
                   <= INTEGER_MAX)%Z) by lia.
    destruct (roles_after d sid "user" text [] Hex eq_refl Ho1 Hzu eq_refl)
      as (Hr1 & Hex1 & Hc1).
    assert (Ho2 : (coalesce (sql_max (session_orders
                                        (snd (add_message d sid "user" text []))
                                        sid)) 0 + 1
                   <= INTEGER_MAX)%Z) by (rewrite Hc1; lia).
    destruct (roles_after _ sid "assistant" reply (reply_metadata c)
                Hex1 eq_refl Ho2 Hzr Hzm) as (Hr2 & _ & _).
    rewrite Hr1, <- app_assoc in Hr2. exact Hr2.
Qed.

  (** X14.  [load_session_history] on a session that is there, with the
      database connected: the list it returns is the new conversation
      history of the object, which is then in step with the store; the
      session becomes the current one; the store is only read; the backend
      and the model of the object stay what they were (those of the
      session row are not restored); the status counts the messages of the
      session; and when the orders of the store are gap-free, the list is
      the messages of the session in the order of their insertion, role
      and content of each. *)
Theorem load_session_history_shows_the_session :
    forall (w : world) (sid : uuid),
      database_enabled (self w) = true ->
      session_exists (db w) sid = true ->
      let shown := fst (fst (load_session_history w sid)) in
      let w' := snd (load_session_history w sid) in
      LLMGUIChat.conversation_history (base (self w')) = shown
      /\ in_step w' sid
      /\ current_session_id (self w') = Some sid
      /\ db w' = db w
      /\ LLMGUIChat.backend (base (self w')) = LLMGUIChat.backend (base (self w))
      /\ LLMGUIChat.current_model (base (self w'))
         = LLMGUIChat.current_model (base (self w))
      /\ snd (fst (load_session_history w sid))
         = "✅ Loaded conversation with "
             ++ show_int (Z.of_nat (List.length (session_messages (db w) sid)))
             ++ " messages"
      /\ (gap_free (db w) ->
          shown = map shown_row (session_messages (db w) sid)).
Proof.
    intros w sid He Hex shown w'. subst shown w'.
    unfold load_session_history. rewrite He. cbn [negb].
    unfold get_session_info.
    destruct (ReadFacts2.find_some_of_existsb _ _ Hex) as (row & ->).
    cbn [fst snd self base db current_session_id
         LLMGUIChat.conversation_history LLMGUIChat.backend
         LLMGUIChat.current_model].
    split; [reflexivity|]. split; [reflexivity|].
    split; [reflexivity|]. split; [reflexivity|].
    split; [reflexivity|]. split; [reflexivity|].
    split.
    - unfold get_conversation_history.
      rewrite length_map, sorted_length. reflexivity.
    - intros Hg. unfold get_conversation_history.
      rewrite (sorted_when_counted (session_messages (db w) sid) 1).
      + rewrite map_map. reflexivity.
      + specialize (Hg sid). unfold session_orders in Hg.
        rewrite length_map in Hg. exact Hg.
Qed.

  (** X15.  A completed exchange keeps the store in step with the
      conversation.  Under the conditions of X13, when the conversation
      history was what the store held of the session before the exchange,
      it is so afterwards, and [load_session_history] on the session would
      give back the conversation with this exchange at its end: the
      history before, the user message, the reply. *)
Theorem completed_exchange_keeps_store_in_step :
    forall (c : LLMGUIChat.call) (h : list message) (t : clock) (w : world)
           (sid : uuid) (frames ts : list string) (terminal : string)
           (rest : list string) (fin : stream_end) (body : string),
      database_enabled (self w) = true ->
      current_session_id (self w) = Some sid ->
      session_exists (db w) sid = true ->
      (coalesce (sql_max (session_orders (db w) sid)) 0 + 2 <= INTEGER_MAX)%Z ->
      PyStr.has_nul (LLMGUIChat.arg_message c) = false ->
      PyStr.has_nul (concat_all ts) = false ->
      json_has_nul (JObj (reply_metadata c)) = false ->
      PyStr.is_empty (PyStr.strip (LLMGUIChat.arg_message c)) = false ->
      String.eqb (LLMGUIChat.arg_backend c) "ollama" = false ->
      Forall2 Wire.chat_delta frames ts ->
      Wire.chat_terminal terminal ->
      (forall q,
         LLMGUIChat.server c q
         = PostReturns (Response 200 body (frames ++ terminal :: rest) fin)) ->
      in_step w sid ->
      let w' := snd (iterate (List.length ts + 2) (start c h t) w) in
      in_step w' sid
      /\ fst (fst (load_session_history w' sid))
         = (LLMGUIChat.conversation_history (base (self w))
              ++ [Message "user" (LLMGUIChat.arg_message c);
                  Message "assistant" (concat_all ts)])%list.
Proof.
    intros c h t [[[bk md sr rm conv0] e s sname] d u] sid frames ts terminal
           rest fin body He Hsid Hex Hord Hzu Hzr Hzm Hb Hv Hf Ht Hsrv Hin w'.
    unfold in_step in *.
    cbn [self db database_enabled current_session_id base
         LLMGUIChat.conversation_history] in *.
    subst e s w'.
    rewrite (whole_exchange c h t bk md sr rm conv0 sid sname d u frames ts
               terminal rest fin body Hex Hord Hzu Hzr Hzm Hb Hv Hf Ht Hsrv).
    cbn [fst snd self base db LLMGUIChat.conversation_history].
    assert (Ho1 : (coalesce (sql_max (session_orders d sid)) 0 + 1
                   <= INTEGER_MAX)%Z) by lia.
    destruct (roles_after d sid "user" (LLMGUIChat.arg_message c) []
                Hex eq_refl Ho1 Hzu eq_refl) as (_ & Hex1 & Hc1).
    assert (Ho2 : (coalesce
                     (sql_max (session_orders
                                 (snd (add_message d sid "user"
                                         (LLMGUIChat.arg_message c) []))
                                 sid)) 0 + 1
                   <= INTEGER_MAX)%Z) by (rewrite Hc1; lia).
    destruct (roles_after _ sid "assistant" (concat_all ts) (reply_metadata c)
                Hex1 eq_refl Ho2 Hzr Hzm) as (_ & Hex2 & _).
    assert (Hh : map to_message
                   (get_conversation_history
                      (snd (add_message
                              (snd (add_message d sid "user"
                                      (LLMGUIChat.arg_message c) []))
                              sid "assistant" (concat_all ts)
                              (reply_metadata c)))
                      sid)
                 = (conv0 ++ [Message "user" (LLMGUIChat.arg_message c);
                              Message "assistant" (concat_all ts)])%list).
    { rewrite (history_snoc _ sid "assistant" _ _ Hex1 eq_refl Ho2 Hzr Hzm),
        (history_snoc d sid "user" _ [] Hex eq_refl Ho1 Hzu eq_refl).
      rewrite !map_app, Hin, <- app_assoc. reflexivity. }
    split; [exact Hh|].
    unfold load_session_history.
    cbn [self database_enabled negb db].
    unfold get_session_info.
    destruct (ReadFacts2.find_some_of_existsb _ _ Hex2) as (row & ->).
    cbn [fst]. exact Hh.
Qed.

End RunClaims.

Lemma completed_exchange_is_stored_in_order_witness :
  let c := Samples.again in
  let w := Samples.after_hi in
  let sid := Samples.sid0 in
  let ts := ["He"; "llo"] in
  let text := LLMGUIChat.arg_message c in
  let model := LLMGUIChat.arg_model c in
  let conv :=
    LLMGUIChat.conversation_history
      (DatabaseLLMGUIChat.base (DatabaseLLMGUIChat.self w)) in
  let asked :=
    if LLMGUIChat.arg_reasoning c
    then ReasoningPrompts.get (LLMGUIChat.arg_reasoning_mode c)
           ReasoningPrompts.reasoning_prompts ReasoningPrompts.simple
         ++ text
    else text in
  let reply := concat_all ts in
  let run :=
    @DatabaseLLMGUIChat.iterate sample_runtime (List.length ts + 2)
      (DatabaseLLMGUIChat.start c [] Samples.morning) w in
  fst (fst run)
  = ([Stored sid "user" text []; Remembered (Message "user" text);
      Posted (ChatCompletions model (conv ++ [Message "user" asked]) true)]
       ++ repeat (Yielded ("🔄 Streaming from vLLM: " ++ model))
                 (List.length ts)
       ++ [Remembered (Message "assistant" reply);
           Yielded ("✅ Response completed using vLLM: " ++ model);
           Stored sid "assistant" reply
                  (DatabaseLLMGUIChat.reply_metadata c)])%list
  /\ DatabaseLLMGUIChat.at_pc (snd (fst run)) = DatabaseLLMGUIChat.Finished
  /\ LLMGUIChat.history (DatabaseLLMGUIChat.parent (snd (fst run)))
     = ([] ++ [Message "user" text; Message "assistant" reply])%list
  /\ LLMGUIChat.conversation_history
       (DatabaseLLMGUIChat.base (DatabaseLLMGUIChat.self (snd run)))
     = (conv ++ [Message "user" text; Message "assistant" reply])%list
  /\ Exchange.roles_of (DatabaseLLMGUIChat.db (snd run)) sid
     = (Exchange.roles_of (DatabaseLLMGUIChat.db w) sid
          ++ [("user", text); ("assistant", reply)])%list.
Proof.
  apply (@completed_exchange_is_stored_in_order sample_runtime
           Samples.again [] Samples.morning Samples.after_hi Samples.sid0
           Samples.he_llo_chat ["He"; "llo"] Frames.chat_done []
           EndOfStream "").
  - reflexivity.
  - reflexivity.
  - reflexivity.
  - vm_compute. discriminate.
  - reflexivity.
  - reflexivity.
  - reflexivity.
  - reflexivity.
  - reflexivity.
  - exact SampleFacts.chat_deltas.
  - exact SampleFacts.chat_done.
  - intros q. reflexivity.
Defined.

Lemma load_session_history_shows_the_session_witness :
  let w := Samples.after_hi in
  let sid := Samples.sid0 in
  let shown := fst (fst (SessionHistory.load_session_history w sid)) in
  let w' := snd (SessionHistory.load_session_history w sid) in
  LLMGUIChat.conversation_history
    (DatabaseLLMGUIChat.base (DatabaseLLMGUIChat.self w')) = shown
  /\ SessionHistory.in_step w' sid
  /\ DatabaseLLMGUIChat.current_session_id (DatabaseLLMGUIChat.self w')
     = Some sid
  /\ DatabaseLLMGUIChat.db w' = DatabaseLLMGUIChat.db w
  /\ LLMGUIChat.backend (DatabaseLLMGUIChat.base (DatabaseLLMGUIChat.self w'))
     = LLMGUIChat.backend (DatabaseLLMGUIChat.base (DatabaseLLMGUIChat.self w))
  /\ LLMGUIChat.current_model
       (DatabaseLLMGUIChat.base (DatabaseLLMGUIChat.self w'))
     = LLMGUIChat.current_model
         (DatabaseLLMGUIChat.base (DatabaseLLMGUIChat.self w))
  /\ snd (fst (SessionHistory.load_session_history w sid))
     = "✅ Loaded conversation with "
         ++ show_int
              (Z.of_nat
                 (List.length
                    (ChatDatabaseManager.session_messages
                       (DatabaseLLMGUIChat.db w) sid)))
         ++ " messages"
  /\ (ChatDatabaseReads.gap_free (DatabaseLLMGUIChat.db w) ->
      shown
      = map SessionHistory.shown_row
          (ChatDatabaseManager.session_messages (DatabaseLLMGUIChat.db w) sid)).
Proof.
  apply (load_session_history_shows_the_session Samples.after_hi Samples.sid0).
  - reflexivity.
  - reflexivity.
Defined.

Lemma completed_exchange_keeps_store_in_step_witness :
  SessionHistory.in_step Samples.after_hi Samples.sid0
  /\ let w' :=
       snd (@DatabaseLLMGUIChat.iterate sample_runtime
              (List.length ["He"; "llo"] + 2)
              (DatabaseLLMGUIChat.start Samples.again [] Samples.morning)
              Samples.after_hi) in
     SessionHistory.in_step w' Samples.sid0
     /\ fst (fst (SessionHistory.load_session_history w' Samples.sid0))
        = (LLMGUIChat.conversation_history
             (DatabaseLLMGUIChat.base
                (DatabaseLLMGUIChat.self Samples.after_hi))
             ++ [Message "user" (LLMGUIChat.arg_message Samples.again);
                 Message "assistant" (concat_all ["He"; "llo"])])%list.
Proof.
  split; [reflexivity|].
  apply (@completed_exchange_keeps_store_in_step sample_runtime
           Samples.again [] Samples.morning Samples.after_hi Samples.sid0
           Samples.he_llo_chat ["He"; "llo"] Frames.chat_done []
           EndOfStream "").
  - reflexivity.
  - reflexivity.
  - reflexivity.
  - vm_compute. discriminate.
  - reflexivity.
  - reflexivity.
  - reflexivity.
  - reflexivity.
  - reflexivity.
  - exact SampleFacts.chat_deltas.
  - exact SampleFacts.chat_done.
  - intros q. reflexivity.
  - reflexivity.
Defined.

(* ===================================================================== *)
(** ** [send_message] of the command-line clients                         *)
(* ===================================================================== *)

Module CallFacts.


Section Facts.
Context `{PyRuntime}.




Lemma chat_chunk_raises chunk ai e :
      VLLMChat.on_chunk chunk ai = Raise e -> exists k v, e = BuiltinError k v.
Proof.
      unfold VLLMChat.on_chunk.
      destruct (PyJson.contains "choices" chunk) as [[|]|e0] eqn:C; cbn;
        [|discriminate|].
      2:{ intros E. inversion E; subst.
          destruct chunk; cbn in C; inversion C; eauto. }
      destruct (PyJson.getitem chunk "choices") as [choices|e0] eqn:G; cbn.
      2:{ intros E. inversion E; subst.
          destruct chunk; cbn in G; try (inversion G; eauto; fail).
          destruct (PyJson.lookup _ _); inversion G; eauto. }
      destruct (PyJson.len choices) as [n|e0] eqn:L; cbn.
      2:{ intros E. inversion E; subst.
          destruct choices; cbn in L; inversion L; eauto. }
      destruct n as [|n]; cbn; [discriminate|].
      destruct (PyJson.first choices) as [choice|e0] eqn:F; cbn.
      2:{ intros E. inversion E; subst.
          destruct choices as [| | |s|items|]; cbn in F;
            try (inversion F; eauto; fail).
          - destruct s; inversion F; eauto.
          - destruct items; inversion F; eauto. }
      destruct (PyJson.get choice "delta" (JObj [])) as [delta|e0] eqn:D; cbn.
      2:{ intros E. inversion E; subst.
          destruct choice; cbn in D; inversion D; eauto. }
      destruct (PyJson.contains "content" delta) as [[|]|e0] eqn:K; cbn;
        [|discriminate|].
      2:{ intros E. inversion E; subst.
          destruct delta; cbn in K; inversion K; eauto. }
      destruct (PyJson.getitem delta "content") as [token|e0] eqn:T; cbn.
      2:{ intros E. inversion E; subst.
          destruct delta; cbn in T; try (inversion T; eauto; fail).
          destruct (PyJson.lookup _ _); inversion T; eauto. }
      destruct (PyJson.concat ai token) as [a|e0] eqn:A; cbn; [discriminate|].
      intros E. inversion E; subst.
      destruct token; cbn in A; inversion A; eauto.
Qed.

Lemma chat_lines_raise ls : forall ai p a e,
      VLLMChat.read_lines ls ai = (p, a, Raised e) ->
      exists k v, e = BuiltinError k v.
Proof.
      induction ls as [|line ls IH]; intros ai p a e;
        cbn [VLLMChat.read_lines]; [discriminate|].
      destruct (VLLMChat.on_line line ai) as [[p1 a1] [| |e1]] eqn:L.
      - destruct (VLLMChat.read_lines ls a1) as [[more a'] how] eqn:R.
        intros E. inversion E; subst. eapply IH. exact R.
      - discriminate.
      - intros E. inversion E; subst. clear E.
        unfold VLLMChat.on_line in L.
        destruct (PyStr.is_empty line); [discriminate|].
        destruct (PyStr.decode line) as [decoded|];
          [|inversion L; subst; eauto].
        destruct (negb _); [discriminate|].
        destruct (String.eqb _ _); [discriminate|].
        destruct (json_loads _) as [chunk|]; [|discriminate].
        destruct (VLLMChat.on_chunk chunk ai) as [[pp aa]|e0] eqn:C;
          [discriminate|].
        inversion L; subst. eapply chat_chunk_raises. exact C.
Qed.

Lemma chat_outcomes self request server :
      let r := VLLMChat._send_streaming_message self request server in
      (snd (fst r) = self /\ (exists text, snd r = Ok text))
      \/ (exists ai, snd r = Ok ai
                     /\ snd (fst r)
                        = VLLMChat.append_history self (Message "assistant" ai))
      \/ (snd (fst r) = self
          /\ exists e, snd r = Raise e
                       /\ ((exists msg, e = RequestException msg)
                           \/ (e = KeyboardInterrupt
                               /\ server request = PostInterrupted)
                           \/ exists k v, e = BuiltinError k v)).
Proof.
      unfold VLLMChat._send_streaming_message.
      destruct (server _) as [msg|r|] eqn:S; cbn [fst snd].
      { right. right. split; [reflexivity|]. eauto. }
      2:{ right. right. split; [reflexivity|].
          eexists. split; [reflexivity|]. right. left. split; reflexivity. }
      destruct (negb _); cbn [fst snd]; [left; eauto|].
      destruct (VLLMChat.read_lines (lines r) "") as [[printed ai] how] eqn:R.
      destruct how as [| |e]; cbn [fst snd].
      - destruct (ending r); cbn [fst snd]; eauto.
        right. right. split; [reflexivity|]. eauto.
      - eauto.
      - right. right. split; [reflexivity|].
        eexists. split; [reflexivity|]. right. right.
        eapply chat_lines_raise. exact R.
Qed.

End Facts.

End CallFacts.

Section CallClaims.
Context `{PyRuntime}.

Import CallFacts.


  (** X17.  [VLLMChat.send_message] with streaming on.  The request
      holds the user message twice: the messages are the conversation so
      far, the user message as it was appended to the history, and the
      user message again (after the reasoning prompt when reasoning is
      on).  The server is asked for this request only.  The method
      raises in one case only: when the user interrupts the request
      itself, [requests.post] standing outside the [try] of the read
      loop, it raises [KeyboardInterrupt]; otherwise it returns a text,
      every exception of the read loop being turned into the text
      returned.  Afterwards the conversation history is what it was and
      the user message, or that and the reply returned. *)
Theorem vllm_send_message_in_streaming_mode :
    forall (other : VLLMChat.chat -> VLLMChat.payload -> VLLMChat.backend
                    -> list string * VLLMChat.chat * res string)
           (self : VLLMChat.chat) (user_input : string)
           (server : VLLMChat.backend),
      VLLMChat.stream_response self = true ->
      let user := Message "user" user_input in
      let asked :=
        if VLLMChat.show_reasoning self
        then ReasoningPrompts.get (VLLMChat.reasoning_mode self)
               ReasoningPrompts.reasoning_prompts ReasoningPrompts.simple
             ++ user_input
        else user_input in
      let request :=
        VLLMChat.Payload (VLLMChat.model self)
          (VLLMChat.conversation_history self ++ [user; Message "user" asked])
          (VLLMChat.max_tokens self) (VLLMChat.temperature self) true in
      let r := VLLMChatCalls.send_message other self user_input server in
      (forall server',
         server' request = server request ->
         VLLMChatCalls.send_message other self user_input server' = r)
      /\ match server request with
         | PostInterrupted => snd r = Raise KeyboardInterrupt
         | _ => exists text, snd r = Ok text
         end
      /\ (VLLMChat.conversation_history (snd (fst r))
          = (VLLMChat.conversation_history self ++ [user])%list
          \/ exists reply,
               snd r = Ok reply
               /\ VLLMChat.conversation_history (snd (fst r))
                  = (VLLMChat.conversation_history self
                       ++ [user; Message "assistant" reply])%list).
Proof.
    intros other self user_input server Hs user asked request r.
    set (sent := VLLMChat.append_history self user).
    assert (Hp : VLLMChatCalls.payload_of sent user_input = request).
    { unfold request, asked, VLLMChatCalls.payload_of, VLLMChat._build_messages,
        sent.
      cbn [VLLMChat.append_history VLLMChat.show_reasoning
           VLLMChat.reasoning_mode VLLMChat.conversation_history
           VLLMChat.model VLLMChat.max_tokens VLLMChat.temperature
           VLLMChat.stream_response].
      rewrite copy_entries, Hs, <- app_assoc. reflexivity. }
    assert (Hr : forall srv,
               VLLMChatCalls.send_message other self user_input srv
               = let '(out, self', res) :=
                   VLLMChat._send_streaming_message sent request srv in
                 match res with
                 | Raise (RequestException msg) =>
                     (out, self',
                      Ok ("Connection error: " ++ py_str (RequestException msg)))
                 | Raise KeyboardInterrupt => (out, self', res)
                 | Raise e => (out, self', Ok ("Unexpected error: " ++ py_str e))
                 | Ok _ => (out, self', res)
                 end).
    { intros srv. unfold VLLMChatCalls.send_message. fold user. fold sent.
      rewrite Hp.
      change (VLLMChat.stream_response sent)
        with (VLLMChat.stream_response self).
      rewrite Hs. reflexivity. }
    pose proof (chat_outcomes sent request server) as O. cbv zeta in O.
    split; [|split].
    - intros server' Hsame. subst r. rewrite !Hr.
      unfold VLLMChat._send_streaming_message.
      rewrite Hsame. reflexivity.
    - assert (Rest : server request <> PostInterrupted ->
                     exists text, snd r = Ok text).
      { intros Hn. subst r. rewrite Hr.
        destruct (VLLMChat._send_streaming_message sent request server)
          as [[out self'] res].
        cbn [fst snd] in O.
        destruct O as [(_ & text & ->)|[(ai & -> & _)|(_ & e & -> & He)]];
          cbn [snd]; eauto.
        destruct He as [(msg & ->)|[(-> & Hi)|(k & v & ->)]]; cbn [snd]; eauto.
        contradiction Hn. }
      destruct (server request) as [msg|resp|] eqn:S;
        try (apply Rest; discriminate).
      subst r. rewrite Hr. unfold VLLMChat._send_streaming_message.
      rewrite S. reflexivity.
    - subst r. rewrite Hr.
      destruct (VLLMChat._send_streaming_message sent request server)
        as [[out self'] res].
      cbn [fst snd] in O.
      destruct O as [(-> & text & ->)|[(ai & -> & ->)|(-> & e & -> & He)]].
      + left. reflexivity.
      + right. exists ai. split; [reflexivity|].
        unfold sent.
        cbn [fst snd VLLMChat.append_history VLLMChat.conversation_history].
        rewrite <- app_assoc. reflexivity.
      + left. destruct He as [(msg & ->)|[(-> & _)|(k & v & ->)]]; reflexivity.
Qed.

End CallClaims.


Lemma vllm_send_message_in_streaming_mode_witness :
  let other : VLLMChat.chat -> VLLMChat.payload -> VLLMChat.backend
              -> list string * VLLMChat.chat * res string :=
    fun s _ _ => ([], s, Ok "") in
  let self := Samples.vllm_cli in
  let server :=
    Samples.vllm_server (Samples.he_llo_chat ++ [Frames.chat_done]) EndOfStream in
  let user := Message "user" "hi" in
  let asked :=
    if VLLMChat.show_reasoning self
    then ReasoningPrompts.get (VLLMChat.reasoning_mode self)
           ReasoningPrompts.reasoning_prompts ReasoningPrompts.simple
         ++ "hi"
    else "hi" in
  let request :=
    VLLMChat.Payload (VLLMChat.model self)
      (VLLMChat.conversation_history self ++ [user; Message "user" asked])
      (VLLMChat.max_tokens self) (VLLMChat.temperature self) true in
  let r := @VLLMChatCalls.send_message sample_runtime other self "hi" server in
  (forall server',
     server' request = server request ->
     @VLLMChatCalls.send_message sample_runtime other self "hi" server' = r)
  /\ (exists text, snd r = Ok text)
  /\ (VLLMChat.conversation_history (snd (fst r))
      = (VLLMChat.conversation_history self ++ [user])%list
      \/ exists reply,
           snd r = Ok reply
           /\ VLLMChat.conversation_history (snd (fst r))
              = (VLLMChat.conversation_history self
                   ++ [user; Message "assistant" reply])%list).
Proof.
  intros other self server.
  apply (@vllm_send_message_in_streaming_mode sample_runtime other self "hi"
           server).
  reflexivity.
Defined.

(** The sample exchange of the chat-completions client: the request
    carries [hi] twice, and the history ends with [hi] and the reply. *)
Example vllm_cli_sends_hi_twice :
  let other : VLLMChat.chat -> VLLMChat.payload -> VLLMChat.backend
              -> list string * VLLMChat.chat * res string :=
    fun s _ _ => ([], s, Ok "") in
  let seen (p : VLLMChat.payload) : post_result :=
    PostReturns
      (Response 200 ""
         (map (fun m => Frames.sse (Frames.chat_delta_json "He"))
              (VLLMChat.payload_messages p)
            ++ [Frames.chat_done])
         EndOfStream) in
  let r := @VLLMChatCalls.send_message sample_runtime other Samples.vllm_cli
             "hi" seen in
  snd r = Ok "HeHe"
  /\ VLLMChat.conversation_history (snd (fst r))
     = [Message "user" "hi"; Message "assistant" "HeHe"].
Proof. split; reflexivity. Qed.

(* ===================================================================== *)
(** ** A request of the web chat that fails at once                       *)
(* ===================================================================== *)

Section FailClaims.
Context `{PyRuntime}.

Import ChatDatabaseManager ChatDatabaseReads DatabaseLLMGUIChat RunFacts
         RoundTripFacts SessionHistory.

  (** X18.  A request that fails at once (the server cannot be reached,
      or answers with a status other than 200) on a session that is there,
      for a message that is not blank and holds no NUL:
      the user message has been stored and appended to the conversation
      history before the request is made, and stays in both; the error is
      yielded once and written over the assistant entry of the display
      after ["❌ "]; the second [next] exhausts the generator and stores
      nothing, the last entry of the conversation history being the user
      message.  The store stays in step with the conversation, which now
      ends with a user message that has no reply. *)
Theorem failed_request_leaves_the_user_message :
    forall (c : LLMGUIChat.call) (h : list message) (t : clock) (w : world)
           (sid : uuid) (err : string),
      database_enabled (self w) = true ->
      current_session_id (self w) = Some sid ->
      session_exists (db w) sid = true ->
      (coalesce (sql_max (session_orders (db w) sid)) 0 + 1 <= INTEGER_MAX)%Z ->
      PyStr.has_nul (LLMGUIChat.arg_message c) = false ->
      PyStr.is_empty (PyStr.strip (LLMGUIChat.arg_message c)) = false ->
      (forall q, fails_at_once (LLMGUIChat.server c q) = Some err) ->
      let text := LLMGUIChat.arg_message c in
      let user := Message "user" text in
      let b :=
        LLMGUIChat.Chat (LLMGUIChat.arg_backend c) (LLMGUIChat.arg_model c)
          (LLMGUIChat.arg_reasoning c) (LLMGUIChat.arg_reasoning_mode c)
          (LLMGUIChat.conversation_history (base (self w)) ++ [user]) in
      let q :=
        if String.eqb (LLMGUIChat.arg_backend c) "ollama"
        then Generate (LLMGUIChat.arg_model c) (LLMGUIChat.ollama_prompt b text) true
        else ChatCompletions (LLMGUIChat.arg_model c)
                             (LLMGUIChat.vllm_messages b text) true in
      let run := iterate 2 (start c h t) w in
      fst (fst run)
      = [Stored sid "user" text []; Remembered user; Posted q; Yielded err]
      /\ at_pc (snd (fst run)) = Finished
      /\ LLMGUIChat.history (parent (snd (fst run)))
         = (h ++ [user; Message "assistant" ("❌ " ++ err)])%list
      /\ LLMGUIChat.conversation_history (base (self (snd run)))
         = (LLMGUIChat.conversation_history (base (self w)) ++ [user])%list
      /\ Exchange.roles_of (db (snd run)) sid
         = (Exchange.roles_of (db w) sid ++ [("user", text)])%list
      /\ (in_step w sid -> in_step (snd run) sid).
Proof.
    intros c h t [[[bk md sr rm conv] e s sname] d u] sid err
           He Hsid Hex Ho Hz Hb Hfail text user b q run.
    cbn [self db database_enabled current_session_id base
         LLMGUIChat.conversation_history] in *.
    subst e s.
    destruct (roles_after d sid "user" text [] Hex eq_refl Ho Hz eq_refl)
      as (Hr1 & Hex1 & Hc1).
    pose proof (history_snoc d sid "user" text [] Hex eq_refl Ho Hz eq_refl)
      as Hh1.
    set (d1 := snd (add_message d sid "user" text [])) in *.
    set (b1 := LLMGUIChat.Chat (LLMGUIChat.arg_backend c) (LLMGUIChat.arg_model c)
                 (LLMGUIChat.arg_reasoning c) (LLMGUIChat.arg_reasoning_mode c)
                 (conv ++ [user])).
    assert (First :
               resume (start c h t)
                      (World (Chat (LLMGUIChat.Chat bk md sr rm conv)
                                   true (Some sid) sname) d u)
               = (([Stored sid "user" text []; Remembered user; Posted q],
                   Yield err),
                  Generator
                    (LLMGUIChat.Generator c
                       (h ++ [user; Message "assistant" ("❌ " ++ err)])
                       LLMGUIChat.Returning)
                    t InParent,
                  World (Chat b1 true (Some sid) sname) d1 u)).
    { unfold d1, text. unfold resume, start, LLMGUIChat.start. cbn [at_pc].
      unfold begin, with_base.
      cbn [parent LLMGUIChat.args now self base
           database_enabled current_session_id session_name db uuid4].
      unfold add_message_to_db.
      cbn [self database_enabled current_session_id db uuid4].
      rewrite (add_message_ok d sid "user" _ [] Hex eq_refl Ho Hz eq_refl).
      cbn [app snd].
      unfold relay.
      cbn [parent self base].
      unfold LLMGUIChat.resume. cbn [LLMGUIChat.at_pc].
      unfold LLMGUIChat.begin.
      cbn [LLMGUIChat.args LLMGUIChat.history].
      rewrite Hb.
      unfold LLMGUIChat.update_settings, LLMGUIChat.append_history.
      cbn [LLMGUIChat.backend LLMGUIChat.current_model
           LLMGUIChat.show_reasoning LLMGUIChat.reasoning_mode
           LLMGUIChat.conversation_history].
      match goal with
      | |- context [Posted ?q'] => change q' with q
      end.
      specialize (Hfail q).
      unfold fails_at_once in Hfail.
      destruct (LLMGUIChat.server c _) as [msg|r|]; [| |discriminate Hfail].
      - injection Hfail as <-. unfold LLMGUIChat.handle.
        cbn [py_str LLMGUIChat.with_effects with_effects app
             LLMGUIChat.args LLMGUIChat.history].
        change (h ++ [Message "user" (LLMGUIChat.arg_message c);
                      Message "assistant" ""])%list
          with (h ++ [Message "user" (LLMGUIChat.arg_message c)]
                  ++ [Message "assistant" ""])%list.
        rewrite app_assoc, set_last_content_snoc, <- app_assoc.
        reflexivity.
      - destruct (negb (status_code r =? 200)%Z); [|discriminate Hfail].
        injection Hfail as <-.
        cbn [LLMGUIChat.with_effects with_effects app
             LLMGUIChat.args LLMGUIChat.history].
        change (h ++ [Message "user" (LLMGUIChat.arg_message c);
                      Message "assistant" ""])%list
          with (h ++ [Message "user" (LLMGUIChat.arg_message c)]
                  ++ [Message "assistant" ""])%list.
        rewrite app_assoc, set_last_content_snoc, <- app_assoc.
        reflexivity. }
    assert (Second :
              resume (Generator
                        (LLMGUIChat.Generator c
                           (h ++ [user; Message "assistant" ("❌ " ++ err)])
                           LLMGUIChat.Returning)
                        t InParent)
                     (World (Chat b1 true (Some sid) sname) d1 u)
              = (([], StopIteration),
                 Generator
                   (LLMGUIChat.Generator c
                      (h ++ [user; Message "assistant" ("❌ " ++ err)])
                      LLMGUIChat.Finished)
                   t Finished,
                 World (Chat b1 true (Some sid) sname) d1 u)).
    { unfold resume, relay. cbn [at_pc parent now self base].
      unfold LLMGUIChat.resume. cbn [LLMGUIChat.at_pc LLMGUIChat.args
                                     LLMGUIChat.history].
      unfold with_base, store_reply, b1.
      cbn [self base database_enabled current_session_id session_name db uuid4
           LLMGUIChat.conversation_history LLMGUIChat.args].
      rewrite DBFacts.last_some.
      cbn [role user String.eqb Ascii.eqb Bool.eqb]. reflexivity. }
    subst run.
    rewrite (iterate_yield 1 _ _ _ _ _ _ First).
    rewrite (iterate_stop 0 _ _ _ _ _ Second).
    cbn [fst snd app at_pc parent LLMGUIChat.history self base db
         LLMGUIChat.conversation_history b1].
    split; [reflexivity|].
    split; [reflexivity|]. split; [reflexivity|]. split; [reflexivity|].
    split; [exact Hr1|].
    unfold in_step.
    cbn [self base db LLMGUIChat.conversation_history].
    intros Hin. rewrite Hh1, map_app, Hin. reflexivity.
Qed.

End FailClaims.

Lemma failed_request_leaves_the_user_message_witness :
  let c := Samples.hi_unreachable in
  let w := Samples.after_hi in
  let sid := Samples.sid0 in
  let err := "Connection error: connection refused" in
  let text := LLMGUIChat.arg_message c in
  let user := Message "user" text in
  let run :=
    @DatabaseLLMGUIChat.iterate sample_runtime 2
      (DatabaseLLMGUIChat.start c [] Samples.morning) w in
  fst (fst run)
  = [Stored sid "user" text []; Remembered user;
     Posted (ChatCompletions "m"
               [Message "user" "hi"; Message "assistant" "Hello";
                Message "user" "hi"] true);
     Yielded err]
  /\ DatabaseLLMGUIChat.at_pc (snd (fst run)) = DatabaseLLMGUIChat.Finished
  /\ LLMGUIChat.history (DatabaseLLMGUIChat.parent (snd (fst run)))
     = ([] ++ [user; Message "assistant" ("❌ " ++ err)])%list
  /\ LLMGUIChat.conversation_history
       (DatabaseLLMGUIChat.base (DatabaseLLMGUIChat.self (snd run)))
     = (LLMGUIChat.conversation_history
          (DatabaseLLMGUIChat.base (DatabaseLLMGUIChat.self w)) ++ [user])%list
  /\ Exchange.roles_of (DatabaseLLMGUIChat.db (snd run)) sid
     = (Exchange.roles_of (DatabaseLLMGUIChat.db w) sid ++ [("user", text)])%list
  /\ (SessionHistory.in_step w sid -> SessionHistory.in_step (snd run) sid).
Proof.
  apply (@failed_request_leaves_the_user_message sample_runtime
           Samples.hi_unreachable [] Samples.morning Samples.after_hi
           Samples.sid0 "Connection error: connection refused").
  - reflexivity.
  - reflexivity.
  - reflexivity.
  - vm_compute. discriminate.
  - reflexivity.
  - reflexivity.
  - intros q. reflexivity.
Defined.
